(** * image_stitch: a shallow embedding of [stitch_images]

    The program tiles the PNG files of a directory into one RGBA grid
    image.  This file embeds [src/image_stitch.py] together with a model of
    the library calls it makes (Pillow rasters, the POSIX path functions,
    a small file system, the console), and proves the properties stated
    about the grid layout, the pixel composition and the failure paths. *)

From Stdlib Require Import ZArith Lia Ascii.
From Stdlib Require Strings.Byte.
From stdpp Require Import base numbers option list gmap strings sorting pretty.

Local Open Scope Z_scope.

(** ** 8-bit bands *)

Abbreviation byte := Byte.byte.

Module U8.

(** The integer a band holds, as Python reads it out of a pixel tuple. *)
Definition to_Z (b : byte) : Z := Z.of_N (Byte.to_N b).

(** Storing into a [UINT8] keeps the low eight bits. *)
Definition of_Z (z : Z) : byte :=
  default Byte.x00 (Byte.of_N (Z.to_N (z mod 256))).

Definition zero : byte := Byte.x00.
Definition full : byte := Byte.xff.

(** Pillow's [DIV255(a, tmp)]: [tmp = a + 128; ((tmp >> 8) + tmp) >> 8]. *)
Definition DIV255 (a : Z) : Z :=
  let tmp := a + 128 in Z.shiftr (Z.shiftr tmp 8 + tmp) 8.

(** Pillow's [BLEND(mask, in1, in2, tmp)]:
    [DIV255(in1 * (255 - mask) + in2 * mask, tmp)], stored in a [UINT8]. *)
Definition BLEND (mask in1 in2 : byte) : byte :=
  of_Z (DIV255 (to_Z in1 * (255 - to_Z mask) + to_Z in2 * to_Z mask)).

End U8.

Global Instance byte_eq_dec : EqDecision byte := Byte.byte_eq_dec.

(** ** Rasters and images *)

(** A pixel of each of the three modes the model decodes: Python reads them
    as an int, a 3-tuple and a 4-tuple. *)
Definition rgb : Type := byte * byte * byte.
Definition rgba : Type := byte * byte * byte * byte.

(** [width], [height] and the pixels in the row-major order of
    [Image.getdata()]. *)
Record Raster (A : Type) : Type := mkRaster {
  width : Z;
  height : Z;
  data : list A
}.
Arguments mkRaster {A} _ _ _.
Arguments width {A} _.
Arguments height {A} _.
Arguments data {A} _.

(** A Pillow image with its mode.  PNG files of the modes ["L"], ["RGB"]
    and ["RGBA"] are modelled. *)
Inductive Image : Type :=
| ImL (r : Raster byte)
| ImRGB (r : Raster rgb)
| ImRGBA (r : Raster rgba).

Module Raster.

(** A decoder hands out a raster whose buffer has [width * height]
    entries. *)
Definition wf {A} (r : Raster A) : bool :=
  (0 <=? width r) && (0 <=? height r) &&
  (Z.of_nat (length (data r)) =? width r * height r).

Definition inside {A} (r : Raster A) (x y : Z) : bool :=
  (0 <=? x) && (x <? width r) && (0 <=? y) && (y <? height r).

(** [Image.getpixel((x, y))]. *)
Definition getpixel {A} (r : Raster A) (x y : Z) : option A :=
  if inside r x y then data r !! Z.to_nat (y * width r + x) else None.

Definition map {A B} (f : A → B) (r : Raster A) : Raster B :=
  mkRaster (width r) (height r) (f <$> data r).

(** [Image.new(mode, (w, h))] with the default colour 0: every band of
    every pixel is zero. *)
Definition new {A} (zero : A) (w h : Z) : Raster A :=
  mkRaster w h (replicate (Z.to_nat (w * h)) zero).

(** A raster given by its pixel at each coordinate. *)
Definition tabulate {A} (w h : Z) (f : Z → Z → A) : Raster A :=
  mkRaster w h ((λ k : nat, f (Z.of_nat k mod w) (Z.of_nat k / w)) <$> seq 0 (Z.to_nat (w * h))).

(** [Image.putdata(seq)]: the sequence overwrites the buffer from its
    start. *)
Definition putdata {A} (r : Raster A) (new_data : list A) : Raster A :=
  mkRaster (width r) (height r)
    (take (length (data r)) new_data ++ drop (length new_data) (data r)).

End Raster.

Definition transparent : rgba := (U8.zero, U8.zero, U8.zero, U8.zero).

Module Image.

Definition size (im : Image) : Z * Z :=
  match im with
  | ImL r => (width r, height r)
  | ImRGB r => (width r, height r)
  | ImRGBA r => (width r, height r)
  end.

Definition wf (im : Image) : bool :=
  match im with
  | ImL r => Raster.wf r
  | ImRGB r => Raster.wf r
  | ImRGBA r => Raster.wf r
  end.

(** The raster of [im.convert("RGBA")]: grey and RGB pixels become
    opaque. *)
Definition convert_RGBA (im : Image) : Raster rgba :=
  match im with
  | ImL r => Raster.map (λ l, (l, l, l, U8.full)) r
  | ImRGB r => Raster.map (λ '(r, g, b), (r, g, b, U8.full)) r
  | ImRGBA r => r
  end.

(** The alpha band of an image that has one. *)
Definition alpha (im : Image) : option (Raster byte) :=
  match im with
  | ImRGBA r => Some (Raster.map (λ '(_, _, _, a), a) r)
  | _ => None
  end.

(** What [ImagingPaste] takes from an image given as [mask]: the band of
    an ["L"] image, the alpha band of an ["RGBA"] image; an ["RGB"] image
    is a "bad transparency mask". *)
Definition matte (im : Image) : option (Raster byte) :=
  match im with
  | ImL r => Some r
  | ImRGB _ => None
  | ImRGBA _ => alpha im
  end.

End Image.

(** ** Pasting *)

Module Paste.

(** One pixel of [paste_mask_L] / [paste_mask_RGBA]: the four bands of
    the destination are blended with the source by the mask value. *)
Definition blend_px (a : byte) (out inp : rgba) : rgba :=
  let '(o0, o1, o2, o3) := out in
  let '(i0, i1, i2, i3) := inp in
  (U8.BLEND a o0 i0, U8.BLEND a o1 i1, U8.BLEND a o2 i2, U8.BLEND a o3 i3).

(** The destination pixel at [(x, y)] after [ImagingPaste] of [im] with
    its upper left corner at [(x0, y0)]: inside the (clipped) box the
    source pixel replaces it, or is blended in under the mask. *)
Definition px (im : Raster rgba) (mask : option (Raster byte))
    (x0 y0 : Z) (x y : Z) (out : rgba) : rgba :=
  match Raster.getpixel im (x - x0) (y - y0) with
  | None => out
  | Some inp =>
      match mask with
      | None => inp
      | Some m =>
          match Raster.getpixel m (x - x0) (y - y0) with
          | Some a => blend_px a out inp
          | None => out
          end
      end
  end.

(** [ImagingPaste(self, im, mask, x0, y0, x0 + w, y0 + h)]. *)
Definition run (self im : Raster rgba) (mask : option (Raster byte))
    (x0 y0 : Z) : Raster rgba :=
  mkRaster (width self) (height self)
    (imap (λ k out, px im mask x0 y0
                      (Z.of_nat k mod width self) (Z.of_nat k / width self) out)
          (data self)).

(** Whether the box of an image of size [(w, h)] pasted at [(x0, y0)]
    meets the destination at all; [ImagingPaste] returns before looking
    at the mask when it does not. *)
Definition clipped_away (self : Raster rgba) (w h x0 y0 : Z) : bool :=
  let xsize := Z.min (x0 + w) (width self) - Z.max x0 0 in
  let ysize := Z.min (y0 + h) (height self) - Z.max y0 0 in
  (xsize <=? 0) || (ysize <=? 0).

End Paste.

(** ** Text and POSIX paths *)

Module Text.

(** [str.lower()] on ASCII text. *)
Definition lower_char (c : ascii) : ascii :=
  let n := nat_of_ascii c in
  if (65 <=? n)%nat && (n <=? 90)%nat then ascii_of_nat (n + 32) else c.

Fixpoint lower (s : string) : string :=
  match s with
  | EmptyString => EmptyString
  | String c s' => String (lower_char c) (lower s')
  end.

Definition is_sep (c : ascii) : bool := bool_decide (c = "/"%char).

Fixpoint all_sep (s : string) : bool :=
  match s with
  | EmptyString => true
  | String c s' => is_sep c && all_sep s'
  end.

Fixpoint has_sep (s : string) : bool :=
  match s with
  | EmptyString => false
  | String c s' => is_sep c || has_sep s'
  end.

(** [s.rstrip('/')]. *)
Fixpoint rstrip_sep (s : string) : string :=
  match s with
  | EmptyString => EmptyString
  | String c s' =>
      match rstrip_sep s' with
      | EmptyString => if is_sep c then EmptyString else String c EmptyString
      | r => String c r
      end
  end.

(** [i = p.rfind('/') + 1; (p[:i], p[i:])]. *)
Fixpoint cut_last_sep (p : string) : string * string :=
  match p with
  | EmptyString => (EmptyString, EmptyString)
  | String c p' =>
      if has_sep p' then
        let '(h, t) := cut_last_sep p' in (String c h, t)
      else if is_sep c then (String c EmptyString, p')
      else (EmptyString, String c p')
  end.

(** [s.startswith(prefix)] and [s.endswith(suffix)]. *)
Definition startswith (s pre : string) : bool := String.prefix pre s.
Definition endswith (s suf : string) : bool :=
  String.prefix (String.rev suf) (String.rev s).

(** [s[len(pre):]] when [s] starts with [pre]. *)
Fixpoint strip_prefix (pre s : string) : option string :=
  match pre, s with
  | EmptyString, _ => Some s
  | String a pre', String b s' =>
      if bool_decide (a = b) then strip_prefix pre' s' else None
  | String _ _, EmptyString => None
  end.

End Text.

Module posixpath.

(** [posixpath.split(p)]. *)
Definition split (p : string) : string * string :=
  let '(head, tail) := Text.cut_last_sep p in
  (if negb (bool_decide (head = "")) && negb (Text.all_sep head)
   then Text.rstrip_sep head else head, tail).

(** [posixpath.dirname(p)]: the head of [split]. *)
Definition dirname (p : string) : string := (split p).1.

Definition basename (p : string) : string := (Text.cut_last_sep p).2.

(** [posixpath.join(a, b)]. *)
Definition join (a b : string) : string :=
  if Text.startswith b "/" then b
  else if bool_decide (a = "") || Text.endswith a "/" then a +:+ b
  else a +:+ "/" +:+ b.

End posixpath.

(** ** The environment

    The run is a function of the file system, of what the user types and of
    two tools the model does not look into: Pillow's resampling filter and
    the [pngquant] executable.  A path is the key of its node; a key
    [d/n] stands for the entry [n] of the directory [d], and a key made of
    slashes only is the root directory, which always exists. *)

Inductive content : Type :=
| Png (im : Image)   (** a PNG file holding the raster [im] *)
| Blob.              (** anything else *)

Inductive node : Type :=
| Dir
| File (c : content).

Global Instance content_inhabited : Inhabited content := populate Blob.

(** The library calls of a run, recorded in the order they are made. *)
Module Call.
Inductive t : Type :=
| remove (path : string)
| glob (pathname : string)
| open (path : string)
| new (size : Z * Z)
| resize (size : Z * Z)
| paste (im : Image) (box : Z * Z) (mask : option Image)
| makedirs (name : string)
| save (path : string)
| run (args : list string)
| move (src dst : string).

(** The calls that allocate or draw on a canvas. *)
Definition on_canvas (c : t) : bool :=
  match c with
  | new _ | resize _ | paste _ _ _ | save _ => true
  | _ => false
  end.

(** The calls that decode a file. *)
Definition decodes (c : t) : bool :=
  match c with open _ => true | _ => false end.
End Call.

Record World : Type := mkWorld {
  fs : gmap string node;
  stdin : list string;     (** the lines the user will type *)
  stdout : list string;    (** what was written to the console *)
  calls : list Call.t
}.

Inductive exn : Type :=
| AssertionError (msg : string)
| SystemExit (code : option Z)
| EOFError
| FileNotFoundError (path : string)
| FileExistsError (path : string)
| IsADirectoryError (path : string)
| UnidentifiedImageError (path : string)
| ValueError (msg : string)
| CalledProcessError (returncode : Z)
| shutil_Error (msg : string)
| ZeroDivisionError.

(** The subclasses of [OSError] among them. *)
Definition is_OSError (e : exn) : bool :=
  match e with
  | FileNotFoundError _ | FileExistsError _ | IsADirectoryError _
  | shutil_Error _ => true
  | _ => false
  end.

Inductive outcome (A : Type) : Type :=
| Return (a : A)
| Raise (e : exn).
Arguments Return {A} _.
Arguments Raise {A} _.

(** The status the interpreter exits with: [sys.exit()] raises
    [SystemExit(None)], which is status 0; an uncaught exception of any
    other class is status 1. *)
Definition exit_status {A} (o : outcome A) : Z :=
  match o with
  | Return _ => 0
  | Raise (SystemExit None) => 0
  | Raise (SystemExit (Some n)) => n
  | Raise _ => 1
  end.

(** Computations thread the world; an exception keeps the world it was
    raised in. *)
Definition M (A : Type) : Type := World → outcome A * World.

Global Instance M_ret : MRet M := λ A a w, (Return a, w).
Global Instance M_bind : MBind M := λ A B f m w,
  match m w with
  | (Return a, w') => f a w'
  | (Raise e, w') => (Raise e, w')
  end.

Definition get : M World := λ w, (Return w, w).
Definition raise {A} (e : exn) : M A := λ w, (Raise e, w).
Definition called (c : Call.t) : M unit := λ w,
  (Return (), mkWorld (fs w) (stdin w) (stdout w) (calls w ++ [c])).
Definition put_fs (f : gmap string node) : M unit := λ w,
  (Return (), mkWorld f (stdin w) (stdout w) (calls w)).

(** [try: m  except E: h] for the exceptions [E] selects. *)
Definition catch {A} (m : M A) (E : exn → bool) (h : exn → M A) : M A := λ w,
  match m w with
  | (Raise e, w') => if E e then h e w' else (Raise e, w')
  | r => r
  end.

(** [print(line)] and [input(prompt)]. *)
Definition print (line : string) : M unit := λ w,
  (Return (), mkWorld (fs w) (stdin w) (stdout w ++ [line]) (calls w)).
Definition input (prompt : string) : M string := λ w,
  match stdin w with
  | [] => (Raise EOFError, mkWorld (fs w) [] (stdout w ++ [prompt]) (calls w))
  | line :: rest => (Return line, mkWorld (fs w) rest (stdout w ++ [prompt]) (calls w))
  end.
Definition sys_exit {A} : M A := raise (SystemExit None).

(** [assert cond, msg]. *)
Definition assert (cond : bool) (msg : string) : M unit :=
  if cond then mret () else raise (AssertionError msg).

(** *** The file system *)

Module FS.

Definition is_root (p : string) : bool :=
  negb (bool_decide (p = "")) && Text.all_sep p.

(** The node a path names; the empty path names none. *)
Definition stat (f : gmap string node) (p : string) : option node :=
  if bool_decide (p = "") then None else f !! p.

Definition exists_ (f : gmap string node) (p : string) : bool :=
  is_root p || match stat f p with Some _ => true | None => false end.

Definition isdir (f : gmap string node) (p : string) : bool :=
  is_root p || match stat f p with Some Dir => true | _ => false end.

(** The name under which [p] is an entry of the directory [d]. *)
Definition entry (d p : string) : option string :=
  n ← Text.strip_prefix (if Text.endswith d "/" then d else d +:+ "/") p;
  if negb (bool_decide (n = "")) && negb (Text.has_sep n) then Some n else None.

(** [os.listdir(d)], in the order the system enumerates it. *)
Definition listdir (f : gmap string node) (d : string) : list string :=
  omap (entry d) (map_to_list f).*1.

End FS.

(** *** The tools outside the program *)

Inductive tool_result : Type :=
| ToolMissing                 (** no such executable *)
| ToolExit (status : Z)       (** exits with [status], writes nothing *)
| ToolWrote (im : Image).     (** exits with 0 after writing [im] *)

(** [resample_*] is the value Pillow's filter gives the pixel [(x, y)] of
    the image resized to [(w, h)]; [pngquant] is what the quantiser makes of
    the file it is given. *)
Record Tools : Type := mkTools {
  resample_L : Raster byte → Z → Z → Z → Z → byte;
  resample_RGB : Raster rgb → Z → Z → Z → Z → rgb;
  resample_RGBA : Raster rgba → Z → Z → Z → Z → rgba;
  pngquant : content → tool_result
}.

(** ** Library calls *)

Section Library.

Context (tools : Tools).

Definition os_path_exists (path : string) : M bool :=
  w ← get; mret (FS.exists_ (fs w) path).

Definition os_path_isdir (path : string) : M bool :=
  w ← get; mret (FS.isdir (fs w) path).

(** [os.remove(path)]. *)
Definition os_remove (path : string) : M unit :=
  called (Call.remove path);;
  w ← get;
  match FS.stat (fs w) path with
  | Some (File _) => put_fs (delete path (fs w))
  | Some Dir => raise (IsADirectoryError path)
  | None =>
      if FS.is_root path then raise (IsADirectoryError path)
      else raise (FileNotFoundError path)
  end.

(** Whether the directory a new entry [path] goes into is there; the
    empty head is the working directory. *)
Definition parent_ok (f : gmap string node) (path : string) : bool :=
  let parent := posixpath.dirname (Text.rstrip_sep path) in
  bool_decide (parent = "") || FS.isdir f parent.

(** [os.mkdir(name)]. *)
Definition os_mkdir (name : string) : M unit :=
  w ← get;
  if bool_decide (name = "") then raise (FileNotFoundError name)
  else if FS.exists_ (fs w) name then raise (FileExistsError name)
  else if negb (parent_ok (fs w) name) then raise (FileNotFoundError name)
  else put_fs (<[name := Dir]> (fs w)).

(** The body of [os.makedirs(name, exist_ok=True)].  Every recursive call
    is on a shorter name, so a [depth] of the length of [name] is never
    used up ([makedirs_depth] below). *)
Fixpoint makedirs (depth : nat) (name : string) : M unit :=
  let '(head, tail) := posixpath.split name in
  let '(head, tail) :=
    if bool_decide (tail = "") then posixpath.split head else (head, tail) in
  ex ← os_path_exists head;
  returned ←
    (if negb (bool_decide (head = "")) && negb (bool_decide (tail = "")) && negb ex
     then
       match depth with
       | O => mret ()
       | S depth' =>
           catch (makedirs depth' head)
                 (λ e, match e with FileExistsError _ => true | _ => false end)
                 (λ _, mret ())
       end;;
       mret (bool_decide (tail = "."))
     else mret false);
  if returned : bool then mret ()
  else
    catch (os_mkdir name) is_OSError
          (λ e, (isd ← os_path_isdir name;
                 if isd : bool then mret () else raise e) : M unit).

Definition os_makedirs (name : string) : M unit :=
  called (Call.makedirs name);;
  makedirs (String.length name) name.

(** [glob.glob(f"{directory}/*.png")] for a [directory] without glob
    metacharacters: the entries of the pattern's directory part that do
    not start with a dot and end in [.png], joined to that directory,
    in the order the system enumerates them. *)
Definition glob_png (f : gmap string node) (directory : string) : list string :=
  let dirname := posixpath.dirname (directory +:+ "/*.png") in
  posixpath.join dirname <$>
    filter (λ n, negb (Text.startswith n ".") && Text.endswith n ".png")
           (FS.listdir f dirname).

Definition glob_glob_png (directory : string) : M (list string) :=
  called (Call.glob (directory +:+ "/*.png"));;
  w ← get; mret (glob_png (fs w) directory).

(** [sorted(paths)]: ascending in the order of [str]. *)
Definition sorted (paths : list string) : list string :=
  merge_sort String.le paths.

(** A file is decoded to the raster it holds; a PNG raster has both
    dimensions positive and a full buffer. *)
Definition decodable (im : Image) : bool :=
  Image.wf im && (1 <=? (Image.size im).1) && (1 <=? (Image.size im).2).

Definition decode (f : gmap string node) (path : string) : outcome Image :=
  match FS.stat f path with
  | None =>
      if FS.is_root path then Raise (IsADirectoryError path)
      else Raise (FileNotFoundError path)
  | Some Dir => Raise (IsADirectoryError path)
  | Some (File Blob) => Raise (UnidentifiedImageError path)
  | Some (File (Png im)) =>
      if decodable im then Return im else Raise (UnidentifiedImageError path)
  end.

(** [Image.open(path)], decoded. *)
Definition Image_open (path : string) : M Image :=
  called (Call.open path);;
  w ← get;
  match decode (fs w) path with
  | Return im => mret im
  | Raise e => raise e
  end.

(** [Image.new('RGBA', size)]. *)
Definition Image_new_RGBA (size : Z * Z) : M (Raster rgba) :=
  called (Call.new size);;
  let '(w, h) := size in
  if (w <? 0) || (h <? 0) then raise (ValueError "Width and height must be >= 0")
  else mret (Raster.new transparent w h).

(** [im.resize(size)]: same mode, every pixel from the filter. *)
Definition resize (im : Image) (size : Z * Z) : Image :=
  let '(w, h) := size in
  match im with
  | ImL r => ImL (Raster.tabulate w h (resample_L tools r w h))
  | ImRGB r => ImRGB (Raster.tabulate w h (resample_RGB tools r w h))
  | ImRGBA r => ImRGBA (Raster.tabulate w h (resample_RGBA tools r w h))
  end.

Definition Image_resize (im : Image) (size : Z * Z) : M Image :=
  called (Call.resize size);;
  mret (resize im size).

(** [self.paste(im, box, mask)] on an RGBA destination: [im] is converted
    to RGBA; a box that misses the destination is a no-op, and only then
    is the mode of the mask looked at. *)
Definition paste (self : Raster rgba) (im : Image) (box : Z * Z)
    (mask : option Image) : outcome (Raster rgba) :=
  let '(x0, y0) := box in
  let '(w, h) := Image.size im in
  if Paste.clipped_away self w h x0 y0 then Return self
  else
    match mask with
    | None => Return (Paste.run self (Image.convert_RGBA im) None x0 y0)
    | Some m =>
        match Image.matte m with
        | Some a => Return (Paste.run self (Image.convert_RGBA im) (Some a) x0 y0)
        | None => Raise (ValueError "bad transparency mask")
        end
    end.

Definition Image_paste (self : Raster rgba) (im : Image) (box : Z * Z)
    (mask : option Image) : M (Raster rgba) :=
  called (Call.paste im box mask);;
  match paste self im box mask with
  | Return r => mret r
  | Raise e => raise e
  end.

(** [result.save(path, "PNG")]. *)
Definition Image_save (result : Raster rgba) (path : string) : M unit :=
  called (Call.save path);;
  w ← get;
  if FS.isdir (fs w) path then raise (IsADirectoryError path)
  else if negb (parent_ok (fs w) path) then raise (FileNotFoundError path)
  else put_fs (<[path := File (Png (ImRGBA result))]> (fs w)).

(** [subprocess.run(['pngquant', '256', '-o', output, temp_file],
    check=True)]; [pngquant] does not overwrite an existing file (its
    status 15) and cannot write where there is no directory (16). *)
Definition subprocess_run_pngquant (output temp_file : string) : M unit :=
  called (Call.run ["pngquant"; "256"; "-o"; output; temp_file]);;
  w ← get;
  match FS.stat (fs w) temp_file with
  | Some (File c) =>
      match pngquant tools c with
      | ToolMissing => raise (FileNotFoundError "pngquant")
      | ToolExit status =>
          if status =? 0 then mret () else raise (CalledProcessError status)
      | ToolWrote im =>
          if bool_decide (output = "") || FS.exists_ (fs w) output
          then raise (CalledProcessError 15)
          else if negb (parent_ok (fs w) output) then raise (CalledProcessError 16)
          else put_fs (<[output := File (Png im)]> (fs w))
      end
  | _ => raise (CalledProcessError 2)
  end.

(** [shutil.move(src, dst)] of a file. *)
Definition shutil_move (src dst : string) : M unit :=
  called (Call.move src dst);;
  w ← get;
  let into := FS.isdir (fs w) dst in
  let real_dst :=
    if into then posixpath.join dst (posixpath.basename (Text.rstrip_sep src))
    else dst in
  if into && FS.exists_ (fs w) real_dst
  then raise (shutil_Error "Destination path already exists")
  else
    match FS.stat (fs w) src with
    | None => raise (FileNotFoundError src)
    | Some n =>
        if bool_decide (real_dst = "") || negb (parent_ok (fs w) real_dst)
        then raise (FileNotFoundError real_dst)
        else put_fs (<[real_dst := n]> (delete src (fs w)))
    end.

End Library.

(** ** The program: [stitch_images] *)

Section Program.

Context (tools : Tools).

(** Python's truth value of [fill] (a [str] or [None]) and of [colorkey]
    (a list or [None]). *)
Definition truthy_str (s : option string) : bool :=
  match s with
  | Some s => negb (bool_decide (s = ""))
  | None => false
  end.
Definition truthy_list {A} (l : option (list A)) : bool :=
  match l with
  | Some (_ :: _) => true
  | _ => false
  end.

(** Lines 112-115: [item[:3] == tuple(colorkey)] compares the three
    colour bands, as integers, with the whole key. *)
Definition key_pixel (colorkey : list Z) (item : rgba) : rgba :=
  let '(r, g, b, _) := item in
  if bool_decide ([U8.to_Z r; U8.to_Z g; U8.to_Z b] = colorkey)
  then transparent
  else item.

(** Lines 108-116. *)
Definition chroma_key (colorkey : list Z) (img : Image) : Image :=
  let img := Image.convert_RGBA img in
  let new_data := key_pixel colorkey <$> data img in
  ImRGBA (Raster.putdata img new_data).

(** Lines 107-116: the image as it is pasted. *)
Definition keyed (process_colorkey : bool) (colorkey : option (list Z))
    (img : Image) : Image :=
  if process_colorkey && truthy_list colorkey
  then chroma_key (default [] colorkey) img
  else img.

(** Lines 68-73. *)
Definition confirm_overwrite (output : string) : M unit :=
  ex ← os_path_exists output;
  if ex : bool then
    response ← input ("File " +:+ output +:+ " already exists. Overwrite? (y/n) ");
    if negb (bool_decide (Text.lower response = "y")) then
      print "Exiting without overwriting existing file.";;
      sys_exit
    else os_remove output
  else mret ().

(** Lines 37-50: the generator opens the file, yields the one image and
    closes the file when it is resumed; the [for] loop over it runs its
    body once, with the file open. *)
Definition lazy_open_image (filename : string) : M Image :=
  Image_open filename.

(** Lines 83-86. *)
Fixpoint largest_dimension (image_files : list string) (max_image_size : Z) : M Z :=
  match image_files with
  | [] => mret max_image_size
  | img_file :: rest =>
      img ← Image_open img_file;
      let '(w, h) := Image.size img in
      largest_dimension rest (Z.max max_image_size (Z.max w h))
  end.

Section Loop.

Context (verbose : bool) (colorkey : option (list Z)) (process_colorkey : bool)
        (grid_cols cell_size : Z) (fill_image_resized : option Image).

(** Lines 101-102; [%] and [//] are [mod] and [/] on [Z], and raise on
    a zero divisor. *)
Definition position (i : Z) : Z * Z :=
  ((i mod grid_cols) * cell_size, (i / grid_cols) * cell_size).

(** Lines 100-122, from the index [i] on. *)
Fixpoint paste_images (i : Z) (image_files : list string)
    (result : Raster rgba) : M (Raster rgba) :=
  match image_files with
  | [] => mret result
  | img_file :: rest =>
      (if grid_cols =? 0 then raise ZeroDivisionError else mret ());;
      let '(x_pos, y_pos) := position i in
      (if verbose
       then print ("Pasting " +:+ img_file +:+ " at position (" +:+
                   pretty x_pos +:+ ", " +:+ pretty y_pos +:+ ")")
       else mret ());;
      img ← lazy_open_image img_file;
      let img := keyed process_colorkey colorkey img in
      result ←
        match fill_image_resized with
        | Some fill_image => Image_paste result fill_image (x_pos, y_pos) None
        | None => mret result
        end;
      result ← Image_paste result img (x_pos, y_pos) (Some img);
      paste_images (i + 1) rest result
  end.

End Loop.

(** The local variables that are live after line 122. *)
Record Locals : Type := mkLocals {
  image_files : list string;
  cell_size : Z;
  result : Raster rgba
}.

(** Lines 75-122. *)
Definition compose_canvas
    (directory : string) (fill : option string) (verbose : bool)
    (colorkey : option (list Z)) (process_colorkey : bool)
    (grid_rows grid_cols : Z) : M Locals :=
  paths ← glob_glob_png directory;
  let image_files := sorted paths in
  let num_images := Z.of_nat (length image_files) in
  assert (0 <? num_images) "No input images found in the directory.";;
  let num_cells := grid_rows * grid_cols in
  assert (num_images <=? num_cells) "Number of images exceeds the grid capacity.";;
  max_image_size ← largest_dimension image_files 0;
  let cell_size := max_image_size in
  let result_width := cell_size * grid_cols in
  let result_height := cell_size * grid_rows in
  result ← Image_new_RGBA (result_width, result_height);
  fill_image_resized ←
    (if truthy_str fill then
       fill_image ← Image_open (default "" fill);
       fill_image_resized ← Image_resize tools fill_image (cell_size, cell_size);
       mret (Some fill_image_resized)
     else mret None);
  result ← paste_images verbose colorkey process_colorkey grid_cols cell_size
             fill_image_resized 0 image_files result;
  mret (mkLocals image_files cell_size result).

(** Lines 68-122. *)
Definition stitch_images_canvas
    (directory output : string) (fill : option string) (verbose : bool)
    (colorkey : option (list Z)) (process_colorkey : bool)
    (grid_rows grid_cols : Z) : M Locals :=
  confirm_overwrite output;;
  compose_canvas directory fill verbose colorkey process_colorkey grid_rows grid_cols.

(** Lines 124-138. *)
Definition finish (output : string) (reduce verbose : bool)
    (result : Raster rgba) : M unit :=
  os_makedirs (posixpath.dirname output);;
  let temp_file := "temp.png" in
  Image_save result temp_file;;
  (if reduce then
     (if verbose then print "Reducing file size with pngquant" else mret ());;
     subprocess_run_pngquant tools output temp_file
   else shutil_move temp_file output);;
  ex ← os_path_exists temp_file;
  if ex : bool then os_remove temp_file else mret ().

Definition stitch_images
    (directory output : string) (fill : option string) (reduce verbose : bool)
    (colorkey : option (list Z)) (process_colorkey : bool)
    (grid_rows grid_cols : Z) : M unit :=
  locals ← stitch_images_canvas directory output fill verbose colorkey
             process_colorkey grid_rows grid_cols;
  finish output reduce verbose (result locals).

End Program.

(** ** The command line *)

(** Lines 141-161.  [argparse] itself is not modelled: [Namespace] is what
    [parser.parse_args()] hands over, [defaults] what it holds when the
    command line names no option. *)
Module CLI.

Record Namespace : Type := mkNamespace {
  dir_path : string;
  out_file : string;
  fill : option string;
  reduce : bool;
  verbose : bool;
  colorkey : list Z;
  process_colorkey : bool;
  grid_rows : Z;
  grid_cols : Z
}.

(** Lines 143-156. *)
Definition defaults : Namespace :=
  mkNamespace "./" "output.png" None false false [255; 0; 228] false 10 10.

(** Line 159: [os.path.join(os.path.dirname(__file__), args.out_file)]. *)
Definition output_path (file : string) (args : Namespace) : string :=
  posixpath.join (posixpath.dirname file) (out_file args).

(** Lines 159-161, for the script at the path [file]. *)
Definition main (tools : Tools) (file : string) (args : Namespace) : M unit :=
  stitch_images tools (dir_path args) (output_path file args) (fill args)
    (reduce args) (verbose args) (Some (colorkey args)) (process_colorkey args)
    (grid_rows args) (grid_cols args).

End CLI.

(** ** A small world to run the program in *)

Module Sample.

(** Nearest-neighbour resampling, and a [pngquant] that is not
    installed. *)
Definition nearest {A} (d : A) (r : Raster A) (w h x y : Z) : A :=
  default d (Raster.getpixel r (x * width r / w) (y * height r / h)).
Definition tools : Tools :=
  mkTools (nearest U8.zero) (nearest (U8.zero, U8.zero, U8.zero))
          (nearest transparent) (λ _, ToolMissing).

Definition red : rgba := (Byte.xff, Byte.x00, Byte.x00, Byte.xff).
Definition magenta : rgba := (Byte.xff, Byte.x00, Byte.xe4, Byte.xff).
Definition clear : rgba := (Byte.x10, Byte.x20, Byte.x30, Byte.x00).
Definition blue : rgb := (Byte.x00, Byte.x00, Byte.xff).

(** Two sprites, 2 by 1 and 1 by 2, a 1 by 1 fill image and an old output
    file. *)
Definition a_png : Image := ImRGBA (mkRaster 2 1 [red; magenta]).
Definition b_png : Image := ImRGBA (mkRaster 1 2 [clear; red]).
Definition fill_png : Image := ImRGB (mkRaster 1 1 [blue]).

Definition files : gmap string node :=
  <["in" := Dir]> (<["in/a.png" := File (Png a_png)]>
  (<["in/b.png" := File (Png b_png)]> (<["in/notes.txt" := File Blob]>
  (<["none" := Dir]> (<["fill.png" := File (Png fill_png)]>
  (<["out" := Dir]> (<["out/old.png" := File Blob]> ∅))))))).

Definition world (answers : list string) : World := mkWorld files answers [] [].

(** [stitch_images("in", "out/new.png", "fill.png", False, True,
    [255, 0, 228], True, 2, 2)] up to line 122. *)
Definition canvas_run : outcome Locals * World :=
  stitch_images_canvas tools "in" "out/new.png" (Some "fill.png") true
    (Some [255; 0; 228]) true 2 2 (world []).
Definition locals : Locals :=
  match canvas_run.1 with
  | Return L => L
  | Raise _ => mkLocals [] 0 (mkRaster 0 0 [])
  end.

(** The same two sprites, the first now 3 pixels wide. *)
Definition wide_files : gmap string node :=
  <["in/a.png" := File (Png (ImRGBA (mkRaster 3 1 [red; magenta; red])))]> files.
Definition wide_run : outcome Locals * World :=
  stitch_images_canvas tools "in" "out/new.png" None false None false 1 2
    (mkWorld wide_files [] [] []).
Definition wide_locals : Locals :=
  match wide_run.1 with
  | Return L => L
  | Raise _ => mkLocals [] 0 (mkRaster 0 0 [])
  end.

(** [stitch_images("in", "output.png", None, False, False, None, False,
    2, 2)] up to line 122. *)
Definition bare_run : outcome Locals * World :=
  stitch_images_canvas tools "in" "output.png" None false None false 2 2 (world []).
Definition bare_locals : Locals :=
  match bare_run.1 with
  | Return L => L
  | Raise _ => mkLocals [] 0 (mkRaster 0 0 [])
  end.

End Sample.

(** ** Notions the statements use *)

(** The prompt of line 69. *)
Definition overwrite_prompt (output : string) : string :=
  "File " +:+ output +:+ " already exists. Overwrite? (y/n) ".

(** The world after the calls [cs] that leave the files alone. *)
Definition logged (w : World) (cs : list Call.t) : World :=
  mkWorld (fs w) (stdin w) (stdout w) (calls w ++ cs).

(** The spec's ConfigurationError is the [AssertionError] of lines 77 and
    80. *)
Definition ConfigurationError (e : exn) : bool :=
  match e with
  | AssertionError _ => true
  | _ => false
  end.

(** The square cell of index [j]. *)
Definition in_cell (grid_cols cell_size j X Y : Z) : Prop :=
  0 ≤ X - (j mod grid_cols) * cell_size < cell_size ∧
  0 ≤ Y - (j / grid_cols) * cell_size < cell_size.

(** What lines 119-122 make of the canvas pixel [out] at [(X, Y)] when
    [img] goes to [(x_pos, y_pos)]. *)
Definition cell_px (fill_image_resized : option Image) (img : Image)
    (x_pos y_pos X Y : Z) (out : rgba) : rgba :=
  Paste.px (Image.convert_RGBA img) (Image.matte img) x_pos y_pos X Y
    (match fill_image_resized with
     | Some fill_image => Paste.px (Image.convert_RGBA fill_image) None x_pos y_pos X Y out
     | None => out
     end).

(** The same for the images of a whole run of the second loop, the first
    of them at index [i]. *)
Fixpoint loop_px (grid_cols cell_size : Z) (fill_image_resized : option Image)
    (i : Z) (imgs : list Image) (X Y : Z) (out : rgba) : rgba :=
  match imgs with
  | [] => out
  | img :: rest =>
      loop_px grid_cols cell_size fill_image_resized (i + 1) rest X Y
        (cell_px fill_image_resized img
           ((i mod grid_cols) * cell_size) ((i / grid_cols) * cell_size) X Y out)
  end.

(** The library calls of that run of the loop. *)
Fixpoint loop_calls (grid_cols cell_size : Z) (fill_image_resized : option Image)
    (i : Z) (steps : list (string * Image)) : list Call.t :=
  match steps with
  | [] => []
  | (img_file, img) :: rest =>
      let box := ((i mod grid_cols) * cell_size, (i / grid_cols) * cell_size) in
      [Call.open img_file] ++
      match fill_image_resized with
      | Some fill_image => [Call.paste fill_image box None]
      | None => []
      end ++
      [Call.paste img box (Some img)] ++
      loop_calls grid_cols cell_size fill_image_resized (i + 1) rest
  end.

(** The pastes that carry a mask: those of the source images. *)
Definition is_source_paste (c : Call.t) : bool :=
  match c with
  | Call.paste _ _ (Some _) => true
  | _ => false
  end.
Definition source_pastes (cs : list Call.t) : list Call.t :=
  filter (λ c, is_source_paste c) cs.

(** The fill image as the second loop uses it. *)
Definition fill_of (tools : Tools) (f : gmap string node) (fill : option string)
    (cell_size : Z) (fill_image_resized : option Image) : Prop :=
  if truthy_str fill
  then ∃ fill_image, decode f (default "" fill) = Return fill_image ∧
         fill_image_resized = Some (resize tools fill_image (cell_size, cell_size))
  else fill_image_resized = None.

(** [max(img.size)] of the image a path decodes to. *)
Definition larger_dimension (img : Image) : Z :=
  Z.max (Image.size img).1 (Image.size img).2.
Definition dimension_at (f : gmap string node) (path : string) : Z :=
  match decode f path with
  | Return img => larger_dimension img
  | Raise _ => 0
  end.

(** An image no side of which exceeds the cell. *)
Definition fits (cell_size : Z) (img : Image) : Prop :=
  (Image.size img).1 ≤ cell_size ∧ (Image.size img).2 ≤ cell_size.

(** The pastes of either kind. *)
Definition is_paste (c : Call.t) : bool :=
  match c with
  | Call.paste _ _ _ => true
  | _ => false
  end.

(** A call that does not paste outside the cells of the indices from [i]
    up to [n]. *)
Definition pastes_within (grid_cols cell_size i n : Z) (c : Call.t) : Prop :=
  match c with
  | Call.paste _ box _ =>
      ∃ j, i ≤ j < n ∧
           box = ((j mod grid_cols) * cell_size, (j / grid_cols) * cell_size)
  | _ => True
  end.

(** [w'] comes after [w]: the calls of [w] and then some, and the paths
    in [K] name what they named. *)
Definition keeps (K : string → Prop) (w w' : World) : Prop :=
  (∃ new, calls w' = calls w ++ new) ∧ ∀ k, K k → fs w' !! k = fs w !! k.

(** A computation all of whose runs, failed ones too, end in such a
    world. *)
Definition keeping (K : string → Prop) {A} (m : M A) : Prop :=
  ∀ w o w', m w = (o, w') → keeps K w w'.

(** The paths [os.makedirs(name)] cannot create: the longer ones, the
    empty one and the root. *)
Definition beyond (name : string) (k : string) : Prop :=
  (String.length name < String.length k)%nat ∨ k = "" ∨ FS.is_root k = true.

(** The last component of a path, as [os.makedirs] finds it. *)
Definition last_component (name : string) : string :=
  let '(head, tail) := posixpath.split name in
  if bool_decide (tail = "") then (posixpath.split head).2 else tail.

(** A computation that raises only exceptions in [P]. *)
Definition raises (P : exn → Prop) {A} (m : M A) : Prop :=
  ∀ w e w', m w = (Raise e, w') → P e.

(** The exceptions of the library calls: all but [SystemExit] and
    [ZeroDivisionError], which only the program itself raises. *)
Definition from_library (e : exn) : Prop :=
  match e with
  | SystemExit _ | ZeroDivisionError => False
  | _ => True
  end.

(** A path keeps its node, or is a directory that was not there. *)
Definition kept_or_made (k : string) (w w' : World) : Prop :=
  FS.stat (fs w') k = FS.stat (fs w) k ∨
  (FS.stat (fs w) k = None ∧ FS.stat (fs w') k = Some Dir).

(** A computation every run of which, failed ones too, relates the world
    it ends in to the one it started in by [R]. *)
Definition respects (R : World → World → Prop) {A} (m : M A) : Prop :=
  ∀ w o w', m w = (o, w') → R w w'.

(** The line that line 104 prints for the file at index [i]. *)
Definition pasting_line (grid_cols cell_size : Z) (i : Z) (img_file : string) : string :=
  "Pasting " +:+ img_file +:+ " at position (" +:+
  pretty ((i mod grid_cols) * cell_size) +:+ ", " +:+
  pretty ((i / grid_cols) * cell_size) +:+ ")".


(** The components of a path, cut at every slash. *)
Fixpoint components (p : string) : list string :=
  match p with
  | EmptyString => [EmptyString]
  | String c p' =>
      if Text.is_sep c then EmptyString :: components p'
      else match components p' with
           | [] => [String c EmptyString]
           | h :: t => String c h :: t
           end
  end.

(** A path in the one spelling that is relative to the working directory
    and normal: not empty, no slash at either end, no doubled slash, no
    [.] and no [..] among its components.  Two such paths name the same
    file only if they are the same string (links apart, of which the
    model has none), which is what a file system keyed by the paths as
    written takes for granted of every path:
    [./temp.png] and [temp.png], or [a/] and [a], are not told apart by
    the system, and only the second of each pair is plain. *)
Definition plain (p : string) : bool :=
  forallb (λ n, negb (bool_decide (n = "")) && negb (bool_decide (n = ".")) &&
                negb (bool_decide (n = "..")))
          (components p).

(** [w'] is [w] with, at most, new directories: nothing said to the
    console, no library call logged. *)
Definition grows (w w' : World) : Prop :=
  calls w' = calls w ∧ stdin w' = stdin w ∧ stdout w' = stdout w ∧
  ∀ k, kept_or_made k w w'.

(** The file the canvas [result] is saved as. *)
Definition canvas_file (result : Raster rgba) : node :=
  File (Png (ImRGBA result)).

(** The [pngquant] call of line 132. *)
Definition pngquant_call (output : string) : Call.t :=
  Call.run ["pngquant"; "256"; "-o"; output; "temp.png"].

(** The world after the line that [verbose] prints for the image of
    index [i] (lines 103-104). *)
Definition announced (verbose : bool) (grid_cols cell_size i : Z)
    (img_file : string) (w : World) : World :=
  if verbose
  then mkWorld (fs w) (stdin w)
         (stdout w ++ [pasting_line grid_cols cell_size i img_file]) (calls w)
  else w.

(** Line 120 and the call it logs. *)
Definition fill_pasted (fill_image_resized : option Image) (result : Raster rgba)
    (box : Z * Z) : outcome (Raster rgba) :=
  match fill_image_resized with
  | Some fill_image => paste result fill_image box None
  | None => Return result
  end.
Definition fill_calls (fill_image_resized : option Image) (box : Z * Z) : list Call.t :=
  match fill_image_resized with
  | Some fill_image => [Call.paste fill_image box None]
  | None => []
  end.

(** An image that can serve as its own mask in line 122. *)
Definition masks_itself (img : Image) : Prop := Image.matte img ≠ None.

(** The lines a verbose second loop prints for the files from index [i]
    on. *)
Fixpoint pasting_lines (grid_cols cell_size : Z) (i : Z) (image_files : list string)
    : list string :=
  match image_files with
  | [] => []
  | img_file :: rest =>
      pasting_line grid_cols cell_size i img_file ::
      pasting_lines grid_cols cell_size (i + 1) rest
  end.

(** ** More runs on the small world *)

Module Cases.

(** A [pngquant] that writes the image it is given, keyed on blue. *)
Definition quantise (c : content) : tool_result :=
  match c with
  | Png im => ToolWrote (chroma_key [0; 0; 255] im)
  | Blob => ToolExit 2
  end.
Definition quantising : Tools :=
  mkTools (Sample.nearest U8.zero) (Sample.nearest (U8.zero, U8.zero, U8.zero))
          (Sample.nearest transparent) quantise.

(** [stitch_images("in", "out/new.png", "fill.png", reduce, False,
    [255, 0, 228], True, 2, 2)] with either set of tools. *)
Definition run (tools : Tools) (reduce : bool) : outcome unit * World :=
  stitch_images tools "in" "out/new.png" (Some "fill.png") reduce false
    (Some [255; 0; 228]) true 2 2 (Sample.world []).
Definition canvas (tools : Tools) : outcome Locals * World :=
  stitch_images_canvas tools "in" "out/new.png" (Some "fill.png") false
    (Some [255; 0; 228]) true 2 2 (Sample.world []).
Definition locals (tools : Tools) : Locals :=
  match (canvas tools).1 with
  | Return L => L
  | Raise _ => mkLocals [] 0 (mkRaster 0 0 [])
  end.

(** The first sprite replaced by a greyscale image, black above grey. *)
Definition grey : Raster byte := mkRaster 1 2 [Byte.x00; Byte.x80].
Definition grey_files : gmap string node :=
  <["in/a.png" := File (Png (ImL grey))]> Sample.files.
Definition grey_run : outcome Locals * World :=
  stitch_images_canvas Sample.tools "in" "out/new.png" None false None false 1 2
    (mkWorld grey_files [] [] []).
Definition grey_locals : Locals :=
  match grey_run.1 with
  | Return L => L
  | Raise _ => mkLocals [] 0 (mkRaster 0 0 [])
  end.

(** The first sprite replaced by an RGB image, which has no alpha
    band. *)
Definition rgb_files : gmap string node :=
  <["in/a.png" := File (Png Sample.fill_png)]> Sample.files.

End Cases.

(** * Properties *)

(** ** Paths, as Python computes them *)

Example dirname_nested : posixpath.dirname "out/sheets/atlas.png" = "out/sheets".
Proof. reflexivity. Qed.
Example dirname_bare : posixpath.dirname "output.png" = "".
Proof. reflexivity. Qed.
Example dirname_root : posixpath.dirname "/atlas.png" = "/".
Proof. reflexivity. Qed.
Example split_trailing : posixpath.split "out//" = ("out", "").
Proof. reflexivity. Qed.
Example join_dot : posixpath.join "." "a.png" = "./a.png".
Proof. reflexivity. Qed.
Example lower_Y : Text.lower "Y" = "y".
Proof. reflexivity. Qed.

(** ** Blending bytes *)

Lemma BLEND_full (out inp : byte) : U8.BLEND U8.full out inp = inp.
Proof.
  unfold U8.BLEND. change (U8.to_Z U8.full) with 255.
  replace (U8.to_Z out * (255 - 255)) with 0 by lia.
  destruct inp; reflexivity.
Qed.

Lemma BLEND_zero (out inp : byte) : U8.BLEND U8.zero out inp = out.
Proof.
  unfold U8.BLEND. change (U8.to_Z U8.zero) with 0.
  replace (U8.to_Z inp * 0) with 0 by lia.
  destruct out; reflexivity.
Qed.

Lemma blend_px_full (out inp : rgba) : Paste.blend_px U8.full out inp = inp.
Proof.
  destruct out as [[[o0 o1] o2] o3], inp as [[[i0 i1] i2] i3]; simpl.
  by rewrite !BLEND_full.
Qed.

Lemma blend_px_zero (out inp : rgba) : Paste.blend_px U8.zero out inp = out.
Proof.
  destruct out as [[[o0 o1] o2] o3], inp as [[[i0 i1] i2] i3]; simpl.
  by rewrite !BLEND_zero.
Qed.

(** ** Rasters *)

Section RasterFacts.

Context {A : Type}.
Implicit Types r : Raster A.

Lemma inside_spec r x y :
  Raster.inside r x y = true ↔ 0 ≤ x < width r ∧ 0 ≤ y < height r.
Proof. unfold Raster.inside. rewrite !andb_true_iff. lia. Qed.

Lemma wf_spec r :
  Raster.wf r = true ↔
  0 ≤ width r ∧ 0 ≤ height r ∧ Z.of_nat (length (data r)) = width r * height r.
Proof. unfold Raster.wf. rewrite !andb_true_iff. lia. Qed.

(** Row-major addressing: the cell of [(x, y)] and back. *)
Lemma index_inj w x y :
  0 ≤ x < w → 0 ≤ y →
  Z.of_nat (Z.to_nat (y * w + x)) mod w = x ∧
  Z.of_nat (Z.to_nat (y * w + x)) / w = y.
Proof.
  intros Hx Hy. rewrite Z2Nat.id by nia.
  split.
  - rewrite Z.add_comm, Z.mod_add by lia. apply Z.mod_small; lia.
  - rewrite Z.add_comm, Z.div_add by lia. rewrite Z.div_small; lia.
Qed.

Lemma index_lt w h x y :
  0 ≤ x < w → 0 ≤ y < h → (Z.to_nat (y * w + x) < Z.to_nat (w * h))%nat.
Proof. intros. apply Z2Nat.inj_lt; nia. Qed.

Lemma getpixel_Some_inside r x y a :
  Raster.getpixel r x y = Some a → 0 ≤ x < width r ∧ 0 ≤ y < height r.
Proof.
  unfold Raster.getpixel. destruct (Raster.inside r x y) eqn:E; [|done].
  intros _. by apply inside_spec.
Qed.

Lemma getpixel_wf r x y :
  Raster.wf r = true → 0 ≤ x < width r → 0 ≤ y < height r →
  is_Some (Raster.getpixel r x y).
Proof.
  intros (Hw & Hh & Hlen)%wf_spec Hx Hy. unfold Raster.getpixel.
  rewrite (proj2 (inside_spec r x y)) by done.
  apply lookup_lt_is_Some. pose proof (index_lt (width r) (height r) x y Hx Hy). lia.
Qed.

Lemma getpixel_new (z : A) w h x y :
  0 ≤ x < w → 0 ≤ y < h → Raster.getpixel (Raster.new z w h) x y = Some z.
Proof.
  intros Hx Hy. unfold Raster.getpixel, Raster.new; simpl.
  rewrite (proj2 (inside_spec (mkRaster w h _) x y)) by done.
  apply lookup_replicate_2. by apply index_lt.
Qed.

Lemma wf_new (z : A) w h : 0 ≤ w → 0 ≤ h → Raster.wf (Raster.new z w h) = true.
Proof.
  intros. apply wf_spec; simpl. rewrite length_replicate. repeat split; [done..|nia].
Qed.

Lemma getpixel_tabulate w h (f : Z → Z → A) x y :
  0 ≤ x < w → 0 ≤ y < h → Raster.getpixel (Raster.tabulate w h f) x y = Some (f x y).
Proof.
  intros Hx Hy. unfold Raster.getpixel, Raster.tabulate; simpl.
  rewrite (proj2 (inside_spec (mkRaster w h _) x y)) by done.
  rewrite list_lookup_fmap, lookup_seq_lt by by apply index_lt.
  simpl. destruct (index_inj w x y) as [-> ->]; [lia..|done].
Qed.

Lemma getpixel_map {B} (g : A → B) r x y :
  Raster.getpixel (Raster.map g r) x y = g <$> Raster.getpixel r x y.
Proof.
  unfold Raster.getpixel, Raster.inside, Raster.map; simpl.
  destruct (_ && _); [|done]. by rewrite list_lookup_fmap.
Qed.

(** Writing back as many pixels as the buffer holds replaces it. *)
Lemma putdata_full r (new_data : list A) :
  length new_data = length (data r) →
  Raster.putdata r new_data = mkRaster (width r) (height r) new_data.
Proof.
  intros Hlen. unfold Raster.putdata. f_equal.
  rewrite take_ge, drop_ge by lia. apply app_nil_r.
Qed.

End RasterFacts.

(** ** Pasting, pixel by pixel *)

Lemma getpixel_run self src m x0 y0 x y :
  Raster.getpixel (Paste.run self src m x0 y0) x y =
  Paste.px src m x0 y0 x y <$> Raster.getpixel self x y.
Proof.
  unfold Raster.getpixel, Paste.run; simpl.
  change (Raster.inside (mkRaster (width self) (height self) ?d) x y)
    with (Raster.inside self x y).
  destruct (Raster.inside self x y) eqn:Hin; [|done].
  apply inside_spec in Hin as [Hx Hy].
  rewrite list_lookup_imap.
  destruct (index_inj (width self) x y) as [-> ->]; [lia..|done].
Qed.

(** Outside the box of the pasted image nothing changes. *)
Lemma px_outside src m x0 y0 x y out :
  ¬ (0 ≤ x - x0 < width src ∧ 0 ≤ y - y0 < height src) →
  Paste.px src m x0 y0 x y out = out.
Proof.
  intros Hout. unfold Paste.px.
  destruct (Raster.getpixel src (x - x0) (y - y0)) eqn:E; [|done].
  by apply getpixel_Some_inside in E.
Qed.

Lemma clipped_away_outside self w h x0 y0 x y :
  Paste.clipped_away self w h x0 y0 = true →
  0 ≤ x < width self → 0 ≤ y < height self →
  ¬ (0 ≤ x - x0 < w ∧ 0 ≤ y - y0 < h).
Proof. unfold Paste.clipped_away. rewrite orb_true_iff. lia. Qed.

Lemma size_convert_RGBA im :
  (width (Image.convert_RGBA im), height (Image.convert_RGBA im)) = Image.size im.
Proof. by destruct im. Qed.

(** A successful [paste] keeps the size of the destination and changes
    each of its pixels as [Paste.px] says. *)
Lemma paste_Return self im x0 y0 mask r :
  paste self im (x0, y0) mask = Return r →
  width r = width self ∧ height r = height self ∧
  length (data r) = length (data self) ∧
  ∀ x y, Raster.getpixel r x y =
         Paste.px (Image.convert_RGBA im) (mask ≫= Image.matte) x0 y0 x y
           <$> Raster.getpixel self x y.
Proof.
  unfold paste. pose proof (size_convert_RGBA im) as Hsz.
  destruct (Image.size im) as [w h]. injection Hsz as Hw Hh.
  destruct (Paste.clipped_away self w h x0 y0) eqn:Hclip.
  - intros [= <-]. repeat split; try done. intros x y.
    destruct (Raster.getpixel self x y) as [out|] eqn:E; [|done]. simpl.
    rewrite px_outside; [done|].
    apply getpixel_Some_inside in E as [??].
    rewrite Hw, Hh. by eapply clipped_away_outside.
  - assert (∀ m, let r' := Paste.run self (Image.convert_RGBA im) m x0 y0 in
              width r' = width self ∧ height r' = height self ∧
              length (data r') = length (data self) ∧
              ∀ x y, Raster.getpixel r' x y =
                     Paste.px (Image.convert_RGBA im) m x0 y0 x y
                       <$> Raster.getpixel self x y) as Hrun.
    { intros m. simpl. rewrite length_imap. repeat split; try done.
      intros. apply getpixel_run. }
    destruct mask as [mi|]; simpl.
    + destruct (Image.matte mi) as [a|]; [|done]. intros [= <-]. apply Hrun.
    + intros [= <-]. apply Hrun.
Qed.

(** ** Decoded and keyed images *)

Lemma decodable_spec im :
  decodable im = true →
  Raster.wf (Image.convert_RGBA im) = true ∧
  1 ≤ (Image.size im).1 ∧ 1 ≤ (Image.size im).2.
Proof.
  unfold decodable. rewrite !andb_true_iff. intros [[Hwf ?] ?].
  split; [|lia].
  destruct im as [r|r|r]; simpl in *; [| |done];
    apply wf_spec in Hwf; apply wf_spec; simpl; by rewrite length_fmap.
Qed.

Lemma chroma_key_raster colorkey img :
  chroma_key colorkey img =
  ImRGBA (Raster.map (key_pixel colorkey) (Image.convert_RGBA img)).
Proof.
  unfold chroma_key. f_equal. apply putdata_full. by rewrite length_fmap.
Qed.

Lemma size_keyed process_colorkey colorkey img :
  Image.size (keyed process_colorkey colorkey img) = Image.size img.
Proof.
  unfold keyed. destruct (_ && _); [|done].
  rewrite chroma_key_raster. simpl. apply size_convert_RGBA.
Qed.

Lemma wf_keyed process_colorkey colorkey img :
  Raster.wf (Image.convert_RGBA img) = true →
  Raster.wf (Image.convert_RGBA (keyed process_colorkey colorkey img)) = true.
Proof.
  unfold keyed. destruct (_ && _); [|done].
  rewrite chroma_key_raster. simpl. intros Hwf%wf_spec.
  apply wf_spec; simpl. by rewrite length_fmap.
Qed.

(** C3. With chroma-keying enabled and a colour key configured, the image
    that is pasted is the RGBA conversion of the decoded one in which
    every pixel whose three colour bands equal the key, whatever its
    alpha, has become the fully transparent pixel, and every other pixel
    is unchanged: a pixel that differs from the key in any band, by
    however little, is kept. *)
Theorem chroma_key_exact_match (colorkey : list Z) (img : Image) :
  colorkey ≠ [] →
  let pasted := keyed true (Some colorkey) img in
  Image.size pasted = Image.size img ∧
  (∃ r, pasted = ImRGBA r) ∧
  ∀ x y r g b a,
    Raster.getpixel (Image.convert_RGBA img) x y = Some (r, g, b, a) →
    ([U8.to_Z r; U8.to_Z g; U8.to_Z b] = colorkey →
       Raster.getpixel (Image.convert_RGBA pasted) x y = Some transparent) ∧
    ([U8.to_Z r; U8.to_Z g; U8.to_Z b] ≠ colorkey →
       Raster.getpixel (Image.convert_RGBA pasted) x y = Some (r, g, b, a)).
Proof.
  intros Hkey pasted. split; [apply size_keyed|].
  assert (pasted = ImRGBA (Raster.map (key_pixel colorkey) (Image.convert_RGBA img)))
    as Hpasted.
  { unfold pasted, keyed. destruct colorkey; [done|]. apply chroma_key_raster. }
  split; [eauto|].
  intros x y r g b a Hpx. rewrite Hpasted; simpl.
  rewrite getpixel_map, Hpx; simpl.
  split; intros Hrgb;
    [rewrite bool_decide_eq_true_2 by done | rewrite bool_decide_eq_false_2 by done];
    done.
Qed.

(** The default key keys out (255, 0, 228) and leaves (255, 0, 227). *)
Lemma chroma_key_exact_match_witness :
  let img := ImRGB (mkRaster 2 1 [(Byte.xff, Byte.x00, Byte.xe4);
                                   (Byte.xff, Byte.x00, Byte.xe3)]) in
  let pasted := keyed true (Some [255; 0; 228]) img in
  Raster.getpixel (Image.convert_RGBA pasted) 0 0 = Some transparent ∧
  Raster.getpixel (Image.convert_RGBA pasted) 1 0 =
    Some (Byte.xff, Byte.x00, Byte.xe3, Byte.xff).
Proof.
  intros img pasted.
  assert (([255; 0; 228] : list Z) ≠ []) as Hkey by done.
  split.
  - refine (proj1 (proj2 (proj2 (chroma_key_exact_match [255; 0; 228] img Hkey))
                     0 0 Byte.xff Byte.x00 Byte.xe4 Byte.xff _) _); reflexivity.
  - refine (proj2 (proj2 (proj2 (chroma_key_exact_match [255; 0; 228] img Hkey))
                     1 0 Byte.xff Byte.x00 Byte.xe3 Byte.xff _) _);
      [reflexivity | vm_compute; congruence].
Defined.

(** ** Running computations *)

Lemma run_bind {A B} (m : M A) (f : A → M B) w :
  (m ≫= f) w =
  match m w with
  | (Return a, w') => f a w'
  | (Raise e, w') => (Raise e, w')
  end.
Proof. reflexivity. Qed.

Lemma bind_Return {A B} (m : M A) (f : A → M B) w b w' :
  (m ≫= f) w = (Return b, w') →
  ∃ a w1, m w = (Return a, w1) ∧ f a w1 = (Return b, w').
Proof. rewrite run_bind. destruct (m w) as [[a|e] w1]; [eauto|done]. Qed.

Lemma bind_Raise {A B} (m : M A) (f : A → M B) w e w' :
  (m ≫= f) w = (Raise e, w') →
  m w = (Raise e, w') ∨ ∃ a w1, m w = (Return a, w1) ∧ f a w1 = (Raise e, w').
Proof. rewrite run_bind. destruct (m w) as [[a|e1] w1]; [eauto|]. intros [= -> ->]. eauto. Qed.

Lemma bind_run_Return {A B} (m : M A) (f : A → M B) w a w1 :
  m w = (Return a, w1) → (m ≫= f) w = f a w1.
Proof. intros H. by rewrite run_bind, H. Qed.

Lemma bind_run_Raise {A B} (m : M A) (f : A → M B) w e w1 :
  m w = (Raise e, w1) → (m ≫= f) w = (Raise e, w1).
Proof. intros H. by rewrite run_bind, H. Qed.

Lemma run_ret {A} (a : A) w : (mret a : M A) w = (Return a, w).
Proof. reflexivity. Qed.

(** Run the primitive steps at the head of a computation. *)
Ltac mrun :=
  repeat progress
    (rewrite ?run_bind, ?run_ret;
     unfold get, called, put_fs, raise, print, sys_exit; simpl).

Tactic Notation "mrun" "in" hyp(H) :=
  repeat progress
    (rewrite ?run_bind, ?run_ret in H;
     unfold get, called, put_fs, raise, print, sys_exit in H; simpl in H).

(** ** The overwrite prompt *)

Lemma confirm_overwrite_absent output w :
  FS.exists_ (fs w) output = false →
  confirm_overwrite output w = (Return (), w).
Proof.
  intros Hex. unfold confirm_overwrite, os_path_exists.
  rewrite !run_bind; simpl. by rewrite Hex.
Qed.

Lemma confirm_overwrite_declined output w response rest :
  FS.exists_ (fs w) output = true →
  stdin w = response :: rest →
  Text.lower response ≠ "y" →
  confirm_overwrite output w =
  (Raise (SystemExit None),
   mkWorld (fs w) rest
     (stdout w ++ [overwrite_prompt output] ++ ["Exiting without overwriting existing file."])
     (calls w)).
Proof.
  intros Hex Hin Hno. unfold confirm_overwrite, os_path_exists.
  rewrite !run_bind; simpl. rewrite Hex.
  rewrite !run_bind; unfold input. rewrite Hin.
  rewrite bool_decide_eq_false_2 by done. simpl.
  rewrite run_bind; unfold print, sys_exit, raise; simpl.
  by rewrite <- app_assoc.
Qed.

Lemma confirm_overwrite_confirmed output w c response rest :
  FS.stat (fs w) output = Some (File c) →
  stdin w = response :: rest →
  Text.lower response = "y" →
  confirm_overwrite output w =
  (Return (),
   mkWorld (delete output (fs w)) rest
     (stdout w ++ [overwrite_prompt output]) (calls w ++ [Call.remove output])).
Proof.
  intros Hfile Hin Hyes. unfold confirm_overwrite, os_path_exists.
  rewrite !run_bind; simpl.
  assert (FS.exists_ (fs w) output = true) as ->.
  { unfold FS.exists_. rewrite Hfile. apply orb_true_r. }
  rewrite !run_bind; unfold input. rewrite Hin.
  rewrite bool_decide_eq_true_2 by done. simpl.
  unfold os_remove. mrun. rewrite Hfile. by mrun.
Qed.

(** C8. When the output path exists and the answer to the prompt is not
    [y] (in either case), the run ends in [SystemExit(None)] (exit
    status 0, where an uncaught exception gives 1), the file system is
    what it was, and no library call that touches it was made. *)
Theorem declined_overwrite_leaves_everything
    (tools : Tools) (directory output : string) (fill : option string)
    (reduce verbose : bool) (colorkey : option (list Z)) (process_colorkey : bool)
    (grid_rows grid_cols : Z) (w : World) (response : string) (rest : list string) :
  FS.exists_ (fs w) output = true →
  stdin w = response :: rest →
  Text.lower response ≠ "y" →
  ∃ w',
    stitch_images tools directory output fill reduce verbose colorkey
      process_colorkey grid_rows grid_cols w = (Raise (SystemExit None), w') ∧
    exit_status (Raise (SystemExit None) : outcome ()) = 0 ∧
    exit_status (Raise (AssertionError "") : outcome ()) ≠ 0 ∧
    fs w' = fs w ∧
    calls w' = calls w.
Proof.
  intros Hex Hin Hno. eexists. split.
  - pose proof (confirm_overwrite_declined output w response rest Hex Hin Hno) as H.
    unfold stitch_images, stitch_images_canvas.
    by rewrite (bind_run_Raise _ _ _ _ _ (bind_run_Raise _ _ _ _ _ H)).
  - done.
Qed.

(** What a prompt that lets the run go on has done: nothing, or removed
    the output file; either way no node is left at the output path. *)
Lemma confirm_overwrite_Return output w w1 :
  confirm_overwrite output w = (Return (), w1) →
  FS.stat (fs w1) output = None ∧
  ((fs w1 = fs w ∧ calls w1 = calls w) ∨
   (∃ c, FS.stat (fs w) output = Some (File c)) ∧
   fs w1 = delete output (fs w) ∧ calls w1 = calls w ++ [Call.remove output]).
Proof.
  unfold confirm_overwrite, os_path_exists. mrun.
  destruct (FS.exists_ (fs w) output) eqn:Hex.
  - mrun. unfold input. destruct (stdin w) as [|response rest]; [done|].
    destruct (bool_decide (Text.lower response = "y")); mrun; [|done].
    unfold os_remove. mrun.
    destruct (FS.stat (fs w) output) as [[|c]|] eqn:Hnode; mrun;
      [done| |by destruct (FS.is_root _)].
    intros [= <-]; simpl. split; [|right; eauto].
    unfold FS.stat. case_bool_decide; [done|]. apply lookup_delete_eq.
  - mrun. intros [= <-]. split; [|by left].
    unfold FS.exists_ in Hex. apply orb_false_iff in Hex as [_ Hex].
    by destruct (FS.stat (fs w) output).
Qed.

(** ** Collecting the input files *)

Lemma glob_glob_png_run directory w :
  glob_glob_png directory w =
  (Return (glob_png (fs w) directory), logged w [Call.glob (directory +:+ "/*.png")]).
Proof. reflexivity. Qed.

Lemma length_sorted paths : length (sorted paths) = length paths.
Proof. unfold sorted. by rewrite merge_sort_Permutation. Qed.

(** The order in which the system enumerates the directory does not
    matter: the same paths, sorted, are the same list. *)
Lemma sorted_reproducible paths1 paths2 :
  paths1 ≡ₚ paths2 → sorted paths1 = sorted paths2.
Proof.
  intros Hperm. unfold sorted.
  apply (StronglySorted_unique String.le).
  - apply StronglySorted_merge_sort; apply _.
  - apply StronglySorted_merge_sort; apply _.
  - by rewrite !merge_sort_Permutation.
Qed.

(** C7. Once the run is past the overwrite prompt, it ends in the
    [AssertionError] of line 77 when no file matches and in that of
    line 80 when more files match than the grid has cells; so far it has
    called [glob] and nothing else: nothing was decoded, no canvas
    allocated, nothing pasted or saved, and the files are as the prompt
    left them. *)
Theorem rejected_before_canvas_work
    (tools : Tools) (directory output : string) (fill : option string)
    (reduce verbose : bool) (colorkey : option (list Z)) (process_colorkey : bool)
    (grid_rows grid_cols : Z) (w w1 : World) :
  confirm_overwrite output w = (Return (), w1) →
  let num_images := Z.of_nat (length (glob_png (fs w1) directory)) in
  let run := stitch_images tools directory output fill reduce verbose colorkey
               process_colorkey grid_rows grid_cols w in
  let rejected := logged w1 [Call.glob (directory +:+ "/*.png")] in
  (num_images = 0 →
     run = (Raise (AssertionError "No input images found in the directory."), rejected)) ∧
  (0 < num_images → grid_rows * grid_cols < num_images →
     run = (Raise (AssertionError "Number of images exceeds the grid capacity."), rejected)) ∧
  (num_images = 0 ∨ grid_rows * grid_cols < num_images →
     ∃ e, run = (Raise e, rejected) ∧ ConfigurationError e = true) ∧
  fs rejected = fs w1 ∧
  (∃ new, calls rejected = calls w ++ new ∧
          Forall (λ c, Call.on_canvas c = false ∧ Call.decodes c = false) new).
Proof.
  intros Hprompt num_images run rejected.
  assert (num_images = 0 →
          run = (Raise (AssertionError "No input images found in the directory."), rejected))
    as Hnone.
  { intros Hn. unfold run, stitch_images, stitch_images_canvas.
    rewrite run_bind, (bind_run_Return _ _ _ _ _ Hprompt). unfold compose_canvas.
    rewrite run_bind, glob_glob_png_run. simpl.
    rewrite length_sorted. fold num_images. rewrite Hn. by mrun. }
  assert (0 < num_images → grid_rows * grid_cols < num_images →
          run = (Raise (AssertionError "Number of images exceeds the grid capacity."), rejected))
    as Hmany.
  { intros Hn Hcap. unfold run, stitch_images, stitch_images_canvas.
    rewrite run_bind, (bind_run_Return _ _ _ _ _ Hprompt). unfold compose_canvas.
    rewrite run_bind, glob_glob_png_run. simpl.
    rewrite length_sorted. fold num_images.
    rewrite (proj2 (Z.ltb_lt 0 num_images)) by done. mrun.
    rewrite (proj2 (Z.leb_gt num_images (grid_rows * grid_cols))) by done. by mrun. }
  split; [done|]. split; [done|]. split; [|split; [done|]].
  - intros [Hn|Hcap].
    + eexists. by split; [apply Hnone|].
    + destruct (decide (num_images = 0)) as [Hn|Hn].
      * eexists. by split; [apply Hnone|].
      * eexists. split; [apply Hmany; [lia|done]|done].
  - apply confirm_overwrite_Return in Hprompt as [_ [[_ Hcalls]|(_ & _ & Hcalls)]];
      simpl; rewrite Hcalls.
    + eexists. split; [done|]. by repeat constructor.
    + eexists. rewrite <- app_assoc. split; [done|]. by repeat constructor.
Qed.

(** ** Decoding and measuring *)

Lemma Image_open_run path w :
  Image_open path w = (decode (fs w) path, logged w [Call.open path]).
Proof. unfold Image_open. mrun. by destruct (decode (fs w) path). Qed.

Lemma decode_Return f path im :
  decode f path = Return im →
  Raster.wf (Image.convert_RGBA im) = true ∧
  1 ≤ (Image.size im).1 ∧ 1 ≤ (Image.size im).2.
Proof.
  unfold decode. destruct (FS.stat f path) as [[|[im'|]]|]; try done.
  - destruct (decodable im') eqn:Hdec; [|done]. intros [= <-].
    by apply decodable_spec.
  - by destruct (FS.is_root path).
Qed.

Lemma logged_logged w cs1 cs2 : logged (logged w cs1) cs2 = logged w (cs1 ++ cs2).
Proof. unfold logged; simpl. by rewrite <- app_assoc. Qed.

(** The first loop returns the largest of its start value and of the
    larger dimensions of the files, all of which it could decode. *)
Lemma largest_dimension_Return image_files :
  ∀ max_image_size w m w',
    largest_dimension image_files max_image_size w = (Return m, w') →
    w' = logged w (Call.open <$> image_files) ∧
    max_image_size ≤ m ∧
    Forall (λ f, ∃ img, decode (fs w) f = Return img ∧
                        Z.max (Image.size img).1 (Image.size img).2 ≤ m) image_files ∧
    (m = max_image_size ∨
     Exists (λ f, ∃ img, decode (fs w) f = Return img ∧
                         m = Z.max (Image.size img).1 (Image.size img).2) image_files).
Proof.
  induction image_files as [|f files IH]; intros acc w m w'; simpl.
  - mrun. intros [= <- <-]. unfold logged; simpl. rewrite app_nil_r.
    destruct w; simpl. split; [done|]. split; [lia|]. split; [constructor|by left].
  - rewrite run_bind, Image_open_run.
    destruct (decode (fs w) f) as [img|e] eqn:Hdec; [|done].
    destruct (Image.size img) as [iw ih] eqn:Hsize.
    intros (-> & Hacc & Hall & Hmax)%IH. simpl in *.
    rewrite logged_logged. split; [done|]. split; [lia|]. split.
    + constructor; [|done]. exists img. rewrite Hsize; simpl. split; [done|lia].
    + destruct Hmax as [->|Hex]; [|by right; right].
      destruct (Z.max_spec acc (Z.max iw ih)) as [[_ ->]|[_ ->]]; [|by left].
      right. left. exists img. by rewrite Hsize.
Qed.

(** ** The second loop *)

Lemma Image_paste_run self im box mask w :
  Image_paste self im box mask w =
  (paste self im box mask, logged w [Call.paste im box mask]).
Proof. unfold Image_paste. mrun. by destruct (paste self im box mask). Qed.

Section PasteLoop.

Context (verbose : bool) (colorkey : option (list Z)) (process_colorkey : bool)
      (grid_cols cell_size : Z) (fill_image_resized : option Image).

Local Abbreviation paste_loop :=
(paste_images verbose colorkey process_colorkey grid_cols cell_size fill_image_resized).
Local Abbreviation key := (keyed process_colorkey colorkey).

(** Each pixel of the canvas after the loop is the pixel before it, taken
  through the pastes of every image in turn; the files are untouched and
  every one of them was decoded. *)
Lemma paste_images_Return image_files :
∀ i result w result' w',
  paste_loop i image_files result w = (Return result', w') →
  fs w' = fs w ∧
  width result' = width result ∧ height result' = height result ∧
  length (data result') = length (data result) ∧
  ∃ imgs,
    Forall2 (λ f img, decode (fs w) f = Return img) image_files imgs ∧
    calls w' = calls w ++
               loop_calls grid_cols cell_size fill_image_resized i
                 (zip image_files (key <$> imgs)) ∧
    ∀ X Y, Raster.getpixel result' X Y =
           loop_px grid_cols cell_size fill_image_resized i (key <$> imgs) X Y
             <$> Raster.getpixel result X Y.
Proof.
induction image_files as [|f files IH]; intros i result w result' w'.
- simpl. mrun. intros [= <- <-]. repeat split; try done.
  exists []. split; [constructor|]. simpl. rewrite app_nil_r. split; [done|].
  intros X Y. by destruct (Raster.getpixel result X Y).
- intros H. cbn [paste_images] in H. rewrite run_bind in H.
  destruct (grid_cols =? 0); [done|]. rewrite run_ret in H. cbn [position] in H.
  set (x_pos := i mod grid_cols * cell_size) in *.
  set (y_pos := i / grid_cols * cell_size) in *.
  rewrite run_bind in H.
  match type of H with
  | context [(if verbose then ?a else ?b) w] =>
      set (w0 := (if verbose then a else b) w) in H
  end.
  assert (fs w0.2 = fs w ∧ calls w0.2 = calls w ∧ w0.1 = Return ()) as (Hfs0 & Hcalls0 & Hret0).
  { unfold w0. by destruct verbose. }
  destruct w0 as [o0 w0']; simpl in Hfs0, Hcalls0, Hret0; subst o0.
  unfold lazy_open_image in H. rewrite run_bind, Image_open_run, Hfs0 in H.
  destruct (decode (fs w) f) as [img|e] eqn:Hdec; [|done].
  rewrite run_bind in H.
  set (filled := match fill_image_resized with
                 | Some fill_image =>
                     Image_paste result fill_image (x_pos, y_pos) None
                 | None => mret result
                 end (logged w0' [Call.open f])) in H.
  assert (∃ r1,
    filled = (Return r1, logged w0' ([Call.open f] ++
               match fill_image_resized with
               | Some fill_image => [Call.paste fill_image (x_pos, y_pos) None]
               | None => []
               end)) ∧
    width r1 = width result ∧ height r1 = height result ∧
    length (data r1) = length (data result) ∧
    ∀ X Y, Raster.getpixel r1 X Y =
           (λ out, match fill_image_resized with
                   | Some fill_image =>
                       Paste.px (Image.convert_RGBA fill_image) None x_pos y_pos X Y out
                   | None => out
                   end) <$> Raster.getpixel result X Y) as (r1 & Hfilled & Hw1 & Hh1 & Hl1 & Hpx1).
  { unfold filled. destruct fill_image_resized as [fill_image|].
    - rewrite Image_paste_run, logged_logged.
      destruct (paste result fill_image (x_pos, y_pos) None) as [r1|e] eqn:Hp.
      + exists r1. split; [done|]. by apply paste_Return in Hp.
      + unfold paste in Hp. destruct (Image.size fill_image).
        by destruct (Paste.clipped_away _ _ _ _ _).
    - exists result. rewrite run_ret, app_nil_r. repeat split; try done.
      intros X Y. by destruct (Raster.getpixel result X Y). }
  rewrite Hfilled in H. clear filled Hfilled.
  rewrite run_bind, Image_paste_run, logged_logged in H.
  destruct (paste r1 (key img) (x_pos, y_pos) (Some (key img))) as [r2|e] eqn:Hp; [|done].
  apply paste_Return in Hp as (Hw2 & Hh2 & Hl2 & Hpx2).
  apply IH in H as (Hfs & Hw & Hh & Hl & imgs & Himgs & Hcalls & Hpx).
  simpl in Hfs, Hcalls, Himgs.
  split; [congruence|]. split; [congruence|]. split; [congruence|]. split; [congruence|].
  exists (img :: imgs). split; [|split].
  + constructor; [exact Hdec|]. by rewrite Hfs0 in Himgs.
  + rewrite Hcalls, Hcalls0. cbn [fmap list_fmap zip zip_with loop_calls].
    fold x_pos y_pos. rewrite <- !app_assoc. f_equal. simpl. f_equal.
    by rewrite <- !app_assoc.
  + intros X Y. rewrite Hpx, Hpx2, Hpx1. cbn [fmap list_fmap loop_px].
    fold x_pos y_pos. unfold cell_px.
    by destruct (Raster.getpixel result X Y).
Qed.

End PasteLoop.

(** ** Lines 68-122 as a whole *)

Lemma Image_new_RGBA_Return size w r w' :
  Image_new_RGBA size w = (Return r, w') →
  0 ≤ size.1 ∧ 0 ≤ size.2 ∧
  r = Raster.new transparent size.1 size.2 ∧ w' = logged w [Call.new size].
Proof.
  unfold Image_new_RGBA. destruct size as [cw ch]. mrun.
  destruct ((cw <? 0) || (ch <? 0)) eqn:Hneg; mrun; [done|].
  apply orb_false_iff in Hneg as [?%Z.ltb_ge ?%Z.ltb_ge].
  by intros [= <- <-].
Qed.

(** The larger dimension of an image: [max(img.size)]. *)
Lemma measured_images (f : gmap string node) files imgs m :
  Forall2 (λ p img, decode f p = Return img) files imgs →
  Forall (λ p, ∃ img, decode f p = Return img ∧
                      Z.max (Image.size img).1 (Image.size img).2 ≤ m) files →
  Forall (λ img, Z.max (Image.size img).1 (Image.size img).2 ≤ m) imgs.
Proof.
  induction 1 as [|p img files imgs Hp _ IH]; intros Hall; [constructor|].
  apply Forall_cons in Hall as [(img' & Hp' & Hle) Hall].
  constructor; [|by apply IH]. congruence.
Qed.

Lemma largest_image (f : gmap string node) files imgs m :
  Forall2 (λ p img, decode f p = Return img) files imgs →
  Exists (λ p, ∃ img, decode f p = Return img ∧
                      m = Z.max (Image.size img).1 (Image.size img).2) files →
  Exists (λ img, m = Z.max (Image.size img).1 (Image.size img).2) imgs.
Proof.
  induction 1 as [|p img files imgs Hp _ IH]; intros Hex; [by apply Exists_nil in Hex|].
  apply Exists_cons in Hex as [(img' & Hp' & ->)|Hex].
  - left. congruence.
  - right. by apply IH.
Qed.

(** What a run that reaches line 122 has done. *)
Lemma stitch_images_canvas_Return
    tools directory output fill verbose colorkey process_colorkey
    grid_rows grid_cols w (L : Locals) w' :
  stitch_images_canvas tools directory output fill verbose colorkey
    process_colorkey grid_rows grid_cols w = (Return L, w') →
  ∃ w1 imgs fill_image_resized,
    confirm_overwrite output w = (Return (), w1) ∧
    fs w' = fs w1 ∧
    image_files L = sorted (glob_png (fs w1) directory) ∧
    0 < Z.of_nat (length (image_files L)) ≤ grid_rows * grid_cols ∧
    Forall2 (λ p img, decode (fs w1) p = Return img) (image_files L) imgs ∧
    Forall (λ img, Z.max (Image.size img).1 (Image.size img).2 ≤ cell_size L) imgs ∧
    Exists (λ img, cell_size L = Z.max (Image.size img).1 (Image.size img).2) imgs ∧
    0 ≤ cell_size L * grid_cols ∧ 0 ≤ cell_size L * grid_rows ∧
    fill_of tools (fs w1) fill (cell_size L) fill_image_resized ∧
    width (result L) = cell_size L * grid_cols ∧
    height (result L) = cell_size L * grid_rows ∧
    Raster.wf (result L) = true ∧
    (∃ before,
       calls w' = calls w1 ++ before ++
                  loop_calls grid_cols (cell_size L) fill_image_resized 0
                    (zip (image_files L) (keyed process_colorkey colorkey <$> imgs)) ∧
       Forall (λ c, is_paste c = false) before ∧
       Call.new (cell_size L * grid_cols, cell_size L * grid_rows) ∈ before) ∧
    ∀ X Y, Raster.getpixel (result L) X Y =
           loop_px grid_cols (cell_size L) fill_image_resized 0
             (keyed process_colorkey colorkey <$> imgs) X Y
             <$> Raster.getpixel
                   (Raster.new transparent (cell_size L * grid_cols) (cell_size L * grid_rows))
                   X Y.
Proof.
  unfold stitch_images_canvas. intros H.
  apply bind_Return in H as ([] & w1 & Hprompt & H).
  unfold compose_canvas in H.
  rewrite run_bind, glob_glob_png_run in H.
  set (files := sorted (glob_png (fs w1) directory)) in *.
  change (fs (logged w1 _)) with (fs w1) in H.
  apply bind_Return in H as ([] & w2 & Hsome & H).
  apply bind_Return in H as ([] & w3 & Hcap & H).
  unfold assert in Hsome, Hcap.
  destruct (0 <? Z.of_nat (length files)) eqn:Hn; [|done].
  destruct (Z.of_nat (length files) <=? grid_rows * grid_cols) eqn:Hc; [|done].
  rewrite run_ret in Hsome, Hcap. injection Hsome as <-. injection Hcap as <-.
  apply Z.ltb_lt in Hn. apply Z.leb_le in Hc.
  apply bind_Return in H as (cs & w4 & Hmeasure & H).
  apply largest_dimension_Return in Hmeasure as (-> & Hcs0 & Hall & Hmax).
  rewrite logged_logged in H.
  apply bind_Return in H as (canvas & w5 & Hnew & H).
  apply Image_new_RGBA_Return in Hnew as (Hcw & Hch & -> & ->). simpl in Hcw, Hch.
  rewrite logged_logged in H.
  apply bind_Return in H as (fillr & w6 & Hfill & H).
  apply bind_Return in H as (res & w7 & Hloop & H).
  rewrite run_ret in H. injection H as <- <-. simpl.
  apply paste_images_Return in Hloop
    as (Hfs7 & Hw7 & Hh7 & Hl7 & imgs & Himgs & Hcalls7 & Hpx).
  assert (fs w6 = fs w1 ∧
          fill_of tools (fs w1) fill cs fillr ∧
          ∃ fill_calls, calls w6 = calls (logged w1
              (([Call.glob (directory +:+ "/*.png")] ++ (Call.open <$> files)) ++
               [Call.new (cs * grid_cols, cs * grid_rows)])) ++ fill_calls ∧
            Forall (λ c, is_paste c = false) fill_calls)
    as (Hfs6 & Hfillr & fill_calls & Hcalls6 & Hfc).
  { unfold fill_of. destruct (truthy_str fill).
    - rewrite run_bind, Image_open_run in Hfill.
      change (fs (logged ?w _)) with (fs w) in Hfill.
      destruct (decode (fs w1) (default "" fill)) as [fill_image|] eqn:Hdec; [|done].
      unfold Image_resize in Hfill. mrun in Hfill. injection Hfill as <- <-.
      split; [done|]. split; [eauto|]. simpl.
      eexists [_; _]. split; [by rewrite <- !app_assoc|]. by repeat constructor.
    - rewrite run_ret in Hfill. injection Hfill as <- <-.
      split; [done|]. split; [done|]. exists []. by rewrite app_nil_r. }
  rewrite Hfs6 in Himgs.
  simpl in Hw7, Hh7, Hl7, Hpx.
  exists w1, imgs, fillr.
  split; [exact Hprompt|]. split; [by rewrite Hfs7|]. split; [reflexivity|].
  split; [lia|]. split; [exact Himgs|].
  split; [by eapply measured_images|].
  split.
  { destruct Hmax as [->|Hex]; [|by eapply largest_image].
    destruct Himgs as [|p img ps ims Hp _]; [simpl in Hn; lia|].
    apply Forall_cons in Hall as [(img' & Hp' & Hle) _].
    apply decode_Return in Hp' as (_ & ? & ?). lia. }
  split; [exact Hcw|]. split; [exact Hch|]. split; [exact Hfillr|].
  split; [exact Hw7|]. split; [exact Hh7|].
  split.
  { apply wf_spec. rewrite Hw7, Hh7, Hl7, length_replicate.
    split; [lia|]. split; [lia|]. rewrite Z2Nat.id by nia. done. }
  split; [|exact Hpx].
  rewrite Hcalls7, Hcalls6. cbn [calls logged].
  exists ((([Call.glob (directory +:+ "/*.png")] ++ (Call.open <$> files)) ++
           [Call.new (cs * grid_cols, cs * grid_rows)]) ++ fill_calls).
  split; [by rewrite <- !app_assoc|]. split.
  - apply Forall_app. split; [|exact Hfc].
    apply Forall_app. split; [|by repeat constructor].
    apply Forall_app. split; [by repeat constructor|].
    apply Forall_fmap. by apply Forall_true.
  - apply elem_of_app. left. apply elem_of_app. right. by left.
Qed.

(** ** The cell size *)

(** The cell size of a run that reaches the canvas: every input file was
    decoded, there is at least one, no image exceeds [cell_size] in either
    dimension and one attains it; and a second run on the same files, none
    of them smaller than before, has a cell size that is not smaller. *)
Lemma canvas_run_cell_size
    (tools : Tools) (directory output : string) (fill : option string) (verbose : bool)
    (colorkey : option (list Z)) (process_colorkey : bool) (grid_rows grid_cols : Z)
    (w w' : World) (L : Locals) :
  stitch_images_canvas tools directory output fill verbose colorkey
    process_colorkey grid_rows grid_cols w = (Return L, w') →
  image_files L ≠ [] ∧
  (∀ p, p ∈ image_files L →
        (∃ img, decode (fs w') p = Return img) ∧ dimension_at (fs w') p ≤ cell_size L) ∧
  (∃ p, p ∈ image_files L ∧ cell_size L = dimension_at (fs w') p) ∧
  ∀ directory2 output2 fill2 verbose2 colorkey2 process_colorkey2 grid_rows2 grid_cols2
    (v v' : World) (L2 : Locals),
    stitch_images_canvas tools directory2 output2 fill2 verbose2 colorkey2
      process_colorkey2 grid_rows2 grid_cols2 v = (Return L2, v') →
    image_files L2 = image_files L →
    (∀ p, p ∈ image_files L → dimension_at (fs w') p ≤ dimension_at (fs v') p) →
    cell_size L ≤ cell_size L2 ∧
    ((∃ p, p ∈ image_files L ∧ cell_size L < dimension_at (fs v') p) →
     cell_size L < cell_size L2).
Proof.
  assert (∀ directory output fill verbose colorkey process_colorkey grid_rows grid_cols
            w w' L,
    stitch_images_canvas tools directory output fill verbose colorkey
      process_colorkey grid_rows grid_cols w = (Return L, w') →
    image_files L ≠ [] ∧
    (∀ p, p ∈ image_files L →
          (∃ img, decode (fs w') p = Return img) ∧ dimension_at (fs w') p ≤ cell_size L) ∧
    (∃ p, p ∈ image_files L ∧ cell_size L = dimension_at (fs w') p)) as Hmax.
  { clear. intros ? ? ? ? ? ? ? ? w w' L Hrun.
    apply stitch_images_canvas_Return in Hrun
      as (w1 & imgs & fillr & _ & Hfs & _ & Hn & Himgs & Hall & Hex & _).
    rewrite Hfs. split; [|split].
    - intros Hnil. rewrite Hnil in Hn. simpl in Hn. lia.
    - intros p (k & Hk)%list_elem_of_lookup.
      destruct (Forall2_lookup_l _ _ _ _ _ Himgs Hk) as (img & Himg & Hdec).
      unfold dimension_at. rewrite Hdec. split; [eauto|].
      by apply (Forall_lookup_1 _ _ _ _ Hall Himg).
    - apply Exists_exists in Hex as (img & (k & Hk)%list_elem_of_lookup & Hcs).
      destruct (Forall2_lookup_r _ _ _ _ _ Himgs Hk) as (p & Hp & Hdec).
      exists p. split; [by eapply list_elem_of_lookup_2|].
      unfold dimension_at. by rewrite Hdec. }
  intros Hrun. destruct (Hmax _ _ _ _ _ _ _ _ _ _ _ Hrun) as (Hne & Hle & Hex).
  split; [done|]. split; [done|]. split; [done|].
  intros ? ? ? ? ? ? ? ? v v' L2 Hrun2 Hfiles Hgrow.
  destruct (Hmax _ _ _ _ _ _ _ _ _ _ _ Hrun2) as (_ & Hle2 & _).
  rewrite Hfiles in Hle2. split.
  - destruct Hex as (p & Hp & ->). etrans; [by apply Hgrow|]. by apply Hle2.
  - intros (p & Hp & Hlt). eapply Z.lt_le_trans; [exact Hlt|]. by apply Hle2.
Qed.

(** The first loop returns when every file decodes. *)
Lemma largest_dimension_total image_files :
  ∀ max_image_size w,
    Forall (λ p, ∃ img, decode (fs w) p = Return img) image_files →
    ∃ m, largest_dimension image_files max_image_size w
         = (Return m, logged w (Call.open <$> image_files)).
Proof.
  induction image_files as [|f files IH]; intros acc w Hall; simpl.
  - exists acc. rewrite run_ret. unfold logged. rewrite app_nil_r. by destruct w.
  - apply Forall_cons in Hall as [[img Hdec] Hall].
    rewrite run_bind, Image_open_run, Hdec.
    destruct (Image.size img) as [iw ih].
    destruct (IH (Z.max acc (Z.max iw ih)) (logged w [Call.open f]) Hall) as [m Hm].
    exists m. by rewrite Hm, logged_logged.
Qed.

(** C1. For a non-empty list of input files that all decode, lines 83-88
    return a cell size, and it is the maximum over the images of
    [max(width, height)]: no image exceeds it and one attains it.  It is
    monotone in the larger dimension of every image: computed again on
    the same files, none of whose larger dimensions is smaller than
    before (as when that of a single image has been increased), the cell
    size is not smaller, and it is strictly larger when an image now
    exceeds the old cell size. *)
Theorem cell_size_is_largest_dimension (image_files : list string) (w : World) :
  image_files ≠ [] →
  (∀ p, p ∈ image_files → ∃ img, decode (fs w) p = Return img) →
  ∃ cell_size w',
    largest_dimension image_files 0 w = (Return cell_size, w') ∧
    (∀ p, p ∈ image_files → dimension_at (fs w) p ≤ cell_size) ∧
    (∃ p, p ∈ image_files ∧ cell_size = dimension_at (fs w) p) ∧
    ∀ v cell_size2 v',
      largest_dimension image_files 0 v = (Return cell_size2, v') →
      (∀ p, p ∈ image_files → dimension_at (fs w) p ≤ dimension_at (fs v) p) →
      cell_size ≤ cell_size2 ∧
      ((∃ p, p ∈ image_files ∧ cell_size < dimension_at (fs v) p) →
       cell_size < cell_size2).
Proof.
  intros Hne Hdec.
  destruct (largest_dimension_total image_files 0 w) as [cs Hrun].
  { apply Forall_forall. exact Hdec. }
  assert (∀ u m u', largest_dimension image_files 0 u = (Return m, u') →
                    ∀ p, p ∈ image_files → dimension_at (fs u) p ≤ m) as Hbound.
  { intros u m u' (_ & _ & Hall & _)%largest_dimension_Return p Hp.
    apply (proj1 (Forall_forall _ _) Hall) in Hp as (img & Himg & Hle).
    unfold dimension_at. by rewrite Himg. }
  exists cs, (logged w (Call.open <$> image_files)).
  split; [exact Hrun|]. split; [by eapply Hbound|].
  assert (∃ p, p ∈ image_files ∧ cs = dimension_at (fs w) p) as Hattained.
  { pose proof Hrun as (_ & _ & Hall & [->|Hex])%largest_dimension_Return.
    - destruct image_files as [|p ps]; [done|]. exfalso.
      apply Forall_cons in Hall as [(img & Himg & Hle) _].
      apply decode_Return in Himg as (_ & ? & ?). lia.
    - apply Exists_exists in Hex as (p & Hp & img & Himg & ->).
      exists p. split; [done|]. unfold dimension_at. by rewrite Himg. }
  split; [exact Hattained|].
  intros v cs2 v' Hrun2 Hgrow. split.
  - destruct Hattained as (p & Hp & ->). etrans; [by apply Hgrow|]. by eapply Hbound.
  - intros (p & Hp & Hlt). eapply Z.lt_le_trans; [exact Hlt|]. by eapply Hbound.
Qed.

(** ** The canvas *)

(** In a run that reaches line 122 the canvas is an RGBA raster of
    exactly [grid_cols * cell_size] by [grid_rows * cell_size] pixels with
    a full buffer, whatever the number of images; it was allocated by a
    call of [Image.new('RGBA', ...)] with this size, whose pixels are all
    (0, 0, 0, 0). *)
Lemma canvas_allocation
    (tools : Tools) (directory output : string) (fill : option string) (verbose : bool)
    (colorkey : option (list Z)) (process_colorkey : bool) (grid_rows grid_cols : Z)
    (w w' : World) (L : Locals) :
  stitch_images_canvas tools directory output fill verbose colorkey
    process_colorkey grid_rows grid_cols w = (Return L, w') →
  width (result L) = grid_cols * cell_size L ∧
  height (result L) = grid_rows * cell_size L ∧
  Z.of_nat (length (data (result L))) = width (result L) * height (result L) ∧
  (∃ new, calls w' = calls w ++ new ∧
          Call.new (width (result L), height (result L)) ∈ new) ∧
  (∀ X Y, 0 ≤ X < width (result L) → 0 ≤ Y < height (result L) →
          Raster.getpixel
            (Raster.new transparent (width (result L)) (height (result L))) X Y
          = Some transparent) ∧
  ∃ imgs fill_image_resized,
    ∀ X Y, 0 ≤ X < width (result L) → 0 ≤ Y < height (result L) →
           Raster.getpixel (result L) X Y =
           Some (loop_px grid_cols (cell_size L) fill_image_resized 0 imgs X Y transparent).
Proof.
  intros Hrun.
  apply stitch_images_canvas_Return in Hrun
    as (w1 & imgs & fillr & Hprompt & _ & _ & _ & _ & _ & _ & _ & _ & _ & Hw & Hh & Hwf
        & (before & Hcalls & _ & Hnew) & Hpx).
  apply wf_spec in Hwf as (_ & _ & Hlen).
  split; [lia|]. split; [lia|]. split; [done|].
  split.
  { rewrite Hw, Hh.
    apply confirm_overwrite_Return in Hprompt as [_ [[_ Hw1]|(_ & _ & Hw1)]];
      rewrite Hcalls, Hw1; eexists; (split; [by rewrite <- ?app_assoc|]);
      set_solver. }
  split; [intros; by apply getpixel_new|].
  exists (keyed process_colorkey colorkey <$> imgs), fillr.
  intros X Y HX HY. rewrite Hpx, getpixel_new by lia. done.
Qed.

(** ** Placement *)

Lemma source_pastes_app cs1 cs2 :
  source_pastes (cs1 ++ cs2) = source_pastes cs1 ++ source_pastes cs2.
Proof. apply filter_app. Qed.

Lemma source_pastes_none cs :
  Forall (λ c, is_source_paste c = false) cs → source_pastes cs = [].
Proof.
  induction 1 as [|c cs Hc _ IH]; [done|].
  unfold source_pastes in *. rewrite filter_cons_False; [done|].
  rewrite Hc. by intros [].
Qed.

(** The masked pastes of the loop, in order: one for each image, at the
    offset of its index. *)
Lemma source_pastes_loop_calls grid_cols cell_size fill_image_resized steps :
  ∀ i (k : nat),
    source_pastes (loop_calls grid_cols cell_size fill_image_resized i steps) !! k =
    (λ step : string * Image,
       Call.paste step.2
         (((i + Z.of_nat k) mod grid_cols) * cell_size,
          ((i + Z.of_nat k) / grid_cols) * cell_size)
         (Some step.2)) <$> steps !! k.
Proof.
  induction steps as [|[p img] steps IH]; intros i k; [done|].
  cbn [loop_calls]. rewrite !source_pastes_app.
  rewrite (source_pastes_none [Call.open p]) by by repeat constructor.
  rewrite (source_pastes_none (match fill_image_resized with Some _ => _ | None => _ end))
    by (destruct fill_image_resized; by repeat constructor).
  change (source_pastes [Call.paste img ?box (Some img)])
    with [Call.paste img box (Some img)].
  simpl. destruct k as [|k]; simpl.
  - by rewrite Z.add_0_r.
  - rewrite IH. by replace (i + 1 + Z.of_nat k) with (i + Z.of_nat (S k)) by lia.
Qed.

Lemma length_source_pastes_loop_calls grid_cols cell_size fill_image_resized steps :
  ∀ i, length (source_pastes (loop_calls grid_cols cell_size fill_image_resized i steps))
       = length steps.
Proof.
  induction steps as [|[p img] steps IH]; intros i; [done|].
  cbn [loop_calls]. rewrite !source_pastes_app, !length_app.
  rewrite (source_pastes_none [Call.open p]) by by repeat constructor.
  rewrite (source_pastes_none (match fill_image_resized with Some _ => _ | None => _ end))
    by (destruct fill_image_resized; by repeat constructor).
  rewrite IH. done.
Qed.

(** In a run that reaches line 122, the input files are the matches
    of the pattern in ascending order of their paths, and the masked
    pastes of the run are, in this order and with nothing between or
    left out, those of the input images: the image of the file at index
    [i] is pasted with the offset [((i mod grid_cols) * cell_size,
    (i div grid_cols) * cell_size)]. *)
Lemma placement_calls
    (tools : Tools) (directory output : string) (fill : option string) (verbose : bool)
    (colorkey : option (list Z)) (process_colorkey : bool) (grid_rows grid_cols : Z)
    (w w' : World) (L : Locals) :
  stitch_images_canvas tools directory output fill verbose colorkey
    process_colorkey grid_rows grid_cols w = (Return L, w') →
  StronglySorted String.le (image_files L) ∧
  image_files L ≡ₚ glob_png (fs w') directory ∧
  ∃ new,
    calls w' = calls w ++ new ∧
    length (source_pastes new) = length (image_files L) ∧
    ∀ (i : nat) p,
      image_files L !! i = Some p →
      ∃ img,
        decode (fs w') p = Return img ∧
        source_pastes new !! i =
        Some (Call.paste (keyed process_colorkey colorkey img)
                ((Z.of_nat i mod grid_cols) * cell_size L,
                 (Z.of_nat i / grid_cols) * cell_size L)
                (Some (keyed process_colorkey colorkey img))).
Proof.
  intros Hrun.
  apply stitch_images_canvas_Return in Hrun
    as (w1 & imgs & fillr & Hprompt & Hfs & Hfiles & _ & Himgs & _ & _ & _ & _ & _
        & _ & _ & _ & (before & Hcalls & Hbefore & _) & _).
  apply (Forall_impl _ (λ c, is_source_paste c = false)) in Hbefore;
    [|by intros [] ?].
  rewrite Hfs. split; [|split].
  - rewrite Hfiles. apply StronglySorted_merge_sort; apply _.
  - rewrite Hfiles. apply merge_sort_Permutation.
  - assert (∃ removed, calls w1 = calls w ++ removed ∧
                       Forall (λ c, is_source_paste c = false) removed)
      as (removed & Hw1 & Hremoved).
    { apply confirm_overwrite_Return in Hprompt as [_ [[_ ->]|(_ & _ & ->)]].
      - exists []. by rewrite app_nil_r.
      - eexists [_]. split; [done|]. by repeat constructor. }
    set (steps := zip (image_files L) (keyed process_colorkey colorkey <$> imgs)) in *.
    assert (length (image_files L) = length imgs) as Hlen by by eapply Forall2_length.
    assert (length steps = length (image_files L)) as Hsteps.
    { unfold steps. rewrite length_zip, length_fmap. lia. }
    exists (removed ++ before ++ loop_calls grid_cols (cell_size L) fillr 0 steps).
    split; [by rewrite Hcalls, Hw1, <- !app_assoc|].
    rewrite !source_pastes_app, (source_pastes_none removed), (source_pastes_none before)
      by done.
    simpl. split; [by rewrite length_source_pastes_loop_calls|].
    intros i p Hp.
    destruct (Forall2_lookup_l _ _ _ _ _ Himgs Hp) as (img & Himg & Hdec).
    exists img. split; [done|].
    rewrite source_pastes_loop_calls. unfold steps.
    rewrite lookup_zip_with, Hp, list_lookup_fmap, Himg. simpl. by rewrite Z.add_0_l.
Qed.

(** ** Cells do not overlap *)

Lemma cell_disjoint grid_cols cell_size j j' X Y :
  0 < grid_cols → 0 < cell_size →
  in_cell grid_cols cell_size j X Y → in_cell grid_cols cell_size j' X Y → j = j'.
Proof.
  unfold in_cell. intros Hcols Hcs [HX HY] [HX' HY'].
  assert (j mod grid_cols = j' mod grid_cols) as Hmod by nia.
  assert (j / grid_cols = j' / grid_cols) as Hdiv by nia.
  rewrite (Z.div_mod j grid_cols), (Z.div_mod j' grid_cols) by lia. congruence.
Qed.

Lemma width_convert_RGBA img : width (Image.convert_RGBA img) = (Image.size img).1.
Proof. by destruct img. Qed.
Lemma height_convert_RGBA img : height (Image.convert_RGBA img) = (Image.size img).2.
Proof. by destruct img. Qed.

Section Cells.

Context (grid_cols cell_size : Z) (fill_image_resized : option Image).
Context (Hfill : ∀ fill_image, fill_image_resized = Some fill_image →
                             fits cell_size fill_image).

Local Abbreviation x_pos j := ((j mod grid_cols) * cell_size).
Local Abbreviation y_pos j := ((j / grid_cols) * cell_size).

(** An iteration changes nothing outside its cell. *)
Lemma cell_px_outside img j X Y out :
fits cell_size img →
¬ in_cell grid_cols cell_size j X Y →
cell_px fill_image_resized img (x_pos j) (y_pos j) X Y out = out.
Proof.
intros [Hw Hh] Hout. unfold cell_px.
rewrite px_outside.
- destruct fill_image_resized as [fill_image|]; [|done].
  destruct (Hfill fill_image eq_refl) as [Hfw Hfh].
  apply px_outside. rewrite width_convert_RGBA, height_convert_RGBA.
  unfold in_cell in Hout. lia.
- rewrite width_convert_RGBA, height_convert_RGBA. unfold in_cell in Hout. lia.
Qed.

(** The loop changes nothing outside the cells of its indices. *)
Lemma loop_px_frame imgs :
∀ i X Y out,
  Forall (fits cell_size) imgs →
  (∀ j, i ≤ j < i + Z.of_nat (length imgs) → ¬ in_cell grid_cols cell_size j X Y) →
  loop_px grid_cols cell_size fill_image_resized i imgs X Y out = out.
Proof.
induction imgs as [|img imgs IH]; intros i X Y out Hfits Hout; [done|].
apply Forall_cons in Hfits as [Hfit Hfits]. cbn [loop_px].
rewrite cell_px_outside; [|done|apply Hout; simpl; lia].
apply IH; [done|]. intros j Hj. apply Hout. simpl. lia.
Qed.

(** Inside the cell of an index, only the iteration of that index counts. *)
Lemma loop_px_hit imgs :
∀ i (k : nat) img X Y out,
  0 < grid_cols → 0 < cell_size →
  Forall (fits cell_size) imgs →
  imgs !! k = Some img →
  in_cell grid_cols cell_size (i + Z.of_nat k) X Y →
  loop_px grid_cols cell_size fill_image_resized i imgs X Y out =
  cell_px fill_image_resized img (x_pos (i + Z.of_nat k)) (y_pos (i + Z.of_nat k)) X Y out.
Proof.
induction imgs as [|img0 imgs IH]; intros i k img X Y out Hcols Hcs Hfits Hk Hin; [done|].
apply Forall_cons in Hfits as [Hfit Hfits]. cbn [loop_px].
destruct k as [|k]; simpl in Hk.
- injection Hk as ->. rewrite Z.add_0_r in *.
  apply loop_px_frame; [done|].
  intros j Hj Hin'.
  assert (j = i) by by apply (cell_disjoint grid_cols cell_size j i X Y). lia.
- rewrite cell_px_outside; [|done|].
  + replace (i + Z.of_nat (S k)) with (i + 1 + Z.of_nat k) in * by lia.
    by apply IH.
  + intros Hin'.
    assert (i = i + Z.of_nat (S k))
      by by apply (cell_disjoint grid_cols cell_size _ _ X Y).
    lia.
Qed.

End Cells.

Lemma size_resize tools im w h : Image.size (resize tools im (w, h)) = (w, h).
Proof. by destruct im. Qed.

Lemma wf_resize tools im w h :
  0 ≤ w → 0 ≤ h → Raster.wf (Image.convert_RGBA (resize tools im (w, h))) = true.
Proof.
  intros Hw Hh.
  assert (∀ {A} (f : Z → Z → A), Raster.wf (Raster.tabulate w h f) = true) as Htab.
  { intros A f. apply wf_spec; simpl. rewrite length_fmap, length_seq.
    split; [done|]. split; [done|]. rewrite Z2Nat.id by nia. done. }
  destruct im as [r|r|r]; simpl; [| |apply Htab];
    apply wf_spec; simpl; rewrite !length_fmap, length_seq;
    (split; [done|]); (split; [done|]); rewrite Z2Nat.id by nia; done.
Qed.

(** ** The grid of a run *)

(** A run that reaches the canvas has a cell of at least one pixel and a
    grid of at least one row and one column. *)
Lemma run_geometry (f : gmap string node) files imgs cell_size grid_rows grid_cols :
  0 < Z.of_nat (length files) ≤ grid_rows * grid_cols →
  Forall2 (λ p img, decode f p = Return img) files imgs →
  Forall (λ img, Z.max (Image.size img).1 (Image.size img).2 ≤ cell_size) imgs →
  0 ≤ cell_size * grid_cols → 0 ≤ cell_size * grid_rows →
  1 ≤ cell_size ∧ 0 < grid_cols ∧ 0 < grid_rows.
Proof.
  intros Hn Himgs Hall Hcw Hch.
  destruct Himgs as [|p img ps ims Hp _]; [simpl in Hn; lia|].
  apply Forall_cons in Hall as [Hle _].
  apply decode_Return in Hp as (_ & ? & ?).
  assert (1 ≤ cell_size) by lia. split; [done|]. nia.
Qed.

Lemma keyed_fits process_colorkey colorkey cell_size imgs :
  Forall (λ img, Z.max (Image.size img).1 (Image.size img).2 ≤ cell_size) imgs →
  Forall (fits cell_size) (keyed process_colorkey colorkey <$> imgs).
Proof.
  intros Hall. apply Forall_fmap. eapply Forall_impl; [exact Hall|].
  intros img Hle. unfold fits; simpl in *. rewrite size_keyed. lia.
Qed.

Lemma fill_of_fits tools f fill cell_size fill_image_resized fill_image :
  fill_of tools f fill cell_size fill_image_resized →
  fill_image_resized = Some fill_image →
  fits cell_size fill_image.
Proof.
  unfold fill_of. destruct (truthy_str fill); [|congruence].
  intros (fi & _ & Hfi) Hsome. rewrite Hfi in Hsome. injection Hsome as <-.
  by destruct fi.
Qed.

(** A cell of the grid lies on the canvas. *)
Lemma cell_on_canvas grid_rows grid_cols cell_size k X Y :
  0 < grid_cols → 0 < cell_size → 0 ≤ k < grid_rows * grid_cols →
  in_cell grid_cols cell_size k X Y →
  0 ≤ X < cell_size * grid_cols ∧ 0 ≤ Y < cell_size * grid_rows.
Proof.
  unfold in_cell. intros Hcols Hcs Hk [HX HY].
  pose proof (Z.mod_pos_bound k grid_cols Hcols).
  assert (0 ≤ k / grid_cols) by (apply Z.div_pos; lia).
  assert (k / grid_cols < grid_rows) by (apply Z.div_lt_upper_bound; lia).
  nia.
Qed.

(** The pastes of the loop go to the cells of its indices. *)
Lemma loop_calls_within grid_cols cell_size fill_image_resized steps :
  ∀ i n, i + Z.of_nat (length steps) ≤ n →
    Forall (pastes_within grid_cols cell_size i n)
           (loop_calls grid_cols cell_size fill_image_resized i steps).
Proof.
  induction steps as [|[p img] steps IH]; intros i n Hn; [constructor|].
  cbn [loop_calls]. simpl in Hn.
  assert (∀ im m, pastes_within grid_cols cell_size i n
                    (Call.paste im (i mod grid_cols * cell_size, i / grid_cols * cell_size) m))
    as Hhere.
  { intros im m. exists i. split; [lia|done]. }
  apply Forall_app. split; [by repeat constructor|].
  apply Forall_app. split; [destruct fill_image_resized; by repeat constructor|].
  apply Forall_app. split; [by repeat constructor|].
  eapply Forall_impl; [apply (IH (i + 1) n); lia|].
  intros [] Hc; try done. destruct Hc as (j & Hj & ->). exists j. split; [lia|done].
Qed.

(** C6. In a run that reaches line 122, every pixel of every cell whose
    index is at least the number of images (and below [grid_rows *
    grid_cols]) is the transparent pixel the canvas was created with;
    and no paste of the run, of the fill image or of a source image, has
    its box anywhere but at the offset of the index of an image. *)
Theorem trailing_cells_stay_transparent
    (tools : Tools) (directory output : string) (fill : option string) (verbose : bool)
    (colorkey : option (list Z)) (process_colorkey : bool) (grid_rows grid_cols : Z)
    (w w' : World) (L : Locals) :
  stitch_images_canvas tools directory output fill verbose colorkey
    process_colorkey grid_rows grid_cols w = (Return L, w') →
  let num_images := Z.of_nat (length (image_files L)) in
  (∀ k X Y,
     num_images ≤ k < grid_rows * grid_cols →
     in_cell grid_cols (cell_size L) k X Y →
     Raster.getpixel (result L) X Y = Some transparent) ∧
  ∃ new,
    calls w' = calls w ++ new ∧
    Forall (pastes_within grid_cols (cell_size L) 0 num_images) new.
Proof.
  intros Hrun num_images.
  apply stitch_images_canvas_Return in Hrun
    as (w1 & imgs & fillr & Hprompt & Hfs & Hfiles & Hn & Himgs & Hall & _ & Hcw & Hch
        & Hfill & _ & _ & _ & (before & Hcalls & Hbefore & _) & Hpx).
  destruct (run_geometry _ _ _ _ _ _ Hn Himgs Hall Hcw Hch) as (Hcs & Hcols & Hrows).
  assert (length (image_files L) = length imgs) as Hlen by by eapply Forall2_length.
  split.
  - intros k X Y Hk Hin.
    destruct (cell_on_canvas grid_rows grid_cols (cell_size L) k X Y) as [HX HY];
      [lia..|done|].
    rewrite Hpx, getpixel_new by done. simpl. f_equal.
    apply loop_px_frame.
    + intros fill_image. by eapply fill_of_fits.
    + by apply keyed_fits.
    + rewrite length_fmap, <- Hlen. intros j Hj Hin'.
      assert (j = k) by by apply (cell_disjoint grid_cols (cell_size L) j k X Y); [lia..| |].
      unfold num_images in Hk. lia.
  - assert (∃ removed, calls w1 = calls w ++ removed ∧
                       Forall (λ c, is_paste c = false) removed)
      as (removed & Hw1 & Hremoved).
    { apply confirm_overwrite_Return in Hprompt as [_ [[_ ->]|(_ & _ & ->)]].
      - exists []. by rewrite app_nil_r.
      - eexists [_]. split; [done|]. by repeat constructor. }
    eexists (removed ++ before ++ _).
    split; [by rewrite Hcalls, Hw1, <- !app_assoc|].
    apply Forall_app. split; [|apply Forall_app; split].
    + eapply Forall_impl; [exact Hremoved|]. by intros [].
    + eapply Forall_impl; [exact Hbefore|]. by intros [].
    + apply loop_calls_within. rewrite length_zip, length_fmap.
      unfold num_images. lia.
Qed.

(** ** Fill, then source *)



(** ** What a run leaves alone *)

Section Keeping.

Context (K : string → Prop).

Lemma keeps_refl w : keeps K w w.
Proof. split; [exists []; by rewrite app_nil_r|done]. Qed.

Lemma keeps_trans w1 w2 w3 : keeps K w1 w2 → keeps K w2 w3 → keeps K w1 w3.
Proof.
intros [[n1 Hc1] Hf1] [[n2 Hc2] Hf2]. split.
- exists (n1 ++ n2). by rewrite Hc2, Hc1, app_assoc.
- intros k Hk. by rewrite Hf2, Hf1.
Qed.

Lemma keeping_ret {A} (a : A) : keeping K (mret a : M A).
Proof. intros w o w' [= <- <-]. apply keeps_refl. Qed.

Lemma keeping_raise {A} e : keeping K (raise e : M A).
Proof. intros w o w' [= <- <-]. apply keeps_refl. Qed.

Lemma keeping_get : keeping K get.
Proof. intros w o w' [= <- <-]. apply keeps_refl. Qed.

Lemma keeping_called c : keeping K (called c).
Proof. intros w o w' [= <- <-]. split; [by exists [c]|done]. Qed.

Lemma keeping_print line : keeping K (print line).
Proof. intros w o w' [= <- <-]. split; [exists []; simpl; by rewrite app_nil_r|done]. Qed.

Lemma keeping_input prompt : keeping K (input prompt).
Proof.
intros w o w'. unfold input.
destruct (stdin w); intros [= <- <-]; (split; [exists []; simpl; by rewrite app_nil_r|done]).
Qed.

Lemma keeping_assert cond msg : keeping K (assert cond msg).
Proof. unfold assert. destruct cond; [apply keeping_ret|apply keeping_raise]. Qed.

Lemma keeping_put_fs f :
(∀ w, ∀ k, K k → f w !! k = fs w !! k) →
keeping K (w ← get; put_fs (f w)).
Proof. intros Hf w o w' [= <- <-]. split; [exists []; simpl; by rewrite app_nil_r|apply Hf]. Qed.

Lemma keeping_bind {A B} (m : M A) (f : A → M B) :
keeping K m → (∀ a, keeping K (f a)) → keeping K (m ≫= f).
Proof.
intros Hm Hf w o w'. rewrite run_bind.
destruct (m w) as [[a|e] w1] eqn:Hmw.
- intros Hfa. eapply keeps_trans; [by eapply Hm|by eapply Hf].
- intros [= <- <-]. by eapply Hm.
Qed.

Lemma keeping_catch {A} (m : M A) E h :
keeping K m → (∀ e, keeping K (h e)) → keeping K (catch m E h).
Proof.
intros Hm Hh w o w'. unfold catch.
destruct (m w) as [[a|e] w1] eqn:Hmw.
- intros [= <- <-]. by eapply Hm.
- destruct (E e).
  + intros He. eapply keeps_trans; [by eapply Hm|by eapply Hh].
  + intros [= <- <-]. by eapply Hm.
Qed.

End Keeping.

(** Take a computation apart along its binds and case distinctions. *)
Ltac keep_step :=
  first
    [ apply keeping_ret | apply keeping_raise | apply keeping_get
    | apply keeping_called | apply keeping_print | apply keeping_input
    | apply keeping_assert
    | apply keeping_bind; [|intros ?]
    | apply keeping_catch; [|intros ?]
    | match goal with
      | |- keeping _ (match ?x with _ => _ end) => destruct x
      end ].
Ltac keep := repeat keep_step.

Lemma keeping_Image_open K path : keeping K (Image_open path).
Proof. unfold Image_open. keep. Qed.

Lemma keeping_Image_paste K self im box mask : keeping K (Image_paste self im box mask).
Proof. unfold Image_paste. keep. Qed.

Lemma keeping_Image_new_RGBA K size : keeping K (Image_new_RGBA size).
Proof. unfold Image_new_RGBA. keep. Qed.

Lemma keeping_largest_dimension K image_files :
  ∀ max_image_size, keeping K (largest_dimension image_files max_image_size).
Proof.
  induction image_files as [|f files IH]; intros m; simpl; [apply keeping_ret|].
  apply keeping_bind; [apply keeping_Image_open|]. intros img.
  destruct (Image.size img). apply IH.
Qed.

Lemma keeping_paste_images K verbose colorkey process_colorkey grid_cols cell_size
    fill_image_resized image_files :
  ∀ i result,
    keeping K (paste_images verbose colorkey process_colorkey grid_cols cell_size
                 fill_image_resized i image_files result).
Proof.
  induction image_files as [|f files IH]; intros i result; simpl; [apply keeping_ret|].
  apply keeping_bind; [keep|]. intros _.
  apply keeping_bind; [keep|]. intros _.
  apply keeping_bind; [apply keeping_Image_open|]. intros img.
  apply keeping_bind; [destruct fill_image_resized; [apply keeping_Image_paste|keep]|].
  intros r1. apply keeping_bind; [apply keeping_Image_paste|]. intros r2. apply IH.
Qed.

(** Lines 75-122 write to no file, whether they fail or not. *)
Lemma keeping_compose_canvas K tools directory fill verbose colorkey process_colorkey
    grid_rows grid_cols :
  keeping K (compose_canvas tools directory fill verbose colorkey process_colorkey
               grid_rows grid_cols).
Proof.
  unfold compose_canvas.
  apply keeping_bind; [unfold glob_glob_png; keep|]. intros paths.
  apply keeping_bind; [keep|]. intros _.
  apply keeping_bind; [keep|]. intros _.
  apply keeping_bind; [apply keeping_largest_dimension|]. intros cs.
  apply keeping_bind; [apply keeping_Image_new_RGBA|]. intros canvas.
  apply keeping_bind.
  { destruct (truthy_str fill); [|keep].
    apply keeping_bind; [apply keeping_Image_open|]. intros fi.
    unfold Image_resize. keep. }
  intros fillr. apply keeping_bind; [apply keeping_paste_images|]. intros r. keep.
Qed.

(** ** Directory parts *)

Lemma rstrip_sep_length s : (String.length (Text.rstrip_sep s) ≤ String.length s)%nat.
Proof.
  induction s as [|c s IH]; simpl; [done|].
  destruct (Text.rstrip_sep s); simpl in *; [destruct (Text.is_sep c); simpl|]; lia.
Qed.

Lemma cut_last_sep_length p :
  (String.length (Text.cut_last_sep p).1 + String.length (Text.cut_last_sep p).2
   = String.length p)%nat.
Proof.
  induction p as [|c p IH]; simpl; [done|].
  destruct (Text.has_sep p).
  - destruct (Text.cut_last_sep p) as [h t]; simpl in *. lia.
  - destruct (Text.is_sep c); simpl; lia.
Qed.

Lemma cut_last_sep_app p :
  (Text.cut_last_sep p).1 +:+ (Text.cut_last_sep p).2 = p.
Proof.
  induction p as [|c p IH]; simpl; [done|].
  destruct (Text.has_sep p).
  - destruct (Text.cut_last_sep p) as [h t]; simpl in *.
    change (String c h +:+ t) with (String c (h +:+ t)). by rewrite IH.
  - by destruct (Text.is_sep c).
Qed.

Lemma cut_last_sep_head p :
  Text.has_sep p = true → (Text.cut_last_sep p).1 ≠ "".
Proof.
  destruct p as [|c p]; simpl; [done|].
  destruct (Text.has_sep p).
  - by destruct (Text.cut_last_sep p).
  - rewrite orb_false_r. by intros ->.
Qed.

(** The head that [cut_last_sep] gives ends in a slash, which [rstrip]
    takes away. *)
Lemma rstrip_sep_cut p :
  (Text.cut_last_sep p).1 = "" ∨
  (String.length (Text.rstrip_sep (Text.cut_last_sep p).1)
   < String.length (Text.cut_last_sep p).1)%nat.
Proof.
  induction p as [|c p IH]; simpl; [by left|].
  destruct (Text.has_sep p) eqn:Hsep.
  - pose proof (cut_last_sep_head p Hsep) as Hne.
    destruct (Text.cut_last_sep p) as [h t]; simpl in *. right.
    destruct IH as [->|IH]; [done|].
    destruct (Text.rstrip_sep h); simpl in *; [destruct (Text.is_sep c); simpl|]; lia.
  - destruct (Text.is_sep c) eqn:Hc; simpl; [|by left]. right. rewrite Hc. simpl. lia.
Qed.

Lemma split_head_length p :
  (String.length (posixpath.split p).1 ≤ String.length p)%nat.
Proof.
  unfold posixpath.split. pose proof (cut_last_sep_length p) as Hlen.
  destruct (Text.cut_last_sep p) as [h t]; simpl in *.
  destruct (_ && _); [pose proof (rstrip_sep_length h)|]; lia.
Qed.

Lemma string_app_empty_r (s : string) : s +:+ "" = s.
Proof.
  induction s as [|c s IH]; [done|].
  change (String c s +:+ "") with (String c (s +:+ "")). by rewrite IH.
Qed.

(** The directory part of a path is shorter than the path, unless the
    path is empty or the root. *)
Lemma dirname_shorter p :
  (String.length (posixpath.dirname p) < String.length p)%nat ∨
  p = "" ∨ FS.is_root p = true.
Proof.
  unfold posixpath.dirname, posixpath.split, FS.is_root.
  pose proof (cut_last_sep_length p) as Hlen. pose proof (rstrip_sep_cut p) as Hstrip.
  pose proof (cut_last_sep_app p) as Happ.
  destruct (Text.cut_last_sep p) as [h t]; simpl in *.
  destruct (decide (t = "")) as [->|Ht].
  - rewrite string_app_empty_r in Happ. subst h.
    destruct (decide (p = "")) as [->|Hp]; [by right; left|].
    rewrite (bool_decide_eq_false_2 _ Hp). simpl.
    destruct (Text.all_sep p) eqn:Hall; simpl; [by right; right|].
    left. destruct Hstrip as [->|Hs]; [done|]. lia.
  - left. assert (0 < String.length t)%nat by (destruct t; simpl; [done|lia]).
    destruct (_ && _); [pose proof (rstrip_sep_length h)|]; lia.
Qed.

(** ** Nodes by path *)

Lemma stat_insert_ne (f : gmap string node) p q n :
  p ≠ q → FS.stat (<[p := n]> f) q = FS.stat f q.
Proof. intros Hne. unfold FS.stat. case_bool_decide; [done|]. by apply lookup_insert_ne. Qed.

Lemma stat_insert_eq (f : gmap string node) p n :
  p ≠ "" → FS.stat (<[p := n]> f) p = Some n.
Proof.
  intros Hne. unfold FS.stat. rewrite bool_decide_eq_false_2 by done.
  apply lookup_insert_eq.
Qed.

Lemma stat_delete_ne (f : gmap string node) p q :
  p ≠ q → FS.stat (delete p f) q = FS.stat f q.
Proof. intros Hne. unfold FS.stat. case_bool_decide; [done|]. by apply lookup_delete_ne. Qed.

Lemma stat_delete_eq (f : gmap string node) p : FS.stat (delete p f) p = None.
Proof. unfold FS.stat. case_bool_decide; [done|]. apply lookup_delete_eq. Qed.

(** ** [os.makedirs] *)

Lemma keeping_weaken {A} (K K' : string → Prop) (m : M A) :
  (∀ k, K' k → K k) → keeping K m → keeping K' m.
Proof.
  intros HK Hm w o w' Hrun. destruct (Hm w o w' Hrun) as [Hcalls Hfs].
  split; [done|]. intros k Hk. by apply Hfs, HK.
Qed.

Lemma keeping_os_mkdir name : keeping (beyond name) (os_mkdir name).
Proof.
  intros w o w'. unfold os_mkdir. mrun.
  case_bool_decide as Hempty; [intros [= <- <-]; apply keeps_refl|].
  destruct (FS.exists_ (fs w) name) eqn:Hex; [intros [= <- <-]; apply keeps_refl|].
  destruct (negb (parent_ok (fs w) name)); [intros [= <- <-]; apply keeps_refl|].
  intros [= <- <-]. split; [exists []; simpl; by rewrite app_nil_r|]. simpl.
  intros k Hk. apply lookup_insert_ne. intros <-.
  destruct Hk as [Hk|[Hk|Hk]]; [lia|done|].
  unfold FS.exists_ in Hex. by rewrite Hk in Hex.
Qed.

Lemma keeping_makedirs depth :
  ∀ name, keeping (beyond name) (makedirs depth name).
Proof.
  induction depth as [|depth IH]; intros name.
  - cbn [makedirs]. pose proof (split_head_length name) as Hlen.
    destruct (posixpath.split name) as [h1 t1]; simpl in Hlen.
    destruct (if bool_decide (t1 = "") then posixpath.split h1 else (h1, t1))
      as [head tail].
    apply keeping_bind; [unfold os_path_exists; keep|]. intros ex.
    apply keeping_bind; [keep|]. intros returned.
    destruct returned; [keep|].
    apply keeping_catch; [apply keeping_os_mkdir|]. intros e.
    unfold os_path_isdir. keep.
  - cbn [makedirs]. pose proof (split_head_length name) as Hlen.
    destruct (posixpath.split name) as [h1 t1]; simpl in Hlen.
    assert (String.length
              (if bool_decide (t1 = "") then posixpath.split h1 else (h1, t1)).1
            ≤ String.length name)%nat as Hhead.
    { case_bool_decide; [pose proof (split_head_length h1)|simpl]; lia. }
    destruct (if bool_decide (t1 = "") then posixpath.split h1 else (h1, t1))
      as [head tail]; simpl in Hhead.
    apply keeping_bind; [unfold os_path_exists; keep|]. intros ex.
    apply keeping_bind.
    { destruct (_ && _); [|keep].
      apply keeping_bind; [|intros ?; keep].
      apply keeping_catch; [|intros ?; keep].
      eapply keeping_weaken; [|apply IH].
      intros k [Hk|Hk]; [left; lia|by right]. }
    intros returned. destruct returned; [keep|].
    apply keeping_catch; [apply keeping_os_mkdir|]. intros e.
    unfold os_path_isdir. keep.
Qed.

(** Making the directory of the output path leaves the output path as it
    was. *)
Lemma os_makedirs_dirname output w o w' :
  os_makedirs (posixpath.dirname output) w = (o, w') →
  (∃ new, calls w' = calls w ++ new) ∧ FS.stat (fs w') output = FS.stat (fs w) output.
Proof.
  intros Hrun.
  assert (keeping (beyond (posixpath.dirname output))
            (os_makedirs (posixpath.dirname output))) as Hkeep.
  { unfold os_makedirs. apply keeping_bind; [keep|]. intros _. apply keeping_makedirs. }
  destruct (Hkeep w o w' Hrun) as [Hcalls Hfs]. split; [done|].
  unfold FS.stat. case_bool_decide; [done|]. apply Hfs.
  destruct (dirname_shorter output) as [?|[?|?]]; [by left|done|by right; right].
Qed.

(** With no directory part to make, [os.makedirs('')] fails. *)
Lemma os_makedirs_empty w :
  os_makedirs "" w = (Raise (FileNotFoundError ""), logged w [Call.makedirs ""]).
Proof.
  unfold os_makedirs. mrun. unfold os_path_exists, os_mkdir, catch. mrun.
  unfold os_path_isdir. mrun. unfold FS.isdir, FS.stat. by mrun.
Qed.

Lemma split_lengths p :
  (String.length (posixpath.split p).1 + String.length (posixpath.split p).2
   ≤ String.length p)%nat.
Proof.
  unfold posixpath.split. pose proof (cut_last_sep_length p) as Hlen.
  destruct (Text.cut_last_sep p) as [h t]; simpl in *.
  destruct (_ && _); simpl; [pose proof (rstrip_sep_length h)|]; lia.
Qed.

(** The recursion of [os.makedirs] never needs more depth than the length
    of the name. *)
Lemma makedirs_depth d1 :
  ∀ d2 name w,
    (String.length name ≤ d1)%nat → (String.length name ≤ d2)%nat →
    makedirs d1 name w = makedirs d2 name w.
Proof.
  induction d1 as [|d1 IH]; intros d2 name w H1 H2.
  - assert (name = "") as -> by (destruct name; simpl in *; [done|lia]).
    by destruct d2.
  - destruct d2 as [|d2].
    { assert (name = "") as -> by (destruct name; simpl in *; [done|lia]). done. }
    cbn [makedirs]. pose proof (split_lengths name) as Hlen.
    destruct (posixpath.split name) as [h1 t1]; simpl in Hlen.
    assert (let ht := if bool_decide (t1 = "") then posixpath.split h1 else (h1, t1) in
            ht.2 ≠ "" → String.length ht.1 < String.length name)%nat as Hhead.
    { case_bool_decide; simpl.
      - pose proof (split_lengths h1). destruct (posixpath.split h1) as [h2 t2]; simpl in *.
        intros Ht. assert (0 < String.length t2)%nat by (destruct t2; simpl; [done|lia]). lia.
      - intros Ht. assert (0 < String.length t1)%nat by (destruct t1; simpl; [done|lia]). lia. }
    destruct (if bool_decide (t1 = "") then posixpath.split h1 else (h1, t1))
      as [head tail]; simpl in Hhead.
    rewrite !(run_bind (os_path_exists head)).
    destruct (os_path_exists head w) as [[ex|e] w1]; [|done].
    destruct (negb (bool_decide (head = "")) && negb (bool_decide (tail = "")) && negb ex)
      eqn:Hcond; [|done].
    apply andb_true_iff in Hcond as [[_ Htail%negb_true_iff]%andb_true_iff _].
    apply bool_decide_eq_false in Htail. specialize (Hhead Htail).
    rewrite !(run_bind (_ ≫= _)), !(run_bind (catch _ _ _)). unfold catch.
    by rewrite (IH d2 head w1) by lia.
Qed.

(** When [os.makedirs(name, exist_ok=True)] returns, [name] is a
    directory (a name that ends in a [.] component apart, which the model
    does not resolve). *)
Lemma os_makedirs_Return name w w' :
  os_makedirs name w = (Return (), w') →
  last_component name ≠ "." →
  FS.isdir (fs w') name = true.
Proof.
  unfold os_makedirs, last_component. intros H Hlast.
  apply bind_Return in H as ([] & w1 & _ & H).
  assert (∀ depth, makedirs depth name w1 = (Return (), w') →
                   FS.isdir (fs w') name = true) as Hdepth; [|by eapply Hdepth].
  clear H. intros depth H.
  assert (∀ w3, catch (os_mkdir name) is_OSError
                  (λ e, (isd ← os_path_isdir name;
                         if isd : bool then mret () else raise e) : M unit) w3
                = (Return (), w') → FS.isdir (fs w') name = true) as Hlast_step.
  { intros w3. unfold catch, os_mkdir. mrun.
    case_bool_decide as Hname; simpl.
    { unfold os_path_isdir. mrun.
      destruct (FS.isdir (fs w3) name) eqn:Hd; mrun; [|done]. by intros [= <-]. }
    destruct (FS.exists_ (fs w3) name); simpl.
    { unfold os_path_isdir. mrun.
      destruct (FS.isdir (fs w3) name) eqn:Hd; mrun; [|done]. by intros [= <-]. }
    destruct (negb (parent_ok (fs w3) name)); simpl.
    { unfold os_path_isdir. mrun.
      destruct (FS.isdir (fs w3) name) eqn:Hd; mrun; [|done]. by intros [= <-]. }
    intros [= <-]. simpl. unfold FS.isdir. rewrite stat_insert_eq by done.
    apply orb_true_r. }
  destruct depth as [|depth]; cbn [makedirs] in H;
    destruct (posixpath.split name) as [h1 t1];
    [ destruct (bool_decide (t1 = "")) eqn:Ht1
    | destruct (bool_decide (t1 = "")) eqn:Ht1 ];
    try (destruct (posixpath.split h1) as [head tail]; simpl in Hlast);
    apply bind_Return in H as (ex & w2 & _ & H);
    apply bind_Return in H as (returned & w3 & Hret & H);
    (assert (returned = false) as ->;
     [ destruct (_ && _) in Hret;
       [ apply bind_Return in Hret as ([] & w2' & _ & Hret);
         rewrite run_ret in Hret; injection Hret as <- _;
         by apply bool_decide_eq_false_2
       | rewrite run_ret in Hret; by injection Hret as <- _ ]
     | by eapply Hlast_step ]).
Qed.

(** ** Lines 124-138 *)

(** A failed save has written nothing; a successful one has written the
    canvas. *)
Lemma Image_save_run result path w o w' :
  Image_save result path w = (o, w') →
  match o with
  | Raise _ => fs w' = fs w
  | Return _ => fs w' = <[path := File (Png (ImRGBA result))]> (fs w)
  end.
Proof.
  unfold Image_save. mrun.
  destruct (FS.isdir (fs w) path); [by intros [= <- <-]|].
  destruct (negb (parent_ok (fs w) path)); by intros [= <- <-].
Qed.

(** [pngquant] has written the output path or nothing. *)
Lemma subprocess_run_pngquant_run tools output temp_file w o w' :
  subprocess_run_pngquant tools output temp_file w = (o, w') →
  fs w' = fs w ∨
  o = Return () ∧ output ≠ "" ∧ ∃ im, fs w' = <[output := File (Png im)]> (fs w).
Proof.
  unfold subprocess_run_pngquant. mrun.
  destruct (FS.stat (fs w) temp_file) as [[|c]|]; try (intros [= <- <-]; by left).
  destruct (pngquant tools c) as [|status|im].
  - intros [= <- <-]; by left.
  - destruct (status =? 0); intros [= <- <-]; by left.
  - case_bool_decide as Hempty; simpl; [intros [= <- <-]; by left|].
    destruct (FS.exists_ (fs w) output); [intros [= <- <-]; by left|].
    destruct (negb (parent_ok (fs w) output)); intros [= <- <-]; [by left|].
    right. eauto.
Qed.

(** A failed move has moved nothing; a successful one has taken the node
    of the source to its destination. *)
Lemma shutil_move_run src dst w o w' :
  shutil_move src dst w = (o, w') →
  match o with
  | Raise _ => fs w' = fs w
  | Return _ =>
      ∃ real_dst n, real_dst ≠ "" ∧ FS.stat (fs w) src = Some n ∧
                    fs w' = <[real_dst := n]> (delete src (fs w))
  end.
Proof.
  unfold shutil_move. mrun.
  destruct (_ && _); [by intros [= <- <-]|].
  destruct (FS.stat (fs w) src) as [n|] eqn:Hsrc; [|by intros [= <- <-]].
  case_bool_decide as Hempty; simpl; [by intros [= <- <-]|].
  destruct (negb (parent_ok _ _)); intros [= <- <-]; [done|]. simpl. eauto.
Qed.

(** Lines 137-138 do not fail on a temporary file that is a file or is
    not there. *)
Lemma cleanup_Return temp_file w :
  FS.is_root temp_file = false →
  (FS.stat (fs w) temp_file = None ∨ ∃ c, FS.stat (fs w) temp_file = Some (File c)) →
  ∃ w', (ex ← os_path_exists temp_file;
         if ex : bool then os_remove temp_file else mret ()) w = (Return (), w').
Proof.
  intros Hroot Hstat. unfold os_path_exists, FS.exists_. mrun. rewrite Hroot. simpl.
  destruct Hstat as [->|[c Hc]]; [by eexists|].
  rewrite Hc. unfold os_remove. mrun. rewrite Hc. by eexists.
Qed.

(** When lines 124-138 fail, they have not written the output path. *)
Lemma finish_Raise tools output reduce verbose result w e w' :
  FS.stat (fs w) output = None →
  finish tools output reduce verbose result w = (Raise e, w') →
  FS.stat (fs w') output = None.
Proof.
  intros Hout H. unfold finish in H. cbv zeta in H.
  apply bind_Raise in H as [H|([] & w1 & Hmk & H)].
  { apply os_makedirs_dirname in H as [_ ->]. done. }
  assert (output ≠ "temp.png") as Hne.
  { intros ->. change (posixpath.dirname "temp.png") with "" in Hmk.
    by rewrite os_makedirs_empty in Hmk. }
  apply os_makedirs_dirname in Hmk as [_ Hout1]. rewrite Hout in Hout1.
  apply bind_Raise in H as [H|([] & w2 & Hsave & H)].
  { apply Image_save_run in H. simpl in H. by rewrite H. }
  apply Image_save_run in Hsave. simpl in Hsave.
  assert (FS.stat (fs w2) output = None) as Hout2.
  { rewrite Hsave, stat_insert_ne by done. done. }
  assert (∃ c, FS.stat (fs w2) "temp.png" = Some (File c)) as Htemp2.
  { rewrite Hsave, stat_insert_eq by done. eauto. }
  assert (FS.is_root "temp.png" = false) as Hroot by done.
  apply bind_Raise in H as [H|([] & w3 & Hwrite & H)].
  - (* the output was not written *)
    destruct reduce.
    + apply bind_Raise in H as [H|([] & w2' & Hprint & H)].
      { destruct verbose; by inversion H. }
      assert (fs w2' = fs w2) as Hfs by (destruct verbose; by inversion Hprint).
      apply subprocess_run_pngquant_run in H as [H|[? _]]; [|done].
      by rewrite H, Hfs.
    + apply shutil_move_run in H. simpl in H. by rewrite H.
  - (* the output was written: the rest cannot fail *)
    exfalso.
    assert (FS.stat (fs w3) "temp.png" = None ∨
            ∃ c, FS.stat (fs w3) "temp.png" = Some (File c)) as Htemp3.
    { destruct reduce.
      - apply bind_Return in Hwrite as ([] & w2' & Hprint & Hwrite).
        assert (fs w2' = fs w2) as Hfs by (destruct verbose; by inversion Hprint).
        apply subprocess_run_pngquant_run in Hwrite as [->|(_ & _ & im & ->)].
        + right. by rewrite Hfs.
        + right. rewrite stat_insert_ne, Hfs by done. done.
      - apply shutil_move_run in Hwrite. simpl in Hwrite.
        destruct Hwrite as (real_dst & n & Hdst & Hsrc & ->).
        destruct Htemp2 as [c Hc]. rewrite Hc in Hsrc. injection Hsrc as <-.
        destruct (decide (real_dst = "temp.png")) as [->|Hd].
        + right. rewrite stat_insert_eq by done. eauto.
        + left. rewrite stat_insert_ne by done. apply stat_delete_eq. }
    destruct (cleanup_Return "temp.png" w3 Hroot Htemp3) as [w4 Hclean].
    by rewrite Hclean in H.
Qed.

Lemma keeping_none_put_fs f : keeping (λ _, False) (put_fs f).
Proof. intros w o w' [= <- <-]. split; [exists []; simpl; by rewrite app_nil_r|done]. Qed.

Lemma keeping_none_finish tools output reduce verbose result :
  keeping (λ _, False) (finish tools output reduce verbose result).
Proof.
  unfold finish. cbv zeta.
  apply keeping_bind.
  { unfold os_makedirs. apply keeping_bind; [keep|]. intros _.
    eapply keeping_weaken; [|apply keeping_makedirs]. done. }
  intros _. apply keeping_bind.
  { unfold Image_save. keep; apply keeping_none_put_fs. }
  intros _. apply keeping_bind.
  { destruct reduce.
    - apply keeping_bind; [keep|]. intros _.
      unfold subprocess_run_pngquant. keep; apply keeping_none_put_fs.
    - unfold shutil_move. keep; apply keeping_none_put_fs. }
  intros _. apply keeping_bind; [unfold os_path_exists; keep|]. intros ex.
  destruct ex; [|keep]. unfold os_remove. keep; apply keeping_none_put_fs.
Qed.

(** ** Overwriting *)

(** C10. When the output path names a file and the answer to the prompt
    is [y], the first library call of the run is [os.remove(output)],
    ahead of the [glob], of the two assertions and of every
    [Image.open], and it has taken the file away before anything else is
    done: the rest of the run starts from the file system without it.
    Whatever exception the run then ends in, from the assertions, from
    decoding, from Pillow, from making the directory or from [pngquant],
    the removal has been made; and for an output path that is [plain],
    so that it cannot be another spelling of [temp.png], nothing at all
    is at the output path then. *)
Theorem overwrite_is_not_atomic
    (tools : Tools) (directory output : string) (fill : option string)
    (reduce verbose : bool) (colorkey : option (list Z)) (process_colorkey : bool)
    (grid_rows grid_cols : Z) (w : World) (c : content)
    (response : string) (rest : list string) :
  FS.stat (fs w) output = Some (File c) →
  stdin w = response :: rest →
  Text.lower response = "y" →
  ∀ o w',
    stitch_images tools directory output fill reduce verbose colorkey
      process_colorkey grid_rows grid_cols w = (o, w') →
    (∃ later, calls w' = calls w ++ Call.remove output :: later) ∧
    (∃ w1 o1,
       confirm_overwrite output w = (Return (), w1) ∧
       fs w1 = delete output (fs w) ∧ FS.stat (fs w1) output = None ∧
       compose_canvas tools directory fill verbose colorkey process_colorkey
         grid_rows grid_cols w1 = o1 ∧
       match o1 with
       | (Return L, w2) => finish tools output reduce verbose (result L) w2 = (o, w')
       | (Raise e, w2) => o = Raise e ∧ w' = w2
       end) ∧
    (plain output = true → ∀ e, o = Raise e → FS.stat (fs w') output = None).
Proof.
  intros Hfile Hin Hyes o w' Hrun.
  pose proof (confirm_overwrite_confirmed output w c response rest Hfile Hin Hyes)
    as Hconfirm.
  set (w1 := mkWorld (delete output (fs w)) rest
               (stdout w ++ [overwrite_prompt output])
               (calls w ++ [Call.remove output])) in Hconfirm.
  assert (FS.stat (fs w1) output = None) as Hout1 by apply stat_delete_eq.
  unfold stitch_images, stitch_images_canvas in Hrun.
  rewrite run_bind, run_bind, Hconfirm in Hrun.
  destruct (compose_canvas tools directory fill verbose colorkey process_colorkey
              grid_rows grid_cols w1) as [o2 w2] eqn:Hcompose.
  destruct (keeping_compose_canvas (λ _, True) _ _ _ _ _ _ _ _ _ _ _ Hcompose)
    as [[new2 Hcalls2] Hfs2].
  assert (FS.stat (fs w2) output = None) as Hout2.
  { unfold FS.stat in *. case_bool_decide; [done|]. by rewrite Hfs2. }
  destruct o2 as [L|e2].
  - destruct (keeping_none_finish _ _ _ _ _ _ _ _ Hrun) as [[new3 Hcalls3] _].
    split; [|split].
    + exists (new2 ++ new3). rewrite Hcalls3, Hcalls2. simpl.
      by rewrite <- !app_assoc.
    + exists w1, (Return L, w2). by rewrite Hcompose.
    + intros _ e ->. by eapply finish_Raise.
  - injection Hrun as <- <-. split; [|split].
    + exists new2. rewrite Hcalls2. simpl. by rewrite <- !app_assoc.
    + exists w1, (Raise e2, w2). by rewrite Hcompose.
    + done.
Qed.

(** ** The sample runs *)

Example sample_canvas_run :
  Sample.canvas_run.1 = Return Sample.locals ∧
  image_files Sample.locals = ["in/a.png"; "in/b.png"] ∧
  cell_size Sample.locals = 2 ∧
  data (result Sample.locals) =
    let fill : rgba := (Byte.x00, Byte.x00, Byte.xff, Byte.xff) in
    [Sample.red; fill; fill; fill;
     fill; fill; Sample.red; fill;
     transparent; transparent; transparent; transparent;
     transparent; transparent; transparent; transparent].
Proof. vm_compute. done. Qed.

(** With the first sprite 3 pixels wide the cell is 3 pixels wide. *)
Example sample_wide_run :
  Sample.wide_run.1 = Return Sample.wide_locals ∧
  cell_size Sample.locals = 2 ∧ cell_size Sample.wide_locals = 3 ∧
  (width (result Sample.wide_locals), height (result Sample.wide_locals)) = (6, 3).
Proof. vm_compute. done. Qed.

(** The whole of [stitch_images] on the sample: the canvas ends up at
    the output path and the temporary file is gone. *)
Example sample_full_run :
  let '(o, w') :=
    stitch_images Sample.tools "in" "out/new.png" (Some "fill.png") false true
      (Some [255; 0; 228]) true 2 2 (Sample.world []) in
  o = Return () ∧
  FS.stat (fs w') "out/new.png" = Some (File (Png (ImRGBA (result Sample.locals)))) ∧
  FS.stat (fs w') "temp.png" = None ∧
  stdout w' = ["Pasting in/a.png at position (0, 0)";
               "Pasting in/b.png at position (2, 0)"].
Proof. vm_compute. done. Qed.

(** ** An output path without a directory part *)

(** C9. When the output path has no directory part, line 124 calls
    [os.makedirs('')], which raises [FileNotFoundError]: a run that has
    composed its canvas ends there, before the canvas is saved anywhere. *)
Theorem bare_output_path_is_not_saved
    (tools : Tools) (directory output : string) (fill : option string)
    (reduce verbose : bool) (colorkey : option (list Z)) (process_colorkey : bool)
    (grid_rows grid_cols : Z) (w w1 : World) (L : Locals) :
  posixpath.dirname output = "" →
  stitch_images_canvas tools directory output fill verbose colorkey
    process_colorkey grid_rows grid_cols w = (Return L, w1) →
  stitch_images tools directory output fill reduce verbose colorkey
    process_colorkey grid_rows grid_cols w
  = (Raise (FileNotFoundError ""), logged w1 [Call.makedirs ""]).
Proof.
  intros Hdir Hcanvas. unfold stitch_images.
  rewrite (bind_run_Return _ _ _ _ _ Hcanvas). unfold finish.
  rewrite Hdir. by rewrite (bind_run_Raise _ _ _ _ _ (os_makedirs_empty w1)).
Qed.

Lemma bare_output_path_is_not_saved_witness :
  posixpath.dirname "output.png" = "" ∧
  Sample.bare_run = (Return Sample.bare_locals, Sample.bare_run.2) ∧
  stitch_images Sample.tools "in" "output.png" None false false None false 2 2
    (Sample.world [])
  = (Raise (FileNotFoundError ""), logged Sample.bare_run.2 [Call.makedirs ""]).
Proof.
  assert (posixpath.dirname "output.png" = "") as Hdir by reflexivity.
  assert (Sample.bare_run = (Return Sample.bare_locals, Sample.bare_run.2)) as Hrun
    by (vm_compute; reflexivity).
  split; [exact Hdir|]. split; [exact Hrun|].
  exact (bare_output_path_is_not_saved Sample.tools "in" "output.png" None false false
           None false 2 2 (Sample.world []) Sample.bare_run.2 Sample.bare_locals
           Hdir Hrun).
Defined.

(** ** The statements at the sample runs *)

Lemma sample_canvas_run_eq :
  stitch_images_canvas Sample.tools "in" "out/new.png" (Some "fill.png") true
    (Some [255; 0; 228]) true 2 2 (Sample.world [])
  = (Return Sample.locals, Sample.canvas_run.2).
Proof. vm_compute. reflexivity. Defined.

Lemma cell_size_is_largest_dimension_witness :
  ["in/a.png"; "in/b.png"] ≠ [] ∧
  ∃ cell_size w',
    largest_dimension ["in/a.png"; "in/b.png"] 0 (Sample.world []) = (Return cell_size, w') ∧
    cell_size = 2 ∧
    (∃ p, p ∈ ["in/a.png"; "in/b.png"] ∧
          cell_size = dimension_at (fs (Sample.world [])) p) ∧
    cell_size < 3.
Proof.
  assert (["in/a.png"; "in/b.png"] ≠ []) as Hne by done.
  assert (∀ p, p ∈ ["in/a.png"; "in/b.png"] →
               ∃ img, decode (fs (Sample.world [])) p = Return img) as Hdec.
  { intros p Hp. apply list_elem_of_In in Hp. simpl in Hp.
    destruct Hp as [<-|[<-|[]]]; eexists; vm_compute; reflexivity. }
  split; [exact Hne|].
  destruct (cell_size_is_largest_dimension ["in/a.png"; "in/b.png"] (Sample.world [])
              Hne Hdec) as (cs & w' & Hrun & _ & Hmax & Hmono).
  exists cs, w'. split; [exact Hrun|].
  assert (cs = 2) as Hcs by (vm_compute in Hrun; congruence).
  split; [exact Hcs|]. split; [exact Hmax|].
  (* the same files, with [in/a.png] now 3 pixels wide *)
  refine (proj2 (Hmono (mkWorld Sample.wide_files [] [] []) 3
                   (logged (mkWorld Sample.wide_files [] [] [])
                      (Call.open <$> ["in/a.png"; "in/b.png"])) _ _) _).
  - vm_compute. reflexivity.
  - intros p Hp. apply list_elem_of_In in Hp. simpl in Hp.
    destruct Hp as [<-|[<-|[]]]; vm_compute; congruence.
  - exists "in/a.png". split; [by left|]. rewrite Hcs. vm_compute. reflexivity.
Defined.

Lemma trailing_cells_stay_transparent_witness :
  Sample.canvas_run = (Return Sample.locals, Sample.canvas_run.2) ∧
  Raster.getpixel (result Sample.locals) 1 3 = Some transparent.
Proof.
  split; [exact sample_canvas_run_eq|].
  apply (proj1 (trailing_cells_stay_transparent _ _ _ _ _ _ _ _ _ _ _ _
                  sample_canvas_run_eq) 2 1 3).
  - vm_compute. split; congruence.
  - vm_compute. repeat split; congruence.
Defined.


Lemma declined_overwrite_leaves_everything_witness :
  FS.exists_ (fs (Sample.world ["n"])) "out/old.png" = true ∧
  ∃ w',
    stitch_images Sample.tools "in" "out/old.png" None false false None false 2 2
      (Sample.world ["n"]) = (Raise (SystemExit None), w') ∧
    fs w' = fs (Sample.world ["n"]).
Proof.
  assert (FS.exists_ (fs (Sample.world ["n"])) "out/old.png" = true) as Hex
    by reflexivity.
  assert (stdin (Sample.world ["n"]) = "n" :: []) as Hin by reflexivity.
  assert (Text.lower "n" ≠ "y") as Hno by done.
  split; [exact Hex|].
  destruct (declined_overwrite_leaves_everything Sample.tools "in" "out/old.png" None
              false false None false 2 2 (Sample.world ["n"]) "n" [] Hex Hin Hno)
    as (w' & Hrun & _ & _ & Hfs & _).
  exists w'. split; [exact Hrun|exact Hfs].
Defined.

Lemma rejected_before_canvas_work_witness :
  confirm_overwrite "out/new.png" (Sample.world []) = (Return (), Sample.world []) ∧
  stitch_images Sample.tools "none" "out/new.png" None false false None false 2 2
    (Sample.world [])
  = (Raise (AssertionError "No input images found in the directory."),
     logged (Sample.world []) [Call.glob "none/*.png"]).
Proof.
  assert (confirm_overwrite "out/new.png" (Sample.world []) = (Return (), Sample.world []))
    as Hprompt by reflexivity.
  split; [exact Hprompt|].
  apply (proj1 (rejected_before_canvas_work Sample.tools "none" "out/new.png" None
                  false false None false 2 2 (Sample.world []) (Sample.world [])
                  Hprompt)).
  reflexivity.
Defined.

Lemma overwrite_is_not_atomic_witness :
  FS.stat (fs (Sample.world ["Y"])) "out/old.png" = Some (File Blob) ∧
  plain "out/old.png" = true ∧
  let run := stitch_images Sample.tools "none" "out/old.png" None false false None
               false 2 2 (Sample.world ["Y"]) in
  run.1 = Raise (AssertionError "No input images found in the directory.") ∧
  FS.stat (fs run.2) "out/old.png" = None.
Proof.
  assert (FS.stat (fs (Sample.world ["Y"])) "out/old.png" = Some (File Blob)) as Hfile
    by reflexivity.
  assert (stdin (Sample.world ["Y"]) = "Y" :: []) as Hin by reflexivity.
  assert (Text.lower "Y" = "y") as Hyes by reflexivity.
  split; [exact Hfile|]. split; [reflexivity|]. intros run.
  assert (run.1 = Raise (AssertionError "No input images found in the directory."))
    as Hfail by (vm_compute; reflexivity).
  split; [exact Hfail|].
  assert (stitch_images Sample.tools "none" "out/old.png" None false false None
            false 2 2 (Sample.world ["Y"]) = (run.1, run.2)) as Hrun
    by (unfold run; by destruct (stitch_images _ _ _ _ _ _ _ _ _ _ _)).
  exact (proj2 (proj2 (overwrite_is_not_atomic Sample.tools "none" "out/old.png" None
                         false false None false 2 2 (Sample.world ["Y"]) Blob "Y" []
                         Hfile Hin Hyes run.1 run.2 Hrun)) eq_refl _ Hfail).
Defined.

(** * Further properties of the code *)

(** ** The prompt, once more *)

(** X1. When the output path exists and the console has no line to read,
    [input] raises [EOFError] right after the prompt is written: the run
    ends there with the files as they were and no library call made. *)
Theorem prompt_without_input
    (tools : Tools) (directory output : string) (fill : option string)
    (reduce verbose : bool) (colorkey : option (list Z)) (process_colorkey : bool)
    (grid_rows grid_cols : Z) (w : World) :
  FS.exists_ (fs w) output = true →
  stdin w = [] →
  stitch_images tools directory output fill reduce verbose colorkey
    process_colorkey grid_rows grid_cols w
  = (Raise EOFError,
     mkWorld (fs w) [] (stdout w ++ [overwrite_prompt output]) (calls w)).
Proof.
  intros Hex Hin. unfold stitch_images, stitch_images_canvas.
  erewrite bind_run_Raise; [reflexivity|].
  erewrite bind_run_Raise; [reflexivity|].
  unfold confirm_overwrite, os_path_exists. mrun. rewrite Hex. mrun.
  unfold input. by rewrite Hin.
Qed.

Lemma prompt_without_input_witness :
  FS.exists_ (fs (Sample.world [])) "out/old.png" = true ∧
  stitch_images Sample.tools "in" "out/old.png" None false false None false 2 2
    (Sample.world [])
  = (Raise EOFError,
     mkWorld Sample.files [] [overwrite_prompt "out/old.png"] []).
Proof.
  assert (FS.exists_ (fs (Sample.world [])) "out/old.png" = true) as Hex by reflexivity.
  split; [exact Hex|].
  exact (prompt_without_input Sample.tools "in" "out/old.png" None false false None
           false 2 2 (Sample.world []) Hex eq_refl).
Defined.

(** X2. When the output path names a directory and the answer is [y],
    [os.remove] raises [IsADirectoryError]: the run ends there, after the
    prompt and before the directory is listed, with the files as they
    were. *)
Theorem output_is_a_directory
    (tools : Tools) (directory output : string) (fill : option string)
    (reduce verbose : bool) (colorkey : option (list Z)) (process_colorkey : bool)
    (grid_rows grid_cols : Z) (w : World) (response : string) (rest : list string) :
  FS.stat (fs w) output = Some Dir →
  stdin w = response :: rest →
  Text.lower response = "y" →
  stitch_images tools directory output fill reduce verbose colorkey
    process_colorkey grid_rows grid_cols w
  = (Raise (IsADirectoryError output),
     mkWorld (fs w) rest (stdout w ++ [overwrite_prompt output])
       (calls w ++ [Call.remove output])).
Proof.
  intros Hdir Hin Hyes. unfold stitch_images, stitch_images_canvas.
  erewrite bind_run_Raise; [reflexivity|].
  erewrite bind_run_Raise; [reflexivity|].
  unfold confirm_overwrite, os_path_exists. mrun.
  assert (FS.exists_ (fs w) output = true) as ->.
  { unfold FS.exists_. rewrite Hdir. apply orb_true_r. }
  mrun. unfold input. rewrite Hin. rewrite bool_decide_eq_true_2 by done. simpl.
  unfold os_remove. mrun. by rewrite Hdir.
Qed.

Lemma output_is_a_directory_witness :
  FS.stat (fs (Sample.world ["y"])) "out" = Some Dir ∧
  stitch_images Sample.tools "in" "out" None false false None false 2 2
    (Sample.world ["y"])
  = (Raise (IsADirectoryError "out"),
     mkWorld Sample.files [] [overwrite_prompt "out"] [Call.remove "out"]).
Proof.
  assert (FS.stat (fs (Sample.world ["y"])) "out" = Some Dir) as Hdir by reflexivity.
  split; [exact Hdir|].
  exact (output_is_a_directory Sample.tools "in" "out" None false false None false
           2 2 (Sample.world ["y"]) "y" [] Hdir eq_refl eq_refl).
Defined.

(** ** Chroma keying, once more *)

Lemma to_Z_range (b : byte) : 0 ≤ U8.to_Z b ≤ 255.
Proof.
  unfold U8.to_Z. pose proof (Byte.to_N_bounded b). lia.
Qed.

Lemma raster_map_id {A} (f : A → A) (r : Raster A) :
  (∀ a, f a = a) → Raster.map f r = r.
Proof.
  intros Hf. destruct r as [w h d]. unfold Raster.map; simpl. f_equal.
  rewrite <- (list_fmap_id d) at 2. by apply list_fmap_ext.
Qed.

Lemma raster_map_map {A B C} (f : A → B) (g : B → C) (r : Raster A) :
  Raster.map g (Raster.map f r) = Raster.map (g ∘ f) r.
Proof. unfold Raster.map; simpl. by rewrite <- list_fmap_compose. Qed.

(** X3. A colour key that is not three integers between 0 and 255 keys
    nothing out: the tuple comparison of line 112 never holds, and the
    image that is pasted is just the RGBA conversion of the decoded
    one. *)
Theorem malformed_colorkey_keys_nothing (colorkey : list Z) (img : Image) :
  length colorkey ≠ 3%nat ∨ Exists (λ v, ¬ (0 ≤ v ≤ 255)) colorkey →
  chroma_key colorkey img = ImRGBA (Image.convert_RGBA img).
Proof.
  intros Hbad. rewrite chroma_key_raster. f_equal. apply raster_map_id.
  intros [[[r g] b] a]. unfold key_pixel.
  rewrite bool_decide_eq_false_2; [done|]. intros <-.
  destruct Hbad as [Hlen|Hrange]; [done|].
  pose proof (to_Z_range r). pose proof (to_Z_range g). pose proof (to_Z_range b).
  apply Exists_cons in Hrange as [?|Hrange]; [lia|].
  apply Exists_cons in Hrange as [?|Hrange]; [lia|].
  apply Exists_cons in Hrange as [?|Hrange]; [lia|].
  by apply Exists_nil in Hrange.
Qed.

Lemma malformed_colorkey_keys_nothing_witness :
  chroma_key [255; 0] Sample.a_png = ImRGBA (Image.convert_RGBA Sample.a_png) ∧
  chroma_key [256; 0; 228] Sample.a_png = ImRGBA (Image.convert_RGBA Sample.a_png).
Proof.
  split.
  - apply (malformed_colorkey_keys_nothing [255; 0] Sample.a_png).
    left. simpl. lia.
  - apply (malformed_colorkey_keys_nothing [256; 0; 228] Sample.a_png).
    right. left. lia.
Defined.

Lemma key_pixel_idem colorkey item :
  key_pixel colorkey (key_pixel colorkey item) = key_pixel colorkey item.
Proof.
  destruct item as [[[r g] b] a]. cbn [key_pixel].
  destruct (bool_decide ([U8.to_Z r; U8.to_Z g; U8.to_Z b] = colorkey)) eqn:Hkey.
  - unfold transparent. cbn [key_pixel].
    case_match; reflexivity.
  - cbn [key_pixel]. by rewrite Hkey.
Qed.

(** X4. Keying is idempotent: what lines 107-116 make of an image they
    have made is that image; keying an already keyed image changes
    nothing. *)
Theorem keyed_idempotent (process_colorkey : bool) (colorkey : option (list Z))
    (img : Image) :
  keyed process_colorkey colorkey (keyed process_colorkey colorkey img)
  = keyed process_colorkey colorkey img.
Proof.
  unfold keyed. destruct (process_colorkey && truthy_list colorkey); [|done].
  rewrite !chroma_key_raster. simpl. f_equal.
  rewrite raster_map_map.
  destruct (Image.convert_RGBA img) as [w h d]. unfold Raster.map; simpl. f_equal.
  apply list_fmap_ext. intros _ item _. apply key_pixel_idem.
Qed.

(** ** Computations that only make directories *)

Lemma kept_or_made_refl k w : kept_or_made k w w.
Proof. by left. Qed.

Lemma kept_or_made_trans k w1 w2 w3 :
  kept_or_made k w1 w2 → kept_or_made k w2 w3 → kept_or_made k w1 w3.
Proof.
  unfold kept_or_made. intros [H12|[H1 H2]] [H23|[H2' H3]].
  - left. congruence.
  - right. split; congruence.
  - right. split; congruence.
  - congruence.
Qed.

Lemma grows_refl w : grows w w.
Proof. repeat split. intros k. apply kept_or_made_refl. Qed.

Lemma grows_trans w1 w2 w3 : grows w1 w2 → grows w2 w3 → grows w1 w3.
Proof.
  intros (Hc1 & Hi1 & Ho1 & Hk1) (Hc2 & Hi2 & Ho2 & Hk2).
  split; [congruence|]. split; [congruence|]. split; [congruence|].
  intros k. eapply kept_or_made_trans; [apply Hk1|apply Hk2].
Qed.

Section Respects.

Context (R : World → World → Prop).
Context (R_refl : ∀ w, R w w).
Context (R_trans : ∀ w1 w2 w3, R w1 w2 → R w2 w3 → R w1 w3).

Lemma respects_ret {A} (a : A) : respects R (mret a : M A).
Proof. intros w o w' [= <- <-]. apply R_refl. Qed.

Lemma respects_raise {A} e : respects R (raise e : M A).
Proof. intros w o w' [= <- <-]. apply R_refl. Qed.

Lemma respects_get : respects R get.
Proof. intros w o w' [= <- <-]. apply R_refl. Qed.

Lemma respects_bind {A B} (m : M A) (f : A → M B) :
respects R m → (∀ a, respects R (f a)) → respects R (m ≫= f).
Proof.
intros Hm Hf w o w'. rewrite run_bind.
destruct (m w) as [[a|e] w1] eqn:Hmw.
- intros Hfa. eapply R_trans; [by eapply Hm|by eapply Hf].
- intros [= <- <-]. by eapply Hm.
Qed.

Lemma respects_catch {A} (m : M A) E h :
respects R m → (∀ e, respects R (h e)) → respects R (catch m E h).
Proof.
intros Hm Hh w o w'. unfold catch.
destruct (m w) as [[a|e] w1] eqn:Hmw.
- intros [= <- <-]. by eapply Hm.
- destruct (E e).
  + intros He. eapply R_trans; [by eapply Hm|by eapply Hh].
  + intros [= <- <-]. by eapply Hm.
Qed.

End Respects.

Ltac grow_step :=
  first
    [ apply (respects_ret _ grows_refl) | apply (respects_raise _ grows_refl)
    | apply (respects_get _ grows_refl)
    | apply (respects_bind _ grows_trans); [|intros ?]
    | apply (respects_catch _ grows_trans); [|intros ?]
    | match goal with
      | |- respects _ (match ?x with _ => _ end) => destruct x
      end ].
Ltac grow := repeat grow_step.

Lemma grows_os_mkdir name : respects grows (os_mkdir name).
Proof.
  intros w o w'. unfold os_mkdir. mrun.
  case_bool_decide as Hempty; [intros [= <- <-]; apply grows_refl|].
  destruct (FS.exists_ (fs w) name) eqn:Hex; [intros [= <- <-]; apply grows_refl|].
  destruct (negb (parent_ok (fs w) name)); [intros [= <- <-]; apply grows_refl|].
  intros [= <- <-]. split; [done|]. split; [done|]. split; [done|].
  intros k. unfold kept_or_made. cbn [fs].
  destruct (decide (name = k)) as [<-|Hne].
  - right. rewrite stat_insert_eq by done. split; [|done].
    unfold FS.exists_ in Hex. apply orb_false_iff in Hex as [_ Hex].
    by destruct (FS.stat (fs w) name).
  - left. by apply stat_insert_ne.
Qed.

Lemma grows_makedirs depth : ∀ name, respects grows (makedirs depth name).
Proof.
  induction depth as [|depth IH]; intros name; cbn [makedirs];
    destruct (posixpath.split name) as [h1 t1];
    destruct (if bool_decide (t1 = "") then posixpath.split h1 else (h1, t1))
      as [head tail].
  - apply (respects_bind _ grows_trans); [unfold os_path_exists; grow|]. intros ex.
    apply (respects_bind _ grows_trans); [grow|]. intros returned.
    destruct returned; [grow|].
    apply (respects_catch _ grows_trans); [apply grows_os_mkdir|]. intros e.
    unfold os_path_isdir. grow.
  - apply (respects_bind _ grows_trans); [unfold os_path_exists; grow|]. intros ex.
    apply (respects_bind _ grows_trans).
    { destruct (_ && _); [|grow].
      apply (respects_bind _ grows_trans); [|intros ?; grow].
      apply (respects_catch _ grows_trans); [apply IH|intros ?; grow]. }
    intros returned. destruct returned; [grow|].
    apply (respects_catch _ grows_trans); [apply grows_os_mkdir|]. intros e.
    unfold os_path_isdir. grow.
Qed.

(** [os.makedirs] logs its one call and only ever adds directories. *)
Lemma os_makedirs_run name w o w' :
  os_makedirs name w = (o, w') →
  calls w' = calls w ++ [Call.makedirs name] ∧
  stdin w' = stdin w ∧ stdout w' = stdout w ∧
  ∀ k, kept_or_made k w w'.
Proof.
  unfold os_makedirs. rewrite run_bind. unfold called at 1. simpl.
  intros H. apply grows_makedirs in H as (Hc & Hi & Ho & Hk). simpl in *. done.
Qed.

(** ** Lines 124-138, step by step *)

Lemma Image_save_calls result path w o w' :
  Image_save result path w = (o, w') → calls w' = calls w ++ [Call.save path].
Proof.
  unfold Image_save. mrun.
  destruct (FS.isdir (fs w) path); [by intros [= <- <-]|].
  destruct (negb (parent_ok (fs w) path)); by intros [= <- <-].
Qed.

Lemma subprocess_run_pngquant_step tools output temp_file c w o w' :
  FS.stat (fs w) temp_file = Some (File c) →
  FS.exists_ (fs w) output = false →
  subprocess_run_pngquant tools output temp_file w = (o, w') →
  calls w' = calls w ++ [Call.run ["pngquant"; "256"; "-o"; output; temp_file]] ∧
  match o with
  | Return _ =>
      match pngquant tools c with
      | ToolWrote im => fs w' = <[output := File (Png im)]> (fs w) ∧ output ≠ ""
      | ToolExit status => status = 0 ∧ fs w' = fs w
      | ToolMissing => False
      end
  | Raise _ => fs w' = fs w
  end.
Proof.
  intros Htemp Hex. unfold subprocess_run_pngquant. mrun. rewrite Htemp.
  destruct (pngquant tools c) as [|status|im]; mrun.
  - by intros [= <- <-].
  - destruct (status =? 0) eqn:Hs; mrun; intros [= <- <-]; [|done].
    split; [done|]. split; [lia|done].
  - rewrite Hex, orb_false_r. case_bool_decide as Hout; simpl; [by intros [= <- <-]|].
    destruct (negb (parent_ok (fs w) output)); mrun; by intros [= <- <-].
Qed.

Lemma shutil_move_step src dst n w o w' :
  FS.stat (fs w) src = Some n →
  FS.isdir (fs w) dst = false →
  shutil_move src dst w = (o, w') →
  calls w' = calls w ++ [Call.move src dst] ∧
  match o with
  | Return _ => fs w' = <[dst := n]> (delete src (fs w)) ∧ dst ≠ ""
  | Raise _ => fs w' = fs w
  end.
Proof.
  intros Hsrc Hdir. unfold shutil_move. mrun. rewrite Hdir, Hsrc. simpl.
  case_bool_decide as Hdst; simpl; [by intros [= <- <-]|].
  destruct (negb (parent_ok (fs w) dst)); mrun; by intros [= <- <-].
Qed.

Lemma cleanup_run temp_file w o w' :
  FS.is_root temp_file = false →
  (ex ← os_path_exists temp_file;
   if ex : bool then os_remove temp_file else mret ()) w = (o, w') →
  match FS.stat (fs w) temp_file with
  | None => o = Return () ∧ w' = w
  | Some (File _) =>
      o = Return () ∧ fs w' = delete temp_file (fs w) ∧
      calls w' = calls w ++ [Call.remove temp_file]
  | Some Dir => fs w' = fs w
  end.
Proof.
  intros Hroot. unfold os_path_exists, FS.exists_. mrun. rewrite Hroot. simpl.
  destruct (FS.stat (fs w) temp_file) as [[|c]|] eqn:Hstat.
  - unfold os_remove. mrun. rewrite Hstat. by intros [= <- <-].
  - unfold os_remove. mrun. rewrite Hstat. by intros [= <- <-].
  - mrun. by intros [= <- <-].
Qed.

Lemma optional_print_run (verbose : bool) line w :
  ∃ w', (if verbose then print line else mret ()) w = (Return (), w') ∧
        fs w' = fs w ∧ calls w' = calls w.
Proof. destruct verbose; eexists; (split; [reflexivity|done]). Qed.

(** What lines 124-138 do when nothing is at the output path: for every
    outcome, the paths other than the output path and [temp.png] keep
    what they name or become directories; and the outcome tells where the
    canvas is. *)
Lemma finish_run tools output reduce verbose result w o w' :
  FS.exists_ (fs w) output = false →
  finish tools output reduce verbose result w = (o, w') →
  (∀ k, k ≠ output → k ≠ "temp.png" → kept_or_made k w w') ∧
  ∃ new,
    calls w' = calls w ++ Call.makedirs (posixpath.dirname output) :: new ∧
    match o with
    | Return _ =>
        FS.stat (fs w') "temp.png" = None ∧
        (if reduce then
           new = [Call.save "temp.png"; pngquant_call output; Call.remove "temp.png"] ∧
           match pngquant tools (Png (ImRGBA result)) with
           | ToolWrote im => FS.stat (fs w') output = Some (File (Png im))
           | ToolExit status => status = 0 ∧ FS.stat (fs w') output = None
           | ToolMissing => False
           end
         else
           new = [Call.save "temp.png"; Call.move "temp.png" output] ∧
           FS.stat (fs w') output = Some (canvas_file result))
    | Raise _ =>
        FS.stat (fs w') output = None ∧
        (new = [] ∨ new = [Call.save "temp.png"] ∨
         new = [Call.save "temp.png";
                if reduce then pngquant_call output
                else Call.move "temp.png" output] ∧
         FS.stat (fs w') "temp.png" = Some (canvas_file result))
    end.
Proof.
  intros Hex H.
  assert (FS.is_root output = false ∧ FS.stat (fs w) output = None) as [Hroot Hout].
  { unfold FS.exists_ in Hex. apply orb_false_iff in Hex as [? Hex].
    split; [done|]. by destruct (FS.stat (fs w) output). }
  unfold finish in H. cbv zeta in H. rewrite run_bind in H.
  destruct (os_makedirs (posixpath.dirname output) w) as [[[]|e1] w1] eqn:Hmk.
  2:{ injection H as <- <-.
      pose proof (os_makedirs_dirname _ _ _ _ Hmk) as [_ Hout1].
      apply os_makedirs_run in Hmk as (Hc1 & _ & _ & Hk1).
      split; [intros k _ _; apply Hk1|]. exists []. split; [done|].
      split; [congruence|by left]. }
  assert (output ≠ "temp.png") as Hne.
  { intros ->. change (posixpath.dirname "temp.png") with "" in Hmk.
    by rewrite os_makedirs_empty in Hmk. }
  pose proof (os_makedirs_dirname _ _ _ _ Hmk) as [_ Hout1]. rewrite Hout in Hout1.
  apply os_makedirs_run in Hmk as (Hc1 & _ & _ & Hk1).
  assert (∀ w2, (∀ k, k ≠ output → k ≠ "temp.png" →
                      FS.stat (fs w2) k = FS.stat (fs w1) k) →
                ∀ k, k ≠ output → k ≠ "temp.png" → kept_or_made k w w2) as Hframe.
  { intros w2 Hsame k Hk1' Hk2'. specialize (Hk1 k). unfold kept_or_made in *.
    rewrite Hsame by done. exact Hk1. }
  rewrite run_bind in H.
  destruct (Image_save result "temp.png" w1) as [[[]|e2] w2] eqn:Hsave.
  2:{ injection H as <- <-.
      pose proof (Image_save_calls _ _ _ _ _ Hsave) as Hc2.
      apply Image_save_run in Hsave. simpl in Hsave.
      split; [apply Hframe; intros; by rewrite Hsave|].
      exists [Call.save "temp.png"]. split; [by rewrite Hc2, Hc1, <- app_assoc|].
      split; [by rewrite Hsave|by right; left]. }
  pose proof (Image_save_calls _ _ _ _ _ Hsave) as Hc2.
  apply Image_save_run in Hsave. simpl in Hsave.
  assert (FS.stat (fs w2) output = None) as Hout2
    by (rewrite Hsave, stat_insert_ne by done; done).
  assert (FS.stat (fs w2) "temp.png" = Some (canvas_file result)) as Htemp2
    by (rewrite Hsave, stat_insert_eq by done; done).
  assert (∀ k, k ≠ "temp.png" → FS.stat (fs w2) k = FS.stat (fs w1) k) as Hsame2
    by (intros k Hk; rewrite Hsave, stat_insert_ne by done; done).
  assert (FS.is_root "temp.png" = false) as Htroot by done.
  rewrite run_bind in H.
  destruct reduce.
  - (* pngquant *)
    rewrite run_bind in H.
    destruct (optional_print_run verbose "Reducing file size with pngquant" w2)
      as (w2' & Hprint & Hfs2' & Hc2').
    rewrite Hprint in H.
    assert (FS.exists_ (fs w2') output = false) as Hex2.
    { unfold FS.exists_. by rewrite Hroot, Hfs2', Hout2. }
    assert (FS.stat (fs w2') "temp.png" = Some (File (Png (ImRGBA result)))) as Htemp2'
      by (by rewrite Hfs2').
    destruct (subprocess_run_pngquant tools output "temp.png" w2') as [[[]|e3] w3] eqn:Hq;
      pose proof (subprocess_run_pngquant_step _ _ _ _ _ _ _ Htemp2' Hex2 Hq) as [Hc3 Hfs3].
    2:{ injection H as <- <-.
        split; [apply Hframe; intros; rewrite Hfs3, Hfs2'; by apply Hsame2|].
        exists [Call.save "temp.png"; pngquant_call output].
        split; [by rewrite Hc3, Hc2', Hc2, Hc1, <- !app_assoc|].
        rewrite Hfs3, Hfs2'. split; [done|]. right; right. done. }
    assert (∃ c, FS.stat (fs w3) "temp.png" = Some (File c)) as [c3 Htemp3].
    { destruct (pngquant tools (Png (ImRGBA result))) as [|status|im]; [done| |].
      - destruct Hfs3 as [_ ->]. eauto.
      - destruct Hfs3 as [-> _]. rewrite stat_insert_ne by done. eauto. }
    pose proof (cleanup_run "temp.png" w3 o w' Htroot H) as Hclean.
    rewrite Htemp3 in Hclean. destruct Hclean as (-> & Hfs4 & Hc4).
    assert (∀ k, k ≠ "temp.png" → FS.stat (fs w') k = FS.stat (fs w3) k) as Hsame4
      by (intros k Hk; rewrite Hfs4, stat_delete_ne by done; done).
    split.
    { apply Hframe. intros k Hk1' Hk2'. rewrite Hsame4, <- Hsame2 by done.
      rewrite <- Hfs2'.
      destruct (pngquant tools (Png (ImRGBA result))) as [|status|im]; [done| |].
      - by destruct Hfs3 as [_ ->].
      - destruct Hfs3 as [-> _]. by rewrite stat_insert_ne. }
    exists [Call.save "temp.png"; pngquant_call output; Call.remove "temp.png"].
    split; [by rewrite Hc4, Hc3, Hc2', Hc2, Hc1, <- !app_assoc|].
    split; [rewrite Hfs4; apply stat_delete_eq|]. split; [done|].
    rewrite Hsame4 by done.
    destruct (pngquant tools (Png (ImRGBA result))) as [|status|im]; [done| |].
    + destruct Hfs3 as [? ->]. by rewrite Hfs2'.
    + destruct Hfs3 as [-> ?]. by rewrite stat_insert_eq.
  - (* shutil.move *)
    assert (FS.isdir (fs w2) output = false) as Hdir2.
    { unfold FS.isdir. by rewrite Hroot, Hout2. }
    destruct (shutil_move "temp.png" output w2) as [[[]|e3] w3] eqn:Hmove;
      pose proof (shutil_move_step _ _ _ _ _ _ Htemp2 Hdir2 Hmove) as [Hc3 Hfs3].
    2:{ injection H as <- <-.
        split; [apply Hframe; intros; rewrite Hfs3; by apply Hsame2|].
        exists [Call.save "temp.png"; Call.move "temp.png" output].
        split; [by rewrite Hc3, Hc2, Hc1, <- !app_assoc|].
        rewrite Hfs3. split; [done|]. right; right. done. }
    destruct Hfs3 as [Hfs3 Hdst].
    assert (FS.stat (fs w3) "temp.png" = None) as Htemp3.
    { rewrite Hfs3, stat_insert_ne by done. apply stat_delete_eq. }
    pose proof (cleanup_run "temp.png" w3 o w' Htroot H) as Hclean.
    rewrite Htemp3 in Hclean. destruct Hclean as [-> ->].
    split.
    { apply Hframe. intros k Hk1' Hk2'.
      rewrite Hfs3, stat_insert_ne, stat_delete_ne by done. by apply Hsame2. }
    exists [Call.save "temp.png"; Call.move "temp.png" output].
    split; [by rewrite Hc3, Hc2, Hc1, <- !app_assoc|].
    split; [done|]. split; [done|]. rewrite Hfs3. by apply stat_insert_eq.
Qed.

Lemma confirm_overwrite_run output w o w1 :
  confirm_overwrite output w = (o, w1) →
  (∀ k, k ≠ output → FS.stat (fs w1) k = FS.stat (fs w) k) ∧
  (FS.is_root output = false → o = Return () → FS.exists_ (fs w1) output = false).
Proof.
  unfold confirm_overwrite, os_path_exists. mrun.
  destruct (FS.exists_ (fs w) output) eqn:Hex.
  - mrun. unfold input. destruct (stdin w) as [|response rest]; [by intros [= <- <-]|].
    destruct (bool_decide (Text.lower response = "y")); mrun; [|by intros [= <- <-]].
    unfold os_remove. mrun.
    destruct (FS.stat (fs w) output) as [[|c]|] eqn:Hnode; mrun.
    + by intros [= <- <-].
    + intros [= <- <-]. simpl. split; [intros k Hk; by apply stat_delete_ne|].
      intros Hroot _. unfold FS.exists_. by rewrite Hroot, stat_delete_eq.
    + destruct (FS.is_root output); by intros [= <- <-].
  - mrun. by intros [= <- <-].
Qed.

Lemma keeps_all_stat w w' : keeps (λ _, True) w w' → ∀ k, FS.stat (fs w') k = FS.stat (fs w) k.
Proof.
  intros [_ Hfs] k. unfold FS.stat. case_bool_decide; [done|]. by apply Hfs.
Qed.

(** A run of [stitch_images] that gets past line 122, taken apart: the
    canvas stage, the world it ends in, and lines 124-138 run there with
    nothing at the output path. *)
Lemma stitch_images_stages tools directory output fill reduce verbose colorkey
    process_colorkey grid_rows grid_cols w o w' :
  FS.is_root output = false →
  stitch_images tools directory output fill reduce verbose colorkey
    process_colorkey grid_rows grid_cols w = (o, w') →
  (∃ e, o = Raise e ∧
        stitch_images_canvas tools directory output fill verbose colorkey
          process_colorkey grid_rows grid_cols w = (Raise e, w')) ∨
  ∃ L w1,
    stitch_images_canvas tools directory output fill verbose colorkey
      process_colorkey grid_rows grid_cols w = (Return L, w1) ∧
    FS.exists_ (fs w1) output = false ∧
    finish tools output reduce verbose (result L) w1 = (o, w').
Proof.
  intros Hroot H. unfold stitch_images in H. rewrite run_bind in H.
  destruct (stitch_images_canvas tools directory output fill verbose colorkey
              process_colorkey grid_rows grid_cols w) as [[L|e] w1] eqn:Hcanvas.
  2:{ injection H as <- <-. left. eauto. }
  right. exists L, w1. split; [done|]. split; [|done].
  unfold stitch_images_canvas in Hcanvas.
  apply bind_Return in Hcanvas as ([] & w0 & Hprompt & Hcompose).
  apply confirm_overwrite_run in Hprompt as [_ Hex]. specialize (Hex Hroot eq_refl).
  apply keeping_compose_canvas with (K := λ _, True) in Hcompose.
  unfold FS.exists_ in *. rewrite Hroot in *. simpl in *.
  by rewrite (keeps_all_stat _ _ Hcompose).
Qed.

(** A plain path is not the root. *)
Lemma plain_not_root p : plain p = true → FS.is_root p = false.
Proof.
  destruct p as [|c p]; [done|]. unfold plain, FS.is_root. cbn [components Text.all_sep].
  destruct (Text.is_sep c); [done|]. intros _. apply andb_false_r.
Qed.

(** X5. For an output path that is [plain] (relative and normal, so
    that it is neither another spelling of [temp.png] nor a path with a
    trailing slash, which [shutil.move] takes for a directory to move
    into): a run without [reduce] that returns has moved the canvas of
    line 122 to the output path, which is now a PNG file holding exactly
    that canvas; [temp.png] is gone (a file of that name in the working
    directory has been overwritten and then moved away), so that the
    [os.remove] of line 138 is never called: lines 124-138 make the three
    calls [makedirs], [save], [move] and no other. *)
Theorem output_holds_the_canvas
    (tools : Tools) (directory output : string) (fill : option string)
    (verbose : bool) (colorkey : option (list Z)) (process_colorkey : bool)
    (grid_rows grid_cols : Z) (w w' : World) :
  plain output = true →
  stitch_images tools directory output fill false verbose colorkey
    process_colorkey grid_rows grid_cols w = (Return (), w') →
  ∃ L w1,
    stitch_images_canvas tools directory output fill verbose colorkey
      process_colorkey grid_rows grid_cols w = (Return L, w1) ∧
    FS.stat (fs w') output = Some (canvas_file (result L)) ∧
    FS.stat (fs w') "temp.png" = None ∧
    calls w' = calls w1 ++ [Call.makedirs (posixpath.dirname output);
                            Call.save "temp.png"; Call.move "temp.png" output].
Proof.
  intros Hroot%plain_not_root H.
  apply stitch_images_stages in H as [(e & ? & _)|(L & w1 & Hcanvas & Hex & H)];
    [done| |done].
  exists L, w1. split; [done|].
  apply finish_run in H as [_ (new & Hcalls & Htemp & -> & Hout)]; [|done].
  done.
Qed.

Lemma output_holds_the_canvas_witness :
  plain "out/new.png" = true ∧
  ∃ w' L w1,
    Cases.run Sample.tools false = (Return (), w') ∧
    Cases.canvas Sample.tools = (Return L, w1) ∧
    FS.stat (fs w') "out/new.png" = Some (canvas_file (result L)) ∧
    FS.stat (fs w') "temp.png" = None ∧
    calls w' = calls w1 ++ [Call.makedirs "out"; Call.save "temp.png";
                            Call.move "temp.png" "out/new.png"].
Proof.
  assert (Cases.run Sample.tools false = (Return (), (Cases.run Sample.tools false).2))
    as Hrun by (vm_compute; reflexivity).
  destruct (output_holds_the_canvas Sample.tools "in" "out/new.png" (Some "fill.png")
              false (Some [255; 0; 228]) true 2 2 (Sample.world [])
              (Cases.run Sample.tools false).2 eq_refl Hrun)
    as (L & w1 & Hcanvas & Hout & Htemp & Hcalls).
  split; [reflexivity|].
  exists (Cases.run Sample.tools false).2, L, w1.
  split; [exact Hrun|]. split; [exact Hcanvas|]. split; [exact Hout|].
  split; [exact Htemp|exact Hcalls].
Defined.

(** X6. A run with [reduce] that returns has had [pngquant] exit with
    status 0; the output path then holds what [pngquant] wrote from the
    saved canvas (nothing, if it wrote nothing), never the canvas itself,
    and [temp.png] has been removed by line 138, the last of the four
    calls of lines 124-138. *)
Theorem output_holds_the_reduced_canvas
    (tools : Tools) (directory output : string) (fill : option string)
    (verbose : bool) (colorkey : option (list Z)) (process_colorkey : bool)
    (grid_rows grid_cols : Z) (w w' : World) :
  FS.is_root output = false →
  stitch_images tools directory output fill true verbose colorkey
    process_colorkey grid_rows grid_cols w = (Return (), w') →
  ∃ L w1,
    stitch_images_canvas tools directory output fill verbose colorkey
      process_colorkey grid_rows grid_cols w = (Return L, w1) ∧
    match pngquant tools (Png (ImRGBA (result L))) with
    | ToolWrote im => FS.stat (fs w') output = Some (File (Png im))
    | ToolExit status => status = 0 ∧ FS.stat (fs w') output = None
    | ToolMissing => False
    end ∧
    FS.stat (fs w') "temp.png" = None ∧
    calls w' = calls w1 ++ [Call.makedirs (posixpath.dirname output);
                            Call.save "temp.png"; pngquant_call output;
                            Call.remove "temp.png"].
Proof.
  intros Hroot H.
  apply stitch_images_stages in H as [(e & ? & _)|(L & w1 & Hcanvas & Hex & H)];
    [done| |done].
  exists L, w1. split; [done|].
  apply finish_run in H as [_ (new & Hcalls & Htemp & -> & Hout)]; [|done].
  done.
Qed.

Lemma output_holds_the_reduced_canvas_witness :
  ∃ w' L w1,
    Cases.run Cases.quantising true = (Return (), w') ∧
    Cases.canvas Cases.quantising = (Return L, w1) ∧
    match pngquant Cases.quantising (Png (ImRGBA (result L))) with
    | ToolWrote im => FS.stat (fs w') "out/new.png" = Some (File (Png im))
    | ToolExit status => status = 0 ∧ FS.stat (fs w') "out/new.png" = None
    | ToolMissing => False
    end ∧
    FS.stat (fs w') "temp.png" = None.
Proof.
  assert (Cases.run Cases.quantising true
          = (Return (), (Cases.run Cases.quantising true).2))
    as Hrun by (vm_compute; reflexivity).
  destruct (output_holds_the_reduced_canvas Cases.quantising "in" "out/new.png"
              (Some "fill.png") false (Some [255; 0; 228]) true 2 2 (Sample.world [])
              (Cases.run Cases.quantising true).2 eq_refl Hrun)
    as (L & w1 & Hcanvas & Hout & Htemp & Hcalls).
  exists (Cases.run Cases.quantising true).2, L, w1.
  split; [exact Hrun|]. split; [exact Hcanvas|]. split; [exact Hout|exact Htemp].
Defined.

(** X7. A run that fails after the canvas of line 122 is complete fails
    in [os.makedirs], in [save] or in the step that writes the output
    ([pngquant] or [shutil.move]); in the last case, which includes a
    [pngquant] that is missing or exits with an error, [temp.png] is
    left behind in the working directory holding the canvas: lines
    137-138 are not reached.  For an output path that is [plain], so
    that it cannot be another spelling of [temp.png], nothing is at the
    output path then. *)
Theorem failed_write_leaves_temp_file
    (tools : Tools) (directory output : string) (fill : option string)
    (reduce verbose : bool) (colorkey : option (list Z)) (process_colorkey : bool)
    (grid_rows grid_cols : Z) (w w1 w' : World) (L : Locals) (e : exn) :
  FS.is_root output = false →
  stitch_images_canvas tools directory output fill verbose colorkey
    process_colorkey grid_rows grid_cols w = (Return L, w1) →
  stitch_images tools directory output fill reduce verbose colorkey
    process_colorkey grid_rows grid_cols w = (Raise e, w') →
  (plain output = true → FS.stat (fs w') output = None) ∧
  (calls w' = calls w1 ++ [Call.makedirs (posixpath.dirname output)] ∨
   calls w' = calls w1 ++ [Call.makedirs (posixpath.dirname output);
                           Call.save "temp.png"] ∨
   calls w' = calls w1 ++ [Call.makedirs (posixpath.dirname output);
                           Call.save "temp.png";
                           if reduce then pngquant_call output
                           else Call.move "temp.png" output] ∧
   FS.stat (fs w') "temp.png" = Some (canvas_file (result L))).
Proof.
  intros Hroot Hcanvas H.
  pose proof H as Hstages.
  apply stitch_images_stages in Hstages
    as [(e' & _ & Hfail)|(L' & w1' & Hcanvas' & Hex & Hfinish)]; [congruence| |done].
  rewrite Hcanvas in Hcanvas'. injection Hcanvas' as <- <-.
  pose proof Hfinish as Hrun.
  apply finish_run in Hrun as [_ (new & Hcalls & Hout & Hnew)]; [|done].
  split; [by intros _|].
  destruct Hnew as [->|[->|[-> Htemp]]]; [by left|by right; left|].
  right; right. done.
Qed.

Lemma failed_write_leaves_temp_file_witness :
  plain "out/new.png" = true ∧
  ∃ e w' L w1,
    Cases.run Sample.tools true = (Raise e, w') ∧
    Cases.canvas Sample.tools = (Return L, w1) ∧
    FS.stat (fs w') "out/new.png" = None ∧
    FS.stat (fs w') "temp.png" = Some (canvas_file (result L)).
Proof.
  assert (Cases.canvas Sample.tools
          = (Return (Cases.locals Sample.tools), (Cases.canvas Sample.tools).2))
    as Hcanvas by (vm_compute; reflexivity).
  assert (Cases.run Sample.tools true
          = (Raise (FileNotFoundError "pngquant"), (Cases.run Sample.tools true).2))
    as Hrun by (vm_compute; reflexivity).
  pose proof (failed_write_leaves_temp_file Sample.tools "in" "out/new.png"
                (Some "fill.png") true false (Some [255; 0; 228]) true 2 2
                (Sample.world []) _ _ _ _ eq_refl Hcanvas Hrun) as [Hout Hcalls].
  split; [reflexivity|].
  exists (FileNotFoundError "pngquant"), (Cases.run Sample.tools true).2,
         (Cases.locals Sample.tools), (Cases.canvas Sample.tools).2.
  split; [exact Hrun|]. split; [exact Hcanvas|]. split; [exact (Hout eq_refl)|].
  destruct Hcalls as [Hc|[Hc|[_ Htemp]]]; [| |exact Htemp].
  - apply (f_equal length) in Hc. vm_compute in Hc. discriminate Hc.
  - apply (f_equal length) in Hc. vm_compute in Hc. discriminate Hc.
Defined.

(** X8. Whatever the outcome of a run, it touches nothing but the output
    file and the file [temp.png] of the working directory: with the
    output path [plain], every other [plain] path, which is then the
    name of another file, names what it named before, or is a directory
    that [os.makedirs] has made on the way to the output.  The source
    images and the fill image are covered by this unless they are one of
    those two files; of [temp.png] itself, which line 127 overwrites
    whether or not it is one of the inputs, nothing is said. *)
Theorem other_paths_are_left_alone
    (tools : Tools) (directory output : string) (fill : option string)
    (reduce verbose : bool) (colorkey : option (list Z)) (process_colorkey : bool)
    (grid_rows grid_cols : Z) (w w' : World) (o : outcome unit) :
  plain output = true →
  stitch_images tools directory output fill reduce verbose colorkey
    process_colorkey grid_rows grid_cols w = (o, w') →
  ∀ k, plain k = true → k ≠ output → k ≠ "temp.png" → kept_or_made k w w'.
Proof.
  intros Hroot%plain_not_root H k _ Hk1 Hk2.
  assert (∀ o1 w1,
            stitch_images_canvas tools directory output fill verbose colorkey
              process_colorkey grid_rows grid_cols w = (o1, w1) →
            FS.stat (fs w1) k = FS.stat (fs w) k) as Hcanvas.
  { intros o1 w1. unfold stitch_images_canvas. rewrite run_bind.
    destruct (confirm_overwrite output w) as [[[]|e0] w0] eqn:Hprompt;
      apply confirm_overwrite_run in Hprompt as [Hsame _].
    - intros Hcompose.
      apply keeping_compose_canvas with (K := λ _, True) in Hcompose.
      rewrite (keeps_all_stat _ _ Hcompose). by apply Hsame.
    - intros [= <- <-]. by apply Hsame. }
  apply stitch_images_stages in H
    as [(e & _ & Hfail)|(L & w1 & Hrun & Hex & Hfinish)]; [| |done].
  - left. by eapply Hcanvas.
  - apply finish_run in Hfinish as [Hframe _]; [|done].
    specialize (Hframe k Hk1 Hk2). unfold kept_or_made in *.
    by rewrite <- (Hcanvas _ _ Hrun).
Qed.

Lemma other_paths_are_left_alone_witness :
  plain "out/new.png" = true ∧ plain "in/a.png" = true ∧ plain "fill.png" = true ∧
  kept_or_made "in/a.png" (Sample.world []) (Cases.run Sample.tools true).2 ∧
  kept_or_made "fill.png" (Sample.world []) (Cases.run Sample.tools true).2.
Proof.
  split; [reflexivity|]. split; [reflexivity|]. split; [reflexivity|]. split.
  - apply (other_paths_are_left_alone Sample.tools "in" "out/new.png" (Some "fill.png")
             true false (Some [255; 0; 228]) true 2 2 (Sample.world [])
             (Cases.run Sample.tools true).2 (Cases.run Sample.tools true).1);
      [reflexivity|exact (surjective_pairing (Cases.run Sample.tools true))
      |reflexivity|done|done].
  - apply (other_paths_are_left_alone Sample.tools "in" "out/new.png" (Some "fill.png")
             true false (Some [255; 0; 228]) true 2 2 (Sample.world [])
             (Cases.run Sample.tools true).2 (Cases.run Sample.tools true).1);
      [reflexivity|exact (surjective_pairing (Cases.run Sample.tools true))
      |reflexivity|done|done].
Defined.

(** ** The exceptions a run can end in *)

Section Raises.

Context (P : exn → Prop).

Lemma raises_ret {A} (a : A) : raises P (mret a : M A).
Proof. by intros w e w'. Qed.

Lemma raises_raise {A} e : P e → raises P (raise e : M A).
Proof. by intros He w e' w' [= <- _]. Qed.

Lemma raises_get : raises P get.
Proof. by intros w e w'. Qed.

Lemma raises_called c : raises P (called c).
Proof. by intros w e w'. Qed.

Lemma raises_print line : raises P (print line).
Proof. by intros w e w'. Qed.

Lemma raises_put_fs f : raises P (put_fs f).
Proof. by intros w e w'. Qed.

Lemma raises_input prompt : P EOFError → raises P (input prompt).
Proof.
intros He w e w'. unfold input. destruct (stdin w); [|done]. by intros [= <- _].
Qed.

Lemma raises_assert cond msg : P (AssertionError msg) → raises P (assert cond msg).
Proof. intros He. unfold assert. destruct cond; [apply raises_ret|by apply raises_raise]. Qed.

Lemma raises_bind {A B} (m : M A) (f : A → M B) :
raises P m → (∀ a, raises P (f a)) → raises P (m ≫= f).
Proof.
intros Hm Hf w e w' H. apply bind_Raise in H as [H|(a & w1 & _ & H)].
- by eapply Hm.
- by eapply Hf.
Qed.

Lemma raises_catch {A} (m : M A) E h :
raises P m → (∀ e, P e → raises P (h e)) → raises P (catch m E h).
Proof.
intros Hm Hh w e w'. unfold catch.
destruct (m w) as [[a|e1] w1] eqn:Hmw; [done|].
destruct (E e1).
- intros He. eapply Hh; [|exact He]. by eapply Hm.
- intros [= <- <-]. by eapply Hm.
Qed.

Lemma raises_weaken {A} (Q : exn → Prop) (m : M A) :
(∀ e, Q e → P e) → raises Q m → raises P m.
Proof. intros HQ Hm w e w' H. by eapply HQ, Hm. Qed.

End Raises.

(** Take a computation apart; what is left are the exceptions it raises
    itself. *)
Ltac raise_step :=
  first
    [ apply raises_ret | apply raises_get | apply raises_called
    | apply raises_print | apply raises_put_fs
    | apply raises_raise; first [exact I|assumption]
    | apply raises_input; exact I
    | apply raises_assert; exact I
    | apply raises_bind; [|intros ?]
    | apply raises_catch; [|intros ? ?]
    | match goal with
      | |- raises _ (match ?x with _ => _ end) => destruct x
      end ].
Ltac raising := repeat raise_step.

Lemma raises_makedirs depth : ∀ name, raises from_library (makedirs depth name).
Proof.
  induction depth as [|depth IH]; intros name; cbn [makedirs];
    destruct (posixpath.split name) as [h1 t1];
    destruct (if bool_decide (t1 = "") then posixpath.split h1 else (h1, t1))
      as [head tail].
  - unfold os_path_exists, os_mkdir, os_path_isdir. raising.
  - apply raises_bind; [unfold os_path_exists; raising|]. intros ex.
    apply raises_bind.
    { destruct (_ && _); [|raising].
      apply raises_bind; [|intros ?; raising].
      apply raises_catch; [apply IH|intros ? ?; raising]. }
    intros returned. unfold os_mkdir, os_path_isdir. raising.
Qed.

Lemma raises_Image_open path : raises from_library (Image_open path).
Proof.
  intros w e w'. unfold Image_open, decode. mrun.
  repeat case_match; simplify_eq; first [done|by intros [= <- _]].
Qed.

Lemma raises_Image_paste self im box mask :
  raises from_library (Image_paste self im box mask).
Proof.
  intros w e w'. unfold Image_paste, paste. mrun.
  repeat case_match; simplify_eq; first [done|by intros [= <- _]].
Qed.

Lemma raises_largest_dimension image_files :
  ∀ max_image_size, raises from_library (largest_dimension image_files max_image_size).
Proof.
  induction image_files as [|f files IH]; intros m; simpl; [apply raises_ret|].
  apply raises_bind; [apply raises_Image_open|]. intros img.
  destruct (Image.size img). apply IH.
Qed.

(** With a divisor other than zero, the second loop raises nothing of
    its own. *)
Lemma raises_paste_images verbose colorkey process_colorkey grid_cols cell_size
    fill_image_resized image_files :
  grid_cols ≠ 0 →
  ∀ i result,
    raises from_library
      (paste_images verbose colorkey process_colorkey grid_cols cell_size
         fill_image_resized i image_files result).
Proof.
  intros Hcols.
  induction image_files as [|f files IH]; intros i result; simpl; [apply raises_ret|].
  apply raises_bind.
  { destruct (grid_cols =? 0) eqn:H0; [lia|apply raises_ret]. }
  intros _. apply raises_bind; [raising|]. intros _.
  apply raises_bind; [apply raises_Image_open|]. intros img.
  apply raises_bind.
  { destruct fill_image_resized; [apply raises_Image_paste|apply raises_ret]. }
  intros r1.
  apply raises_bind; [apply raises_Image_paste|]. intros r2. apply IH.
Qed.

(** Lines 75-122 end in the exceptions of the assertions and of the
    library only: the division of lines 101-102 is never by zero. *)
Lemma raises_compose_canvas tools directory fill verbose colorkey process_colorkey
    grid_rows grid_cols :
  raises from_library
    (compose_canvas tools directory fill verbose colorkey process_colorkey
       grid_rows grid_cols).
Proof.
  unfold compose_canvas. apply raises_bind; [unfold glob_glob_png; raising|].
  intros paths. cbv zeta.
  destruct (0 <? Z.of_nat (length (sorted paths))) eqn:Hn; [|raising].
  destruct (Z.of_nat (length (sorted paths)) <=? grid_rows * grid_cols) eqn:Hc;
    [|raising].
  assert (grid_cols ≠ 0) as Hcols by nia.
  apply raises_bind; [raising|]. intros _.
  apply raises_bind; [raising|]. intros _.
  apply raises_bind; [apply raises_largest_dimension|]. intros cs.
  apply raises_bind; [unfold Image_new_RGBA; raising|]. intros canvas.
  apply raises_bind.
  { destruct (truthy_str fill); [|apply raises_ret].
    apply raises_bind; [apply raises_Image_open|]. intros fill_image.
    unfold Image_resize. raising. }
  intros fillr.
  apply raises_bind; [by apply raises_paste_images|]. intros r. raising.
Qed.

Lemma raises_finish tools output reduce verbose result :
  raises from_library (finish tools output reduce verbose result).
Proof.
  unfold finish. cbv zeta.
  apply raises_bind.
  { unfold os_makedirs. apply raises_bind; [raising|]. intros _. apply raises_makedirs. }
  intros _. apply raises_bind; [unfold Image_save; raising|].
  intros _. apply raises_bind.
  { destruct reduce.
    - apply raises_bind; [raising|]. intros _. unfold subprocess_run_pngquant. raising.
    - unfold shutil_move. raising. }
  intros _. unfold os_path_exists, os_remove. raising.
Qed.

(** X9. No run ends in [ZeroDivisionError]: the loop of lines 100-122
    divides by [grid_cols] only when there is an image to place, and the
    assertion of line 80 has then made sure that [grid_rows * grid_cols]
    is at least 1, so that [grid_cols] is not 0. *)
Theorem never_divides_by_zero
    (tools : Tools) (directory output : string) (fill : option string)
    (reduce verbose : bool) (colorkey : option (list Z)) (process_colorkey : bool)
    (grid_rows grid_cols : Z) (w w' : World) (e : exn) :
  stitch_images tools directory output fill reduce verbose colorkey
    process_colorkey grid_rows grid_cols w = (Raise e, w') →
  e ≠ ZeroDivisionError.
Proof.
  assert (∀ e, from_library e → e ≠ ZeroDivisionError) as Hlib by (by intros []).
  revert w e w'.
  change (raises (λ e, e ≠ ZeroDivisionError)
            (stitch_images tools directory output fill reduce verbose colorkey
               process_colorkey grid_rows grid_cols)).
  unfold stitch_images, stitch_images_canvas.
  apply raises_bind; [apply raises_bind|].
  - unfold confirm_overwrite, os_path_exists, os_remove.
    repeat first
      [ apply raises_ret | apply raises_get | apply raises_called
      | apply raises_print | apply raises_put_fs
      | apply raises_raise; done | apply raises_input; done
      | apply raises_bind; [|intros ?]
      | match goal with
        | |- raises _ (match ?x with _ => _ end) => destruct x
        end ].
  - intros _. eapply raises_weaken; [exact Hlib|apply raises_compose_canvas].
  - intros L. eapply raises_weaken; [exact Hlib|apply raises_finish].
Qed.

Lemma never_divides_by_zero_witness :
  ∃ e w',
    stitch_images Sample.tools "in" "out/new.png" None false false None false 2 0
      (Sample.world []) = (Raise e, w') ∧
    e ≠ ZeroDivisionError.
Proof.
  assert (stitch_images Sample.tools "in" "out/new.png" None false false None false 2 0
            (Sample.world [])
          = (Raise (AssertionError "Number of images exceeds the grid capacity."),
             (stitch_images Sample.tools "in" "out/new.png" None false false None false
                2 0 (Sample.world [])).2)) as Hrun by (vm_compute; reflexivity).
  eexists _, _. split; [exact Hrun|].
  exact (never_divides_by_zero _ _ _ _ _ _ _ _ _ _ _ _ _ Hrun).
Defined.

(** X10. [SystemExit] comes from the declined prompt and from nowhere
    else: a run that ends in it has found something at the output path,
    has read an answer other than [y] (in either case), and has changed
    no file and called no library function; its exit code is [None],
    status 0. *)
Theorem system_exit_means_declined
    (tools : Tools) (directory output : string) (fill : option string)
    (reduce verbose : bool) (colorkey : option (list Z)) (process_colorkey : bool)
    (grid_rows grid_cols : Z) (w w' : World) (code : option Z) :
  stitch_images tools directory output fill reduce verbose colorkey
    process_colorkey grid_rows grid_cols w = (Raise (SystemExit code), w') →
  code = None ∧
  FS.exists_ (fs w) output = true ∧
  (∃ response rest, stdin w = response :: rest ∧ Text.lower response ≠ "y" ∧
                    stdin w' = rest) ∧
  stdout w' = stdout w ++ [overwrite_prompt output;
                           "Exiting without overwriting existing file."] ∧
  fs w' = fs w ∧ calls w' = calls w.
Proof.
  intros H. unfold stitch_images in H.
  apply bind_Raise in H as [H|(L & w1 & _ & H)];
    [|by apply raises_finish in H].
  unfold stitch_images_canvas in H.
  apply bind_Raise in H as [H|([] & w1 & _ & H)];
    [|by apply raises_compose_canvas in H].
  revert H. unfold confirm_overwrite, os_path_exists. mrun.
  destruct (FS.exists_ (fs w) output) eqn:Hex; [|done].
  mrun. unfold input. destruct (stdin w) as [|response rest] eqn:Hin; [done|].
  case_bool_decide as Hyes; mrun.
  - unfold os_remove. mrun. repeat case_match; done.
  - intros [= <- <-]. simpl. split; [done|]. split; [done|].
    split; [by exists response, rest|]. by rewrite <- app_assoc.
Qed.

Lemma system_exit_means_declined_witness :
  FS.exists_ (fs (Sample.world ["N"])) "out/old.png" = true ∧
  fs (stitch_images Sample.tools "in" "out/old.png" None false false None false 2 2
        (Sample.world ["N"])).2 = Sample.files.
Proof.
  assert (stitch_images Sample.tools "in" "out/old.png" None false false None false 2 2
            (Sample.world ["N"])
          = (Raise (SystemExit None),
             (stitch_images Sample.tools "in" "out/old.png" None false false None false
                2 2 (Sample.world ["N"])).2)) as Hrun by (vm_compute; reflexivity).
  pose proof (system_exit_means_declined _ _ _ _ _ _ _ _ _ _ _ _ _ Hrun)
    as (_ & Hex & _ & _ & Hfs & _).
  split; [exact Hex|exact Hfs].
Defined.

(** ** The second loop, one iteration at a time *)

Section PasteSteps.

Context (verbose : bool) (colorkey : option (list Z)) (process_colorkey : bool)
        (grid_cols cell_size : Z) (fill_image_resized : option Image).

Local Abbreviation paste_loop :=
  (paste_images verbose colorkey process_colorkey grid_cols cell_size fill_image_resized).
Local Abbreviation key := (keyed process_colorkey colorkey).

(** Lines 101-122 for one file, every way they can end. *)
Lemma paste_images_cons i img_file rest result w :
grid_cols ≠ 0 →
paste_loop i (img_file :: rest) result w =
let box := position grid_cols cell_size i in
let w0 := announced verbose grid_cols cell_size i img_file w in
match decode (fs w) img_file with
| Raise e => (Raise e, logged w0 [Call.open img_file])
| Return img =>
    match fill_pasted fill_image_resized result box with
    | Raise e =>
        (Raise e, logged w0 ([Call.open img_file] ++ fill_calls fill_image_resized box))
    | Return filled =>
        let after :=
          logged w0 ([Call.open img_file] ++ fill_calls fill_image_resized box ++
                     [Call.paste (key img) box (Some (key img))]) in
        match paste filled (key img) box (Some (key img)) with
        | Raise e => (Raise e, after)
        | Return result' => paste_loop (i + 1) rest result' after
        end
    end
end.
Proof.
intros Hcols. cbn [paste_images]. rewrite run_bind.
destruct (grid_cols =? 0) eqn:H0; [lia|]. rewrite run_ret. cbn [position].
cbv zeta. rewrite run_bind.
assert ((if verbose
         then print ("Pasting " +:+ img_file +:+ " at position (" +:+
                     pretty (i mod grid_cols * cell_size) +:+ ", " +:+
                     pretty (i / grid_cols * cell_size) +:+ ")")
         else mret ()) w
        = (Return (), announced verbose grid_cols cell_size i img_file w)) as ->.
{ unfold announced. destruct verbose; [reflexivity|]. by destruct w. }
assert (fs (announced verbose grid_cols cell_size i img_file w) = fs w) as Hfs
  by (unfold announced; by destruct verbose).
set (w0 := announced verbose grid_cols cell_size i img_file w) in *.
unfold lazy_open_image. rewrite run_bind, Image_open_run, Hfs.
destruct (decode (fs w) img_file) as [img|e]; [|done].
rewrite run_bind. unfold fill_pasted, fill_calls.
destruct fill_image_resized as [fill_image|].
- rewrite Image_paste_run.
  destruct (paste result fill_image _ None) as [filled|e]; [|by rewrite logged_logged].
  rewrite run_bind, Image_paste_run, !logged_logged.
  by destruct (paste filled (key img) _ (Some (key img))).
- rewrite run_ret, run_bind, Image_paste_run, !logged_logged.
  by destruct (paste result (key img) _ (Some (key img))).
Qed.

Lemma fill_pasted_Return result box :
∃ filled, fill_pasted fill_image_resized result box = Return filled ∧
          width filled = width result ∧ height filled = height result.
Proof.
unfold fill_pasted. destruct fill_image_resized as [fill_image|]; [|by eauto].
destruct box as [x0 y0].
assert (∃ filled, paste result fill_image (x0, y0) None = Return filled) as [filled H].
{ unfold paste. destruct (Image.size fill_image). destruct (Paste.clipped_away _ _ _ _ _); eauto. }
exists filled. split; [done|]. by apply paste_Return in H as (? & ? & _).
Qed.

(** The mask is looked at exactly when the box meets the canvas. *)
Lemma paste_self_mask filled img x0 y0 :
Paste.clipped_away filled (Image.size img).1 (Image.size img).2 x0 y0 = false →
(∃ r, paste filled img (x0, y0) (Some img) = Return r) ↔ masks_itself img.
Proof.
intros Hclip. unfold paste, masks_itself. destruct (Image.size img) as [sw sh].
simpl in Hclip. rewrite Hclip.
destruct (Image.matte img) as [a|]; split; try done; eauto.
by intros [r ?].
Qed.

End PasteSteps.

Lemma clipped_away_dims (self self' : Raster rgba) sw sh x0 y0 :
  width self' = width self → height self' = height self →
  Paste.clipped_away self' sw sh x0 y0 = Paste.clipped_away self sw sh x0 y0.
Proof. unfold Paste.clipped_away. by intros -> ->. Qed.

(** An image of at least one pixel, pasted at a cell of the grid, meets
    the canvas. *)
Lemma in_grid_not_clipped (self : Raster rgba) grid_rows grid_cols cell_size j sw sh :
  0 < grid_cols → 0 < cell_size → 0 ≤ j < grid_rows * grid_cols →
  1 ≤ sw → 1 ≤ sh →
  width self = cell_size * grid_cols → height self = cell_size * grid_rows →
  Paste.clipped_away self sw sh ((j mod grid_cols) * cell_size)
    ((j / grid_cols) * cell_size) = false.
Proof.
  intros Hcols Hcs Hj Hsw Hsh Hw Hh. unfold Paste.clipped_away. rewrite Hw, Hh.
  pose proof (Z.mod_pos_bound j grid_cols Hcols) as Hmod.
  assert (0 ≤ j / grid_cols < grid_rows) as Hdiv.
  { split; [apply Z.div_pos; lia|]. apply Z.div_lt_upper_bound; lia. }
  apply orb_false_iff. split; apply Z.leb_gt; nia.
Qed.

Lemma pasting_lines_lookup grid_cols cell_size image_files :
  ∀ i (k : nat),
    pasting_lines grid_cols cell_size i image_files !! k =
    pasting_line grid_cols cell_size (i + Z.of_nat k) <$> image_files !! k.
Proof.
  induction image_files as [|f files IH]; intros i k; [done|].
  destruct k as [|k]; simpl.
  - by rewrite Z.add_0_r.
  - rewrite IH. by replace (i + 1 + Z.of_nat k) with (i + Z.of_nat (S k)) by lia.
Qed.

Lemma length_pasting_lines grid_cols cell_size image_files :
  ∀ i, length (pasting_lines grid_cols cell_size i image_files) = length image_files.
Proof. induction image_files as [|f files IH]; intros i; simpl; [done|]. by rewrite IH. Qed.

Section PasteRuns.

Context (verbose : bool) (colorkey : option (list Z)) (process_colorkey : bool)
        (grid_cols cell_size : Z) (fill_image_resized : option Image).
Context (Hcols : grid_cols ≠ 0).

Local Abbreviation paste_loop :=
  (paste_images verbose colorkey process_colorkey grid_cols cell_size fill_image_resized).
Local Abbreviation key := (keyed process_colorkey colorkey).

Lemma announced_fs i f w : fs (announced verbose grid_cols cell_size i f w) = fs w.
Proof. unfold announced. by destruct verbose. Qed.

(** A loop that returns has printed its lines, one for each file, if
    [verbose] is set, and nothing otherwise; and every image whose box
    meets the canvas could serve as its own mask. *)
Lemma paste_images_Return_more image_files :
∀ i result w result' w',
  paste_loop i image_files result w = (Return result', w') →
  stdin w' = stdin w ∧
  stdout w' = stdout w ++
              (if verbose then pasting_lines grid_cols cell_size i image_files else []) ∧
  ∀ (k : nat) p img,
    image_files !! k = Some p →
    decode (fs w) p = Return img →
    Paste.clipped_away result (Image.size (key img)).1 (Image.size (key img)).2
      (((i + Z.of_nat k) mod grid_cols) * cell_size)
      (((i + Z.of_nat k) / grid_cols) * cell_size) = false →
    masks_itself (key img).
Proof.
induction image_files as [|f files IH]; intros i result w result' w'.
- simpl. mrun. intros [= <- <-]. split; [done|].
  split; [by destruct verbose; rewrite app_nil_r|]. by intros k p img.
- rewrite paste_images_cons by done. cbv zeta.
  destruct (decode (fs w) f) as [img|e] eqn:Hdec; [|done].
  destruct (fill_pasted_Return fill_image_resized result
              (position grid_cols cell_size i)) as (filled & -> & Hfw & Hfh).
  destruct (paste filled (key img) _ (Some (key img))) as [r2|e] eqn:Hpaste; [|done].
  intros H.
  pose proof Hpaste as Hdims. unfold position in Hdims.
  apply paste_Return in Hdims as (Hw2 & Hh2 & _).
  apply IH in H as (Hin & Hout & Hmasks). simpl in Hin, Hout.
  split; [rewrite Hin; unfold announced; by destruct verbose|].
  split.
  { rewrite Hout. unfold announced. destruct verbose; simpl; [|done].
    by rewrite <- app_assoc. }
  intros [|k] p img' Hp Hdec' Hclip.
  + injection Hp as <-. rewrite Hdec in Hdec'. injection Hdec' as <-.
    rewrite Z.add_0_r in Hclip.
    eapply (paste_self_mask filled); [|by eauto].
    rewrite <- Hclip. by apply clipped_away_dims.
  + simpl in Hp. apply (Hmasks k p img' Hp).
    * simpl. by rewrite announced_fs.
    * replace (i + 1 + Z.of_nat k) with (i + Z.of_nat (S k)) by lia.
      rewrite <- Hclip. apply clipped_away_dims; congruence.
Qed.

(** A loop all of whose files decode to images that can serve as their
    own masks returns. *)
Lemma paste_images_total image_files :
∀ i result w,
  Forall (λ p, ∃ img, decode (fs w) p = Return img ∧ masks_itself (key img))
         image_files →
  ∃ result' w', paste_loop i image_files result w = (Return result', w').
Proof.
induction image_files as [|f files IH]; intros i result w Hall; [by eexists _, _|].
apply Forall_cons in Hall as [(img & Hdec & Hmask) Hall].
rewrite paste_images_cons by done. cbv zeta. rewrite Hdec.
destruct (fill_pasted_Return fill_image_resized result
            (position grid_cols cell_size i)) as (filled & -> & _).
assert (∃ r2, paste filled (key img) (position grid_cols cell_size i) (Some (key img))
              = Return r2) as [r2 ->].
{ unfold paste, position. destruct (Image.size (key img)).
  destruct (Paste.clipped_away _ _ _ _ _); [eauto|].
  unfold masks_itself in Hmask. destruct (Image.matte (key img)); [eauto|done]. }
apply IH. simpl. by rewrite announced_fs.
Qed.

End PasteRuns.

(** ** Lines 75-122 again: the loop as it is run *)

(** A canvas stage that returns, down to the run of the second loop. *)
Lemma compose_canvas_Return_loop tools directory fill verbose colorkey
    process_colorkey grid_rows grid_cols w1 L w' :
  compose_canvas tools directory fill verbose colorkey process_colorkey
    grid_rows grid_cols w1 = (Return L, w') →
  ∃ fill_image_resized w6,
    w6 = logged w1
           ([Call.glob (directory +:+ "/*.png")] ++ (Call.open <$> image_files L) ++
            [Call.new (cell_size L * grid_cols, cell_size L * grid_rows)] ++
            (if truthy_str fill
             then [Call.open (default "" fill);
                   Call.resize (cell_size L, cell_size L)]
             else [])) ∧
    fill_of tools (fs w1) fill (cell_size L) fill_image_resized ∧
    fs w6 = fs w1 ∧ stdin w6 = stdin w1 ∧ stdout w6 = stdout w1 ∧
    image_files L = sorted (glob_png (fs w1) directory) ∧
    paste_images verbose colorkey process_colorkey grid_cols (cell_size L)
      fill_image_resized 0 (image_files L)
      (Raster.new transparent (cell_size L * grid_cols) (cell_size L * grid_rows)) w6
    = (Return (result L), w').
Proof.
  unfold compose_canvas. intros H.
  rewrite run_bind, glob_glob_png_run in H.
  set (files := sorted (glob_png (fs w1) directory)) in *.
  apply bind_Return in H as ([] & w2 & Hsome & H).
  apply bind_Return in H as ([] & w3 & Hcap & H).
  unfold assert in Hsome, Hcap.
  destruct (0 <? Z.of_nat (length files)); [|done].
  destruct (Z.of_nat (length files) <=? grid_rows * grid_cols); [|done].
  rewrite run_ret in Hsome, Hcap. injection Hsome as <-. injection Hcap as <-.
  apply bind_Return in H as (cs & w4 & Hmeasure & H).
  apply largest_dimension_Return in Hmeasure as (-> & _).
  apply bind_Return in H as (canvas & w5 & Hnew & H).
  apply Image_new_RGBA_Return in Hnew as (_ & _ & -> & ->). simpl in H.
  apply bind_Return in H as (fillr & w6 & Hfill & H).
  apply bind_Return in H as (res & w7 & Hloop & H).
  rewrite run_ret in H. injection H as <- <-. simpl.
  exists fillr, w6.
  assert (w6 = logged w1
                 ([Call.glob (directory +:+ "/*.png")] ++ (Call.open <$> files) ++
                  [Call.new (cs * grid_cols, cs * grid_rows)] ++
                  (if truthy_str fill
                   then [Call.open (default "" fill); Call.resize (cs, cs)]
                   else [])) ∧
          fill_of tools (fs w1) fill cs fillr) as [Hw6 Hfillr].
  { unfold fill_of. destruct (truthy_str fill).
    - rewrite run_bind, Image_open_run in Hfill.
      cbn [fs logged] in Hfill.
      destruct (decode (fs w1) (default "" fill)) as [fill_image|] eqn:Hdec; [|done].
      unfold Image_resize in Hfill. mrun in Hfill.
      injection Hfill as <- <-. split; [|by eauto].
      unfold logged. simpl. f_equal. by rewrite <- !app_assoc.
    - rewrite run_ret in Hfill. injection Hfill as <- <-. split; [|done].
      unfold logged. simpl. f_equal. by rewrite <- !app_assoc. }
  split; [exact Hw6|]. split; [exact Hfillr|].
  split; [by rewrite Hw6|]. split; [by rewrite Hw6|].
  split; [by rewrite Hw6|]. done.
Qed.

Lemma confirm_overwrite_stdout output w w1 :
  confirm_overwrite output w = (Return (), w1) →
  stdout w1 = stdout w ++
              (if FS.exists_ (fs w) output then [overwrite_prompt output] else []).
Proof.
  unfold confirm_overwrite, os_path_exists. mrun.
  destruct (FS.exists_ (fs w) output).
  - mrun. unfold input. destruct (stdin w) as [|response rest]; [done|].
    destruct (bool_decide (Text.lower response = "y")); mrun; [|done].
    unfold os_remove. mrun. repeat case_match; try done; by intros [= <-].
  - mrun. intros [= <-]. by rewrite app_nil_r.
Qed.

(** X11. The image of line 122 is its own mask, so that a run gets past
    line 122 only if every source image, as it is pasted, has a band
    Pillow accepts as a mask: with keying off, a source file that decodes
    to an RGB image (no alpha band) ends the run in
    [ValueError: bad transparency mask]; with keying on every image has
    been converted to RGBA first. *)
Theorem pasted_images_mask_themselves
    (tools : Tools) (directory output : string) (fill : option string) (verbose : bool)
    (colorkey : option (list Z)) (process_colorkey : bool) (grid_rows grid_cols : Z)
    (w w' : World) (L : Locals) :
  stitch_images_canvas tools directory output fill verbose colorkey
    process_colorkey grid_rows grid_cols w = (Return L, w') →
  ∀ p, p ∈ image_files L →
    ∃ img, decode (fs w') p = Return img ∧
           masks_itself (keyed process_colorkey colorkey img) ∧
           (process_colorkey && truthy_list colorkey = false →
            ∀ r, img ≠ ImRGB r).
Proof.
  intros Hrun p Hp.
  pose proof Hrun as Hhub.
  apply stitch_images_canvas_Return in Hhub
    as (w1 & imgs & fillr & Hprompt & Hfs & _ & Hn & Himgs & Hall & _ & Hcw & Hch & _).
  destruct (run_geometry _ _ _ _ _ _ Hn Himgs Hall Hcw Hch) as (Hcs & Hcols & Hrows).
  unfold stitch_images_canvas in Hrun.
  rewrite (bind_run_Return _ _ _ _ _ Hprompt) in Hrun.
  apply compose_canvas_Return_loop in Hrun
    as (fillr' & w6 & _ & _ & Hfs6 & _ & _ & _ & Hloop).
  apply paste_images_Return_more in Hloop as (_ & _ & Hmasks); [|lia].
  apply list_elem_of_lookup in Hp as [k Hk].
  destruct (Forall2_lookup_l _ _ _ _ _ Himgs Hk) as (img & _ & Hdec).
  assert (masks_itself (keyed process_colorkey colorkey img)) as Hmask.
  { apply (Hmasks k p img Hk); [by rewrite Hfs6|].
    rewrite size_keyed. apply decode_Return in Hdec as (_ & Hsw & Hsh).
    apply lookup_lt_Some in Hk.
    apply (in_grid_not_clipped _ grid_rows); simpl; (done || lia). }
  exists img. rewrite Hfs. split; [done|]. split; [done|].
  intros Hoff r ->. unfold keyed in Hmask. rewrite Hoff in Hmask. by apply Hmask.
Qed.

Lemma pasted_images_mask_themselves_witness :
  ∃ img, decode (fs Sample.canvas_run.2) "in/a.png" = Return img ∧
         masks_itself (keyed true (Some [255; 0; 228]) img).
Proof.
  assert (stitch_images_canvas Sample.tools "in" "out/new.png" (Some "fill.png") true
            (Some [255; 0; 228]) true 2 2 (Sample.world [])
          = (Return Sample.locals, Sample.canvas_run.2)) as Hrun
    by (vm_compute; reflexivity).
  assert ("in/a.png" ∈ image_files Sample.locals) as Hp by (vm_compute; left).
  destruct (pasted_images_mask_themselves _ _ _ _ _ _ _ _ _ _ _ _ Hrun "in/a.png" Hp)
    as (img & Hdec & Hmask & _).
  exists img. split; [exact Hdec|exact Hmask].
Defined.

(** X12. What is printed up to line 122: the prompt, if there was
    something at the output path, and then, if [verbose] is set, one line
    [Pasting <file> at position (<x>, <y>)] for each input file in the
    order of pasting; with [verbose] unset the loop prints nothing. *)
Theorem verbose_lines
    (tools : Tools) (directory output : string) (fill : option string) (verbose : bool)
    (colorkey : option (list Z)) (process_colorkey : bool) (grid_rows grid_cols : Z)
    (w w' : World) (L : Locals) :
  stitch_images_canvas tools directory output fill verbose colorkey
    process_colorkey grid_rows grid_cols w = (Return L, w') →
  ∃ lines,
    stdout w' = stdout w ++
                (if FS.exists_ (fs w) output then [overwrite_prompt output] else []) ++
                lines ∧
    (verbose = false → lines = []) ∧
    (verbose = true →
     length lines = length (image_files L) ∧
     ∀ (i : nat) p, image_files L !! i = Some p →
       lines !! i = Some (pasting_line grid_cols (cell_size L) (Z.of_nat i) p)).
Proof.
  intros Hrun.
  pose proof Hrun as Hhub.
  apply stitch_images_canvas_Return in Hhub
    as (w1 & imgs & fillr & Hprompt & Hfs & _ & Hn & Himgs & Hall & _ & Hcw & Hch & _).
  destruct (run_geometry _ _ _ _ _ _ Hn Himgs Hall Hcw Hch) as (Hcs & Hcols & Hrows).
  unfold stitch_images_canvas in Hrun.
  rewrite (bind_run_Return _ _ _ _ _ Hprompt) in Hrun.
  apply compose_canvas_Return_loop in Hrun
    as (fillr' & w6 & _ & _ & _ & _ & Hout6 & _ & Hloop).
  apply paste_images_Return_more in Hloop as (_ & Hout & _); [|lia].
  apply confirm_overwrite_stdout in Hprompt.
  exists (if verbose then pasting_lines grid_cols (cell_size L) 0 (image_files L) else []).
  split; [by rewrite Hout, Hout6, Hprompt, <- app_assoc|].
  split; [by intros ->|]. intros ->.
  split; [apply length_pasting_lines|].
  intros i p Hp. by rewrite pasting_lines_lookup, Hp, Z.add_0_l.
Qed.

Lemma verbose_lines_witness :
  ∃ lines,
    stdout Sample.canvas_run.2 = lines ∧
    lines !! 1%nat = Some "Pasting in/b.png at position (2, 0)".
Proof.
  assert (stitch_images_canvas Sample.tools "in" "out/new.png" (Some "fill.png") true
            (Some [255; 0; 228]) true 2 2 (Sample.world [])
          = (Return Sample.locals, Sample.canvas_run.2)) as Hrun
    by (vm_compute; reflexivity).
  destruct (verbose_lines _ _ _ _ _ _ _ _ _ _ _ _ Hrun) as (lines & Hout & _ & Hlines).
  destruct (Hlines eq_refl) as [_ Hline].
  exists lines. split; [exact Hout|].
  exact (Hline 1%nat "in/b.png" eq_refl).
Defined.

(** ** Runs that get to line 122, and runs that cannot *)

(** Lines 75-88 when the grid has room and every file decodes. *)
Lemma compose_canvas_measured tools directory fill verbose colorkey
    process_colorkey grid_rows grid_cols w1 :
  let files := sorted (glob_png (fs w1) directory) in
  0 < Z.of_nat (length files) ≤ grid_rows * grid_cols →
  Forall (λ p, ∃ img, decode (fs w1) p = Return img) files →
  ∃ cs,
    1 ≤ cs ∧
    compose_canvas tools directory fill verbose colorkey process_colorkey
      grid_rows grid_cols w1
    = (result ← Image_new_RGBA (cs * grid_cols, cs * grid_rows);
       fill_image_resized ←
         (if truthy_str fill then
            fill_image ← Image_open (default "" fill);
            fill_image_resized ← Image_resize tools fill_image (cs, cs);
            mret (Some fill_image_resized)
          else mret None);
       result ← paste_images verbose colorkey process_colorkey grid_cols cs
                  fill_image_resized 0 files result;
       mret (mkLocals files cs result))
      (logged w1 ([Call.glob (directory +:+ "/*.png")] ++ (Call.open <$> files))).
Proof.
  intros files Hn Hall. unfold compose_canvas.
  rewrite run_bind, glob_glob_png_run. fold files. cbv zeta.
  rewrite run_bind. unfold assert at 1.
  destruct (0 <? Z.of_nat (length files)) eqn:H1; [|lia]. rewrite run_ret.
  rewrite run_bind. unfold assert at 1.
  destruct (Z.of_nat (length files) <=? grid_rows * grid_cols) eqn:H2; [|lia].
  rewrite run_ret.
  destruct (largest_dimension_total files 0
              (logged w1 [Call.glob (directory +:+ "/*.png")]) Hall) as [cs Hcs].
  exists cs. split.
  - apply largest_dimension_Return in Hcs as (_ & _ & Hle & _).
    destruct files as [|p files']; [simpl in Hn; lia|].
    apply Forall_cons in Hle as [(img & Hdec & Hle) _].
    apply decode_Return in Hdec as (_ & ? & _). lia.
  - rewrite run_bind, Hcs. by rewrite logged_logged.
Qed.

(** The canvas stage returns when its inputs are in order. *)
Lemma canvas_stage_total
    (tools : Tools) (directory output : string) (fill : option string) (verbose : bool)
    (colorkey : option (list Z)) (process_colorkey : bool) (grid_rows grid_cols : Z)
    (w w1 : World) :
  confirm_overwrite output w = (Return (), w1) →
  0 < Z.of_nat (length (sorted (glob_png (fs w1) directory))) ≤ grid_rows * grid_cols →
  0 < grid_cols →
  Forall (λ p, ∃ img, decode (fs w1) p = Return img ∧
                      masks_itself (keyed process_colorkey colorkey img))
         (sorted (glob_png (fs w1) directory)) →
  (truthy_str fill = true → ∃ fill_image, decode (fs w1) (default "" fill) = Return fill_image) →
  ∃ L w',
    stitch_images_canvas tools directory output fill verbose colorkey
      process_colorkey grid_rows grid_cols w = (Return L, w') ∧
    image_files L = sorted (glob_png (fs w1) directory).
Proof.
  intros Hprompt Hn Hcols Hall Hfill.
  unfold stitch_images_canvas. rewrite (bind_run_Return _ _ _ _ _ Hprompt).
  set (files := sorted (glob_png (fs w1) directory)) in *.
  assert (Forall (λ p, ∃ img, decode (fs w1) p = Return img) files) as Hdec.
  { eapply Forall_impl; [exact Hall|]. intros p (img & ? & _). eauto. }
  destruct (compose_canvas_measured tools directory fill verbose colorkey
              process_colorkey grid_rows grid_cols w1 Hn Hdec) as (cs & Hcs & ->).
  fold files.
  set (w4 := logged w1 _).
  assert (0 < grid_rows) as Hrows by nia.
  rewrite run_bind. unfold Image_new_RGBA at 1. rewrite run_bind. unfold called at 1.
  cbn [fst snd]. 
  assert ((cs * grid_cols <? 0) || (cs * grid_rows <? 0) = false) as ->.
  { apply orb_false_iff. split; apply Z.ltb_ge; nia. }
  rewrite run_ret, run_bind.
  set (w5 := mkWorld _ _ _ _).
  assert (∃ fillr w6,
            (if truthy_str fill then
               fill_image ← Image_open (default "" fill);
               fill_image_resized ← Image_resize tools fill_image (cs, cs);
               mret (Some fill_image_resized)
             else mret None) w5 = (Return fillr, w6) ∧ fs w6 = fs w1)
    as (fillr & w6 & -> & Hfs6).
  { destruct (truthy_str fill).
    - destruct (Hfill eq_refl) as [fill_image Hfi].
      rewrite run_bind, Image_open_run. change (fs w5) with (fs w1). rewrite Hfi.
      unfold Image_resize. mrun. by eexists _, _.
    - rewrite run_ret. by eexists _, _. }
  rewrite run_bind.
  destruct (paste_images_total verbose colorkey process_colorkey grid_cols cs fillr
              ltac:(lia) files 0 (Raster.new transparent (cs * grid_cols) (cs * grid_rows))
              w6) as (res & w7 & ->).
  { by rewrite Hfs6. }
  rewrite run_ret. by eexists _, _.
Qed.

(** X13. Enough for a run to get to line 122 with its canvas: the prompt
    is passed (nothing at the output path, or [y] and the old file
    removed), there is at least one input file and at most
    [grid_rows * grid_cols], [grid_cols] is positive, every input file
    decodes to an image that can serve as its own mask once keyed, and the
    fill file, if one is named, decodes.  The files of the result are the
    sorted input files. *)
Theorem canvas_stage_completes
    (tools : Tools) (directory output : string) (fill : option string) (verbose : bool)
    (colorkey : option (list Z)) (process_colorkey : bool) (grid_rows grid_cols : Z)
    (w w1 : World) :
  confirm_overwrite output w = (Return (), w1) →
  0 < Z.of_nat (length (sorted (glob_png (fs w1) directory))) ≤ grid_rows * grid_cols →
  0 < grid_cols →
  Forall (λ p, ∃ img, decode (fs w1) p = Return img ∧
                      masks_itself (keyed process_colorkey colorkey img))
         (sorted (glob_png (fs w1) directory)) →
  (truthy_str fill = true → ∃ fill_image, decode (fs w1) (default "" fill) = Return fill_image) →
  ∃ L w',
    stitch_images_canvas tools directory output fill verbose colorkey
      process_colorkey grid_rows grid_cols w = (Return L, w') ∧
    image_files L = sorted (glob_png (fs w1) directory).
Proof. apply canvas_stage_total. Qed.

Lemma canvas_stage_completes_witness :
  ∃ L w',
    stitch_images_canvas Sample.tools "in" "out/new.png" (Some "fill.png") false
      (Some [255; 0; 228]) true 1 2 (Sample.world []) = (Return L, w') ∧
    image_files L = sorted (glob_png Sample.files "in").
Proof.
  apply (canvas_stage_completes Sample.tools "in" "out/new.png" (Some "fill.png") false
           (Some [255; 0; 228]) true 1 2 (Sample.world []) (Sample.world [])).
  - reflexivity.
  - vm_compute. split; [reflexivity|discriminate].
  - lia.
  - assert (sorted (glob_png (fs (Sample.world [])) "in") = ["in/a.png"; "in/b.png"])
      as -> by (vm_compute; reflexivity).
    repeat constructor.
    + exists Sample.a_png. split; [vm_compute; reflexivity|discriminate].
    + exists Sample.b_png. split; [vm_compute; reflexivity|discriminate].
  - intros _. exists Sample.fill_png. vm_compute. reflexivity.
Defined.

(** X14. A grid with both numbers negative passes the assertion of line
    80, since their product is positive, and is only rejected by
    [Image.new] in line 93, with [ValueError], after every input file has
    been opened and measured; no file is written. *)
Theorem negative_grid_fails_in_Image_new
    (tools : Tools) (directory output : string) (fill : option string)
    (reduce verbose : bool) (colorkey : option (list Z)) (process_colorkey : bool)
    (grid_rows grid_cols : Z) (w w1 : World) :
  confirm_overwrite output w = (Return (), w1) →
  0 < Z.of_nat (length (sorted (glob_png (fs w1) directory))) ≤ grid_rows * grid_cols →
  grid_cols < 0 →
  Forall (λ p, ∃ img, decode (fs w1) p = Return img)
         (sorted (glob_png (fs w1) directory)) →
  ∃ cs,
    1 ≤ cs ∧
    stitch_images tools directory output fill reduce verbose colorkey
      process_colorkey grid_rows grid_cols w
    = (Raise (ValueError "Width and height must be >= 0"),
       logged w1 ([Call.glob (directory +:+ "/*.png")] ++
                  (Call.open <$> sorted (glob_png (fs w1) directory)) ++
                  [Call.new (cs * grid_cols, cs * grid_rows)])).
Proof.
  intros Hprompt Hn Hcols Hdec.
  destruct (compose_canvas_measured tools directory fill verbose colorkey
              process_colorkey grid_rows grid_cols w1 Hn Hdec) as (cs & Hcs & Hrun).
  exists cs. split; [done|].
  unfold stitch_images, stitch_images_canvas.
  erewrite bind_run_Raise; [reflexivity|].
  rewrite (bind_run_Return _ _ _ _ _ Hprompt), Hrun.
  erewrite bind_run_Raise; [reflexivity|].
  unfold Image_new_RGBA. mrun.
  assert ((cs * grid_cols <? 0) || (cs * grid_rows <? 0) = true) as ->.
  { apply orb_true_iff. left. apply Z.ltb_lt. nia. }
  unfold logged. simpl. by rewrite <- !app_assoc.
Qed.

Lemma negative_grid_fails_in_Image_new_witness :
  ∃ cs,
    1 ≤ cs ∧
    stitch_images Sample.tools "in" "out/new.png" None false false None false (-1) (-2)
      (Sample.world [])
    = (Raise (ValueError "Width and height must be >= 0"),
       logged (Sample.world [])
         ([Call.glob ("in" +:+ "/*.png")] ++
          (Call.open <$> sorted (glob_png (fs (Sample.world [])) "in")) ++
          [Call.new (cs * -2, cs * -1)])).
Proof.
  apply (negative_grid_fails_in_Image_new Sample.tools "in" "out/new.png" None false
           false None false (-1) (-2) (Sample.world []) (Sample.world [])).
  - reflexivity.
  - vm_compute. split; [reflexivity|discriminate].
  - lia.
  - assert (sorted (glob_png (fs (Sample.world [])) "in") = ["in/a.png"; "in/b.png"])
      as -> by (vm_compute; reflexivity).
    repeat constructor.
    + exists Sample.a_png. vm_compute; reflexivity.
    + exists Sample.b_png. vm_compute; reflexivity.
Defined.

(** ** What each cell shows *)

(** The pixels of the cell of an input file, in a run that reaches line
    122. *)
Lemma canvas_cell_px tools directory output fill verbose colorkey process_colorkey
    grid_rows grid_cols w w' L :
  stitch_images_canvas tools directory output fill verbose colorkey
    process_colorkey grid_rows grid_cols w = (Return L, w') →
  ∃ fill_image_resized,
    fill_of tools (fs w') fill (cell_size L) fill_image_resized ∧
    1 ≤ cell_size L ∧ 0 < grid_cols ∧ 0 < grid_rows ∧
    ∀ (i : nat) p img,
      image_files L !! i = Some p →
      decode (fs w') p = Return img →
      let pasted := keyed process_colorkey colorkey img in
      fits (cell_size L) pasted ∧
      Raster.wf (Image.convert_RGBA pasted) = true ∧
      ∀ X Y,
        in_cell grid_cols (cell_size L) (Z.of_nat i) X Y →
        Raster.getpixel (result L) X Y =
        Some (cell_px fill_image_resized pasted
                ((Z.of_nat i mod grid_cols) * cell_size L)
                ((Z.of_nat i / grid_cols) * cell_size L) X Y transparent).
Proof.
  intros Hrun.
  apply stitch_images_canvas_Return in Hrun
    as (w1 & imgs & fillr & _ & Hfs & _ & Hn & Himgs & Hall & _ & Hcw & Hch
        & Hfill & _ & _ & _ & _ & Hpx).
  destruct (run_geometry _ _ _ _ _ _ Hn Himgs Hall Hcw Hch) as (Hcs & Hcols & Hrows).
  pose proof (λ fi, fill_of_fits _ _ _ _ _ fi Hfill) as Hfits.
  rewrite Hfs. exists fillr. split; [done|]. split; [done|]. split; [done|].
  split; [done|].
  intros i p img Hp Hdec pasted.
  destruct (Forall2_lookup_l _ _ _ _ _ Himgs Hp) as (img' & Himg & Hdec').
  assert (img' = img) as -> by congruence.
  pose proof (keyed_fits process_colorkey colorkey _ _ Hall) as Hkfits.
  assert ((keyed process_colorkey colorkey <$> imgs) !! i = Some pasted) as Hpasted
    by by rewrite list_lookup_fmap, Himg.
  split; [exact (Forall_lookup_1 _ _ _ _ Hkfits Hpasted)|].
  split; [apply wf_keyed; by apply decode_Return in Hdec as (? & _)|].
  intros X Y Hin.
  assert (Z.of_nat i < Z.of_nat (length (image_files L))) as Hi.
  { apply lookup_lt_Some in Hp. lia. }
  destruct (cell_on_canvas grid_rows grid_cols (cell_size L) (Z.of_nat i) X Y)
    as [HX HY]; [lia..|done|].
  rewrite Hpx, getpixel_new by done. simpl. f_equal.
  rewrite (loop_px_hit grid_cols (cell_size L) _ Hfits _ 0 i pasted X Y)
    by (done || lia).
  by rewrite Z.add_0_l.
Qed.

(** X15. In a run that reaches line 122 every pixel of the cell of an
    input file is what the two pastes of that one iteration make of a
    transparent pixel: the fill image, if there is one, and over it the
    image of the file under its own mask, both with their upper left
    corner at the corner of the cell.  No other iteration has a part in
    it: an image never reaches into the cell of another. *)
Theorem cell_shows_its_own_image
    (tools : Tools) (directory output : string) (fill : option string) (verbose : bool)
    (colorkey : option (list Z)) (process_colorkey : bool) (grid_rows grid_cols : Z)
    (w w' : World) (L : Locals) :
  stitch_images_canvas tools directory output fill verbose colorkey
    process_colorkey grid_rows grid_cols w = (Return L, w') →
  ∃ fill_image_resized,
    fill_of tools (fs w') fill (cell_size L) fill_image_resized ∧
    ∀ (i : nat) p img X Y,
      image_files L !! i = Some p →
      decode (fs w') p = Return img →
      in_cell grid_cols (cell_size L) (Z.of_nat i) X Y →
      Raster.getpixel (result L) X Y =
      Some (cell_px fill_image_resized (keyed process_colorkey colorkey img)
              ((Z.of_nat i mod grid_cols) * cell_size L)
              ((Z.of_nat i / grid_cols) * cell_size L) X Y transparent).
Proof.
  intros Hrun.
  apply canvas_cell_px in Hrun as (fillr & Hfill & _ & _ & _ & Hcell).
  exists fillr. split; [done|]. intros i p img X Y Hp Hdec Hin.
  by apply (Hcell i p img Hp Hdec).
Qed.

Lemma cell_shows_its_own_image_witness :
  ∃ fill_image_resized,
    fill_of Sample.tools (fs Sample.canvas_run.2) (Some "fill.png")
      (cell_size Sample.locals) fill_image_resized ∧
    Raster.getpixel (result Sample.locals) 2 1 =
    Some (cell_px fill_image_resized
            (keyed true (Some [255; 0; 228]) Sample.b_png)
            ((Z.of_nat 1 mod 2) * cell_size Sample.locals)
            ((Z.of_nat 1 / 2) * cell_size Sample.locals) 2 1 transparent).
Proof.
  assert (stitch_images_canvas Sample.tools "in" "out/new.png" (Some "fill.png") true
            (Some [255; 0; 228]) true 2 2 (Sample.world [])
          = (Return Sample.locals, Sample.canvas_run.2)) as Hrun
    by (vm_compute; reflexivity).
  destruct (cell_shows_its_own_image _ _ _ _ _ _ _ _ _ _ _ _ Hrun)
    as (fillr & Hfill & Hcell).
  exists fillr. split; [exact Hfill|].
  apply (Hcell 1%nat "in/b.png" Sample.b_png 2 1).
  - vm_compute. reflexivity.
  - vm_compute. reflexivity.
  - vm_compute. repeat split; discriminate.
Defined.

(** X16. An image smaller than its cell sits in the upper left corner of
    the cell, neither centred nor scaled: at every place of the cell to
    the right of the image or below it the canvas shows the pixel of the
    resized fill image, or stays transparent when there is no fill. *)
Theorem image_sits_in_the_corner
    (tools : Tools) (directory output : string) (fill : option string) (verbose : bool)
    (colorkey : option (list Z)) (process_colorkey : bool) (grid_rows grid_cols : Z)
    (w w' : World) (L : Locals) :
  stitch_images_canvas tools directory output fill verbose colorkey
    process_colorkey grid_rows grid_cols w = (Return L, w') →
  ∃ fill_image_resized,
    fill_of tools (fs w') fill (cell_size L) fill_image_resized ∧
    ∀ (i : nat) p img dx dy,
      image_files L !! i = Some p →
      decode (fs w') p = Return img →
      0 ≤ dx < cell_size L → 0 ≤ dy < cell_size L →
      (Image.size img).1 ≤ dx ∨ (Image.size img).2 ≤ dy →
      Raster.getpixel (result L)
        ((Z.of_nat i mod grid_cols) * cell_size L + dx)
        ((Z.of_nat i / grid_cols) * cell_size L + dy) =
      match fill_image_resized with
      | Some fill_image => Raster.getpixel (Image.convert_RGBA fill_image) dx dy
      | None => Some transparent
      end ∧
      is_Some (Raster.getpixel (result L)
                 ((Z.of_nat i mod grid_cols) * cell_size L + dx)
                 ((Z.of_nat i / grid_cols) * cell_size L + dy)).
Proof.
  intros Hrun.
  apply canvas_cell_px in Hrun as (fillr & Hfill & Hcs & _ & _ & Hcell).
  exists fillr. split; [done|]. intros i p img dx dy Hp Hdec Hdx Hdy Hout.
  destruct (Hcell i p img Hp Hdec) as (_ & _ & Hpx).
  set (x_pos := Z.of_nat i mod grid_cols * cell_size L) in *.
  set (y_pos := Z.of_nat i / grid_cols * cell_size L) in *.
  assert (Raster.getpixel (result L) (x_pos + dx) (y_pos + dy) =
          match fillr with
          | Some fill_image => Raster.getpixel (Image.convert_RGBA fill_image) dx dy
          | None => Some transparent
          end) as Heq.
  { rewrite Hpx by (unfold in_cell, x_pos, y_pos; lia).
    unfold cell_px. rewrite px_outside.
    2:{ rewrite width_convert_RGBA, height_convert_RGBA, size_keyed. lia. }
    destruct fillr as [fill_image|]; [|done].
    unfold Paste.px.
    replace (x_pos + dx - x_pos) with dx by lia.
    replace (y_pos + dy - y_pos) with dy by lia.
    unfold fill_of in Hfill. destruct (truthy_str fill); [|done].
    destruct Hfill as (fi & _ & Hfi).
    assert (fill_image = resize tools fi (cell_size L, cell_size L)) as ->
      by congruence.
    destruct (getpixel_wf (Image.convert_RGBA (resize tools fi (cell_size L, cell_size L)))
                dx dy) as [fp Hfp].
    - apply wf_resize; lia.
    - rewrite width_convert_RGBA, size_resize. simpl. lia.
    - rewrite height_convert_RGBA, size_resize. simpl. lia.
    - by rewrite Hfp. }
  split; [exact Heq|]. rewrite Hpx by (unfold in_cell, x_pos, y_pos; lia). eauto.
Qed.

Lemma image_sits_in_the_corner_witness :
  ∃ fill_image_resized,
    fill_of Sample.tools (fs Sample.canvas_run.2) (Some "fill.png")
      (cell_size Sample.locals) fill_image_resized ∧
    Raster.getpixel (result Sample.locals)
      ((Z.of_nat 0 mod 2) * cell_size Sample.locals + 1)
      ((Z.of_nat 0 / 2) * cell_size Sample.locals + 1) =
    match fill_image_resized with
    | Some fill_image => Raster.getpixel (Image.convert_RGBA fill_image) 1 1
    | None => Some transparent
    end.
Proof.
  assert (stitch_images_canvas Sample.tools "in" "out/new.png" (Some "fill.png") true
            (Some [255; 0; 228]) true 2 2 (Sample.world [])
          = (Return Sample.locals, Sample.canvas_run.2)) as Hrun
    by (vm_compute; reflexivity).
  destruct (image_sits_in_the_corner _ _ _ _ _ _ _ _ _ _ _ _ Hrun)
    as (fillr & Hfill & Hcell).
  exists fillr. split; [exact Hfill|].
  apply (Hcell 0%nat "in/a.png" Sample.a_png 1 1).
  - vm_compute. reflexivity.
  - vm_compute. reflexivity.
  - vm_compute. split; [discriminate|reflexivity].
  - vm_compute. split; [discriminate|reflexivity].
  - right. vm_compute. discriminate.
Defined.

(** ** Masks that are not all-or-nothing *)

(** One iteration at a pixel of the source image: what lies under it,
    blended with it by the value of the mask there. *)
Lemma cell_px_source fill_image_resized pasted m x_pos y_pos dx dy a sp under out :
  Image.matte pasted = Some m →
  Raster.getpixel m dx dy = Some a →
  Raster.getpixel (Image.convert_RGBA pasted) dx dy = Some sp →
  match fill_image_resized with
  | Some fill_image => Raster.getpixel (Image.convert_RGBA fill_image) dx dy = Some under
  | None => under = out
  end →
  cell_px fill_image_resized pasted x_pos y_pos (x_pos + dx) (y_pos + dy) out =
  Paste.blend_px a under sp.
Proof.
  intros Hm Ha Hsp Hunder. unfold cell_px, Paste.px.
  replace (x_pos + dx - x_pos) with dx by lia.
  replace (y_pos + dy - y_pos) with dy by lia.
  rewrite Hsp, Hm, Ha. destruct fill_image_resized as [fill_image|].
  - by rewrite Hunder.
  - by rewrite Hunder.
Qed.

(** The pixel of the resized fill image at a place of the cell, or the
    transparent pixel where there is no fill. *)
Lemma fill_pixel tools f fill cell_size fill_image_resized dx dy :
  fill_of tools f fill cell_size fill_image_resized →
  0 ≤ dx < cell_size → 0 ≤ dy < cell_size →
  ∃ under,
    match fill_image_resized with
    | Some fill_image => Raster.getpixel (Image.convert_RGBA fill_image) dx dy = Some under
    | None => under = transparent
    end.
Proof.
  intros Hfill Hdx Hdy. destruct fill_image_resized as [fill_image|]; [|by eauto].
  unfold fill_of in Hfill. destruct (truthy_str fill); [|done].
  destruct Hfill as (fi & _ & Hfi).
  assert (fill_image = resize tools fi (cell_size, cell_size)) as -> by congruence.
  apply getpixel_wf.
  - apply wf_resize; lia.
  - rewrite width_convert_RGBA, size_resize. simpl. lia.
  - rewrite height_convert_RGBA, size_resize. simpl. lia.
Qed.




(** X18. A greyscale (mode [L]) source image that is pasted as it is, with
    keying off, is its own mask: the grey level of each pixel is also the
    weight with which it is blended in.  Its black pixels therefore leave
    no trace: where the source is 0 the canvas shows the fill pixel, or
    stays transparent, as if the source pixel were not there. *)
Theorem greyscale_is_masked_by_itself
    (tools : Tools) (directory output : string) (fill : option string) (verbose : bool)
    (colorkey : option (list Z)) (process_colorkey : bool) (grid_rows grid_cols : Z)
    (w w' : World) (L : Locals) :
  process_colorkey && truthy_list colorkey = false →
  stitch_images_canvas tools directory output fill verbose colorkey
    process_colorkey grid_rows grid_cols w = (Return L, w') →
  ∃ fill_image_resized,
    fill_of tools (fs w') fill (cell_size L) fill_image_resized ∧
    ∀ (i : nat) p src dx dy l,
      image_files L !! i = Some p →
      decode (fs w') p = Return (ImL src) →
      Raster.getpixel src dx dy = Some l →
      ∃ under,
        match fill_image_resized with
        | Some fill_image =>
            Raster.getpixel (Image.convert_RGBA fill_image) dx dy = Some under
        | None => under = transparent
        end ∧
        Raster.getpixel (result L)
          ((Z.of_nat i mod grid_cols) * cell_size L + dx)
          ((Z.of_nat i / grid_cols) * cell_size L + dy)
        = Some (Paste.blend_px l under (l, l, l, U8.full)) ∧
        (l = U8.zero →
         Raster.getpixel (result L)
           ((Z.of_nat i mod grid_cols) * cell_size L + dx)
           ((Z.of_nat i / grid_cols) * cell_size L + dy) = Some under).
Proof.
  intros Hoff Hrun.
  apply canvas_cell_px in Hrun as (fillr & Hfill & Hcs & _ & _ & Hcell).
  exists fillr. split; [done|]. intros i p src dx dy l Hp Hdec Hl.
  destruct (Hcell i p (ImL src) Hp Hdec) as ([Hfw Hfh] & _ & Hpx).
  unfold keyed in Hfw, Hfh, Hpx. rewrite Hoff in Hfw, Hfh, Hpx. simpl in Hfw, Hfh.
  pose proof (getpixel_Some_inside _ _ _ _ Hl) as [Hdx Hdy].
  destruct (fill_pixel tools (fs w') fill (cell_size L) fillr dx dy Hfill)
    as [under Hunder]; [lia..|].
  exists under. split; [done|].
  assert (Raster.getpixel (result L)
            (Z.of_nat i mod grid_cols * cell_size L + dx)
            (Z.of_nat i / grid_cols * cell_size L + dy)
          = Some (Paste.blend_px l under (l, l, l, U8.full))) as Heq.
  { rewrite Hpx by (unfold in_cell; lia). f_equal.
    apply (cell_px_source fillr (ImL src) src); [done|done| |done].
    simpl. rewrite getpixel_map. by rewrite Hl. }
  split; [done|]. intros ->. by rewrite Heq, blend_px_zero.
Qed.

Lemma greyscale_is_masked_by_itself_witness :
  ∃ fill_image_resized under,
    match fill_image_resized with
    | Some fill_image => Raster.getpixel (Image.convert_RGBA fill_image) 0 0 = Some under
    | None => under = transparent
    end ∧
    Raster.getpixel (result Cases.grey_locals)
      ((Z.of_nat 0 mod 2) * cell_size Cases.grey_locals + 0)
      ((Z.of_nat 0 / 2) * cell_size Cases.grey_locals + 0) = Some under.
Proof.
  assert (stitch_images_canvas Sample.tools "in" "out/new.png" None false None false 1 2
            (mkWorld Cases.grey_files [] [] [])
          = (Return Cases.grey_locals, Cases.grey_run.2)) as Hrun
    by (vm_compute; reflexivity).
  destruct (greyscale_is_masked_by_itself Sample.tools "in" "out/new.png" None false None
              false 1 2 _ _ _ eq_refl Hrun) as (fillr & _ & Hgrey).
  destruct (Hgrey 0%nat "in/a.png" Cases.grey 0 0 Byte.x00) as (under & Hunder & _ & Hblack).
  - vm_compute. reflexivity.
  - vm_compute. reflexivity.
  - vm_compute. reflexivity.
  - exists fillr, under. split; [exact Hunder|exact (Hblack eq_refl)].
Defined.

(** ** The input files *)

Lemma decode_Return_stat f path im :
  decode f path = Return im → FS.stat f path = Some (File (Png im)).
Proof.
  unfold decode. destruct (FS.stat f path) as [[|[im'|]]|]; try done.
  - destruct (decodable im'); [|done]. by intros [= <-].
  - by destruct (FS.is_root path).
Qed.

(** X19. In a run that reaches line 122 every path that matches
    [directory/*.png] names a PNG file that could be decoded, so that a
    directory or a file of another kind with such a name ends the run
    before; and the output path is not among the inputs, even if it lies
    in the input directory and ends in [.png]: what was there has been
    removed before the directory is listed. *)
Theorem inputs_are_png_files
    (tools : Tools) (directory output : string) (fill : option string) (verbose : bool)
    (colorkey : option (list Z)) (process_colorkey : bool) (grid_rows grid_cols : Z)
    (w w' : World) (L : Locals) :
  stitch_images_canvas tools directory output fill verbose colorkey
    process_colorkey grid_rows grid_cols w = (Return L, w') →
  FS.stat (fs w') output = None ∧
  ∀ p, p ∈ glob_png (fs w') directory →
    p ∈ image_files L ∧ p ≠ output ∧
    ∃ img, FS.stat (fs w') p = Some (File (Png img)) ∧ decodable img = true.
Proof.
  intros Hrun.
  apply stitch_images_canvas_Return in Hrun
    as (w1 & imgs & fillr & Hprompt & Hfs & Hfiles & _ & Himgs & _).
  apply confirm_overwrite_Return in Hprompt as [Hout _].
  rewrite Hfs. split; [done|]. intros p Hp.
  assert (p ∈ image_files L) as Hin.
  { rewrite Hfiles. unfold sorted. by rewrite merge_sort_Permutation. }
  split; [done|].
  apply list_elem_of_lookup in Hin as [k Hk].
  destruct (Forall2_lookup_l _ _ _ _ _ Himgs Hk) as (img & _ & Hdec).
  pose proof (decode_Return_stat _ _ _ Hdec) as Hstat.
  split; [intros ->; congruence|]. exists img. split; [done|].
  unfold decode in Hdec. rewrite Hstat in Hdec. by destruct (decodable img).
Qed.

Lemma inputs_are_png_files_witness :
  FS.stat (fs Sample.canvas_run.2) "out/new.png" = None ∧
  "in/a.png" ∈ image_files Sample.locals.
Proof.
  assert (stitch_images_canvas Sample.tools "in" "out/new.png" (Some "fill.png") true
            (Some [255; 0; 228]) true 2 2 (Sample.world [])
          = (Return Sample.locals, Sample.canvas_run.2)) as Hrun
    by (vm_compute; reflexivity).
  destruct (inputs_are_png_files _ _ _ _ _ _ _ _ _ _ _ _ Hrun) as [Hout Hall].
  split; [exact Hout|].
  apply (Hall "in/a.png"). vm_compute. left.
Defined.

(** X20. A fill file that cannot be decoded ends the run in line 97,
    after every input file has been opened and measured and the canvas
    has been allocated, and before anything is pasted; no file has been
    written by then. *)
Theorem bad_fill_fails_after_the_canvas
    (tools : Tools) (directory output : string) (fill : option string)
    (reduce verbose : bool) (colorkey : option (list Z)) (process_colorkey : bool)
    (grid_rows grid_cols : Z) (w w1 : World) (e : exn) :
  confirm_overwrite output w = (Return (), w1) →
  0 < Z.of_nat (length (sorted (glob_png (fs w1) directory))) ≤ grid_rows * grid_cols →
  0 < grid_cols →
  Forall (λ p, ∃ img, decode (fs w1) p = Return img)
         (sorted (glob_png (fs w1) directory)) →
  truthy_str fill = true →
  decode (fs w1) (default "" fill) = Raise e →
  ∃ cs,
    1 ≤ cs ∧
    stitch_images tools directory output fill reduce verbose colorkey
      process_colorkey grid_rows grid_cols w
    = (Raise e,
       logged w1 ([Call.glob (directory +:+ "/*.png")] ++
                  (Call.open <$> sorted (glob_png (fs w1) directory)) ++
                  [Call.new (cs * grid_cols, cs * grid_rows);
                   Call.open (default "" fill)])).
Proof.
  intros Hprompt Hn Hcols Hdec Hfill Hbad.
  destruct (compose_canvas_measured tools directory fill verbose colorkey
              process_colorkey grid_rows grid_cols w1 Hn Hdec) as (cs & Hcs & Hrun).
  exists cs. split; [done|].
  unfold stitch_images, stitch_images_canvas.
  erewrite bind_run_Raise; [reflexivity|].
  rewrite (bind_run_Return _ _ _ _ _ Hprompt), Hrun.
  assert (0 < grid_rows) as Hrows by nia.
  rewrite run_bind. unfold Image_new_RGBA at 1. rewrite run_bind. unfold called at 1.
  cbn [fst snd].
  assert ((cs * grid_cols <? 0) || (cs * grid_rows <? 0) = false) as ->.
  { apply orb_false_iff. split; apply Z.ltb_ge; nia. }
  rewrite run_ret. erewrite bind_run_Raise; [reflexivity|].
  rewrite Hfill. erewrite bind_run_Raise; [reflexivity|].
  rewrite Image_open_run. cbn [fs logged]. rewrite Hbad.
  unfold logged. cbn [fs stdin stdout calls]. by rewrite <- !app_assoc.
Qed.

Lemma bad_fill_fails_after_the_canvas_witness :
  ∃ cs,
    1 ≤ cs ∧
    stitch_images Sample.tools "in" "out/new.png" (Some "in/notes.txt") false false None
      false 1 2 (Sample.world [])
    = (Raise (UnidentifiedImageError "in/notes.txt"),
       logged (Sample.world [])
         ([Call.glob ("in" +:+ "/*.png")] ++
          (Call.open <$> sorted (glob_png (fs (Sample.world [])) "in")) ++
          [Call.new (cs * 2, cs * 1); Call.open "in/notes.txt"])).
Proof.
  apply (bad_fill_fails_after_the_canvas Sample.tools "in" "out/new.png"
           (Some "in/notes.txt") false false None false 1 2
           (Sample.world []) (Sample.world [])).
  - reflexivity.
  - vm_compute. split; [reflexivity|discriminate].
  - lia.
  - assert (sorted (glob_png (fs (Sample.world [])) "in") = ["in/a.png"; "in/b.png"])
      as -> by (vm_compute; reflexivity).
    repeat constructor.
    + exists Sample.a_png. vm_compute; reflexivity.
    + exists Sample.b_png. vm_compute; reflexivity.
  - reflexivity.
  - vm_compute. reflexivity.
Defined.

(** ** Paths without a directory part, and the command line *)

Lemma rstrip_sep_empty s : Text.rstrip_sep s = "" → Text.all_sep s = true.
Proof.
  induction s as [|c s IH]; [done|]. simpl.
  destruct (Text.rstrip_sep s) eqn:Hs; [|done].
  destruct (Text.is_sep c); [|done]. intros _. by apply IH.
Qed.

Lemma cut_last_sep_no_sep p :
  Text.has_sep p = false → Text.cut_last_sep p = ("", p).
Proof.
  destruct p as [|c p]; [done|]. simpl.
  intros [Hc Hp]%orb_false_iff. by rewrite Hp, Hc.
Qed.

(** A path has an empty directory part exactly when it holds no slash. *)
Lemma dirname_empty_spec (p : string) :
  posixpath.dirname p = "" ↔ Text.has_sep p = false.
Proof.
  unfold posixpath.dirname, posixpath.split. split.
  - intros Hdir. destruct (Text.has_sep p) eqn:Hsep; [|done]. exfalso.
    pose proof (cut_last_sep_head p Hsep) as Hhead.
    destruct (Text.cut_last_sep p) as [h t]; simpl in *.
    rewrite bool_decide_eq_false_2 in Hdir by done. simpl in Hdir.
    destruct (Text.all_sep h) eqn:Hall; simpl in Hdir; [done|].
    apply rstrip_sep_empty in Hdir. congruence.
  - intros Hsep. by rewrite cut_last_sep_no_sep.
Qed.

(** X21. [os.path.dirname] of the output path is empty exactly when the
    path holds no slash.  These are the output paths for which line 124
    calls [os.makedirs('')], which fails: with a bare file name such as
    [output.png] lines 124-138 write nothing, with [./output.png] they
    have a directory to make. *)
Theorem dirname_empty_iff_no_slash (tools : Tools) (output : string)
    (reduce verbose : bool) (result : Raster rgba) (w : World) :
  (posixpath.dirname output = "" ↔ Text.has_sep output = false) ∧
  (Text.has_sep output = false →
   finish tools output reduce verbose result w
   = (Raise (FileNotFoundError ""), logged w [Call.makedirs ""])).
Proof.
  split; [apply dirname_empty_spec|]. intros Hsep. unfold finish.
  rewrite (proj2 (dirname_empty_spec output) Hsep).
  by rewrite (bind_run_Raise _ _ _ _ _ (os_makedirs_empty w)).
Qed.

Lemma join_empty b : Text.has_sep b = false → posixpath.join "" b = b.
Proof.
  intros Hb. unfold posixpath.join.
  assert (Text.startswith b "/" = false) as ->.
  { destruct b as [|c b]; [done|]. simpl in Hb.
    apply orb_false_iff in Hb as [Hc _]. unfold Text.startswith.
    unfold Text.is_sep in Hc. apply bool_decide_eq_false in Hc.
    cbn [String.prefix]. destruct (Ascii.ascii_dec "/" c) as [<-|]; done. }
  by rewrite bool_decide_eq_true_2.
Qed.

(** X22. The command line writes next to the script: the output path is
    [args.out_file] joined to the directory of [__file__].  When the
    script is named without a directory and [out_file] holds no slash
    either, as with the default [output.png], the output path has no
    directory part, and no run of the program returns: whatever gets to
    line 124 ends there in [FileNotFoundError]. *)
Theorem cli_bare_paths_never_return
    (tools : Tools) (file : string) (args : CLI.Namespace) (w : World) :
  Text.has_sep file = false →
  Text.has_sep (CLI.out_file args) = false →
  CLI.output_path file args = CLI.out_file args ∧
  ∃ e w', CLI.main tools file args w = (Raise e, w').
Proof.
  intros Hfile Hout.
  assert (CLI.output_path file args = CLI.out_file args) as Hpath.
  { unfold CLI.output_path.
    rewrite (proj2 (dirname_empty_spec file) Hfile). by apply join_empty. }
  split; [done|]. unfold CLI.main. rewrite Hpath.
  set (output := CLI.out_file args) in *.
  unfold stitch_images. rewrite run_bind.
  destruct (stitch_images_canvas tools (CLI.dir_path args) output (CLI.fill args)
              (CLI.verbose args) (Some (CLI.colorkey args)) (CLI.process_colorkey args)
              (CLI.grid_rows args) (CLI.grid_cols args) w) as [[L|e] w1] eqn:Hcanvas.
  - unfold finish.
    rewrite (proj2 (dirname_empty_spec output) Hout).
    rewrite (bind_run_Raise _ _ _ _ _ (os_makedirs_empty w1)).
    by eexists _, _.
  - by eexists _, _.
Qed.

Lemma cli_bare_paths_never_return_witness :
  CLI.output_path "image_stitch.py" CLI.defaults = "output.png" ∧
  ∃ e w', CLI.main Sample.tools "image_stitch.py" CLI.defaults (Sample.world [])
          = (Raise e, w').
Proof.
  exact (cli_bare_paths_never_return Sample.tools "image_stitch.py" CLI.defaults
           (Sample.world []) eq_refl eq_refl).
Defined.

Lemma dirname_empty_iff_no_slash_witness :
  finish Sample.tools "output.png" false false (mkRaster 0 0 []) (Sample.world [])
  = (Raise (FileNotFoundError ""), logged (Sample.world []) [Call.makedirs ""]).
Proof.
  exact (proj2 (dirname_empty_iff_no_slash Sample.tools "output.png" false false
                  (mkRaster 0 0 []) (Sample.world [])) eq_refl).
Defined.

(** ** The directory of the output *)

(** After [os.makedirs], lines 126-138 touch the output path and
    [temp.png] only. *)
Lemma finish_after_makedirs tools output reduce verbose result w o w' :
  FS.exists_ (fs w) output = false →
  finish tools output reduce verbose result w = (o, w') →
  ∃ o1 v,
    os_makedirs (posixpath.dirname output) w = (o1, v) ∧
    (o = Return () → o1 = Return () ∧ FS.isdir (fs v) "temp.png" = false) ∧
    ∀ k, k ≠ output → k ≠ "temp.png" → FS.stat (fs w') k = FS.stat (fs v) k.
Proof.
  intros Hex H.
  assert (FS.is_root output = false ∧ FS.stat (fs w) output = None) as [Hroot Hout].
  { unfold FS.exists_ in Hex. apply orb_false_iff in Hex as [? Hex].
    split; [done|]. by destruct (FS.stat (fs w) output). }
  unfold finish in H. cbv zeta in H. rewrite run_bind in H.
  destruct (os_makedirs (posixpath.dirname output) w) as [[[]|e1] v] eqn:Hmk.
  2:{ injection H as <- <-. exists (Raise e1), v. done. }
  exists (Return ()), v. split; [done|].
  pose proof (os_makedirs_dirname _ _ _ _ Hmk) as [_ Hout1]. rewrite Hout in Hout1.
  rewrite run_bind in H.
  destruct (Image_save result "temp.png" v) as [[[]|e2] w2] eqn:Hsave.
  2:{ injection H as <- <-. apply Image_save_run in Hsave. simpl in Hsave.
      split; [done|]. intros k _ _. by rewrite Hsave. }
  assert (FS.isdir (fs v) "temp.png" = false) as Hnodir.
  { revert Hsave. unfold Image_save. mrun.
    by destruct (FS.isdir (fs v) "temp.png"). }
  split; [done|].
  apply Image_save_run in Hsave. simpl in Hsave.
  assert (FS.stat (fs w2) "temp.png" = Some (canvas_file result)) as Htemp2
    by (rewrite Hsave, stat_insert_eq by done; done).
  assert (∀ k, k ≠ "temp.png" → FS.stat (fs w2) k = FS.stat (fs v) k) as Hsame2
    by (intros k Hk; rewrite Hsave, stat_insert_ne by done; done).
  assert (FS.isdir (fs w2) output = false) as Hdir2.
  { unfold FS.isdir. rewrite Hroot. simpl.
    destruct (decide (output = "temp.png")) as [->|Hne]; [by rewrite Htemp2|].
    by rewrite Hsame2, Hout1. }
  assert (FS.is_root "temp.png" = false) as Htroot by done.
  rewrite run_bind in H.
  assert (∃ o3 w3,
            (if reduce
             then (if verbose then print "Reducing file size with pngquant"
                   else mret ());;
                  subprocess_run_pngquant tools output "temp.png"
             else shutil_move "temp.png" output) w2 = (o3, w3) ∧
            ∀ k, k ≠ output → k ≠ "temp.png" → FS.stat (fs w3) k = FS.stat (fs w2) k)
    as (o3 & w3 & Hwrite & Hsame3).
  { destruct reduce.
    - rewrite run_bind.
      destruct (optional_print_run verbose "Reducing file size with pngquant" w2)
        as (w2' & -> & Hfs2' & _).
      destruct (subprocess_run_pngquant tools output "temp.png" w2') as [o3 w3] eqn:Hq.
      exists o3, w3. split; [done|]. intros k Hk1 Hk2.
      apply subprocess_run_pngquant_run in Hq as [->|(_ & _ & im & ->)].
      + by rewrite Hfs2'.
      + by rewrite stat_insert_ne, Hfs2'.
    - destruct (shutil_move "temp.png" output w2) as [o3 w3] eqn:Hmove.
      exists o3, w3. split; [done|]. intros k Hk1 Hk2.
      apply (shutil_move_step _ _ _ _ _ _ Htemp2 Hdir2) in Hmove as [_ Hfs3].
      destruct o3 as [[]|e3]; [|by rewrite Hfs3].
      destruct Hfs3 as [-> _]. by rewrite stat_insert_ne, stat_delete_ne. }
  rewrite Hwrite in H. destruct o3 as [[]|e3].
  2:{ injection H as <- <-. intros k Hk1 Hk2. rewrite Hsame3 by done. by apply Hsame2. }
  pose proof (cleanup_run "temp.png" w3 o w' Htroot H) as Hclean.
  intros k Hk1 Hk2. rewrite <- Hsame2, <- Hsame3 by done.
  destruct (FS.stat (fs w3) "temp.png") as [[|c]|].
  - by rewrite Hclean.
  - destruct Hclean as (_ & -> & _). by rewrite stat_delete_ne.
  - by destruct Hclean as [_ ->].
Qed.

(** X23. A run that returns leaves the directory of the output path in
    place: line 124 has made it, with the directories above it, if it
    was not there ([.] as its last component apart, which the model of
    paths does not resolve), and nothing after line 124 removes it. *)
Theorem output_directory_is_made
    (tools : Tools) (directory output : string) (fill : option string)
    (reduce verbose : bool) (colorkey : option (list Z)) (process_colorkey : bool)
    (grid_rows grid_cols : Z) (w w' : World) :
  FS.is_root output = false →
  last_component (posixpath.dirname output) ≠ "." →
  stitch_images tools directory output fill reduce verbose colorkey
    process_colorkey grid_rows grid_cols w = (Return (), w') →
  FS.isdir (fs w') (posixpath.dirname output) = true.
Proof.
  intros Hroot Hlast H.
  apply stitch_images_stages in H as [(e & ? & _)|(L & w1 & Hcanvas & Hex & H)];
    [done| |done].
  apply finish_after_makedirs in H as (o1 & v & Hmk & Hret & Hsame); [|done].
  destruct (Hret eq_refl) as [-> Htemp].
  pose proof (os_makedirs_dirname _ _ _ _ Hmk) as [_ Hout].
  apply os_makedirs_Return in Hmk as Hdir; [|done].
  set (d := posixpath.dirname output) in *.
  assert (d ≠ output) as Hd1.
  { intros Heq. unfold FS.exists_ in Hex. apply orb_false_iff in Hex as [_ Hex].
    unfold FS.isdir in Hdir. rewrite Heq, Hroot, Hout in Hdir. simpl in Hdir.
    by destruct (FS.stat (fs w1) output) as [[]|]. }
  assert (d ≠ "temp.png") as Hd2 by (intros Heq; congruence).
  unfold FS.isdir in *. by rewrite Hsame.
Qed.

Lemma output_directory_is_made_witness :
  FS.stat (fs (Sample.world [])) "new/dir" = None ∧
  FS.isdir (fs (stitch_images Sample.tools "in" "new/dir/out.png" None false false None
                  false 1 2 (Sample.world [])).2) (posixpath.dirname "new/dir/out.png")
  = true.
Proof.
  split; [reflexivity|].
  apply (output_directory_is_made Sample.tools "in" "new/dir/out.png" None false false
           None false 1 2 (Sample.world [])).
  - reflexivity.
  - vm_compute. discriminate.
  - vm_compute. reflexivity.
Defined.

(** ** Keying, end to end *)

Lemma keyed_on_masks_itself process_colorkey colorkey img :
  process_colorkey && truthy_list colorkey = true →
  masks_itself (keyed process_colorkey colorkey img).
Proof.
  intros Hon. unfold masks_itself, keyed. rewrite Hon, chroma_key_raster. done.
Qed.

(** X24. With keying active ([process_colorkey] set and a non-empty
    [colorkey]) every image is converted to RGBA before it is pasted, so
    that inputs of every mode, RGB ones too, can be pasted under
    themselves: the canvas stage returns as soon as the prompt is passed,
    the grid has room, [grid_cols] is positive and the input files and
    the fill file decode. *)
Theorem keying_admits_every_mode
    (tools : Tools) (directory output : string) (fill : option string) (verbose : bool)
    (colorkey : option (list Z)) (process_colorkey : bool) (grid_rows grid_cols : Z)
    (w w1 : World) :
  process_colorkey && truthy_list colorkey = true →
  confirm_overwrite output w = (Return (), w1) →
  0 < Z.of_nat (length (sorted (glob_png (fs w1) directory))) ≤ grid_rows * grid_cols →
  0 < grid_cols →
  Forall (λ p, ∃ img, decode (fs w1) p = Return img)
         (sorted (glob_png (fs w1) directory)) →
  (truthy_str fill = true → ∃ fill_image, decode (fs w1) (default "" fill) = Return fill_image) →
  ∃ L w',
    stitch_images_canvas tools directory output fill verbose colorkey
      process_colorkey grid_rows grid_cols w = (Return L, w') ∧
    image_files L = sorted (glob_png (fs w1) directory).
Proof.
  intros Hon Hprompt Hn Hcols Hdec Hfill.
  apply (canvas_stage_total tools directory output fill verbose colorkey
           process_colorkey grid_rows grid_cols w w1); try done.
  eapply Forall_impl; [exact Hdec|]. intros p [img Himg].
  exists img. split; [done|]. by apply keyed_on_masks_itself.
Qed.

Lemma keying_admits_every_mode_witness :
  ∃ L w',
    stitch_images_canvas Sample.tools "in" "out/new.png" None false
      (Some [255; 0; 228]) true 1 2 (mkWorld Cases.rgb_files [] [] [])
    = (Return L, w') ∧
    image_files L = sorted (glob_png Cases.rgb_files "in").
Proof.
  apply (keying_admits_every_mode Sample.tools "in" "out/new.png" None false
           (Some [255; 0; 228]) true 1 2 (mkWorld Cases.rgb_files [] [] [])
           (mkWorld Cases.rgb_files [] [] [])).
  - reflexivity.
  - reflexivity.
  - vm_compute. split; [reflexivity|discriminate].
  - lia.
  - assert (sorted (glob_png (fs (mkWorld Cases.rgb_files [] [] [])) "in")
            = ["in/a.png"; "in/b.png"]) as -> by (vm_compute; reflexivity).
    repeat constructor.
    + exists Sample.fill_png. vm_compute; reflexivity.
    + exists Sample.b_png. vm_compute; reflexivity.
  - discriminate.
Defined.

(** X25. What keying is for: with keying active, wherever a source
    pixel, as converted to RGBA, has the three colour bands of the key,
    the canvas shows what lies under the image there, whatever the alpha
    of the source pixel was: the pixel of the resized fill image, or the
    transparent pixel when there is no fill. *)
Theorem keyed_pixels_show_the_fill
    (tools : Tools) (directory output : string) (fill : option string) (verbose : bool)
    (colorkey : list Z) (grid_rows grid_cols : Z) (w w' : World) (L : Locals) :
  colorkey ≠ [] →
  stitch_images_canvas tools directory output fill verbose (Some colorkey)
    true grid_rows grid_cols w = (Return L, w') →
  ∃ fill_image_resized,
    fill_of tools (fs w') fill (cell_size L) fill_image_resized ∧
    ∀ (i : nat) p img dx dy r g b a,
      image_files L !! i = Some p →
      decode (fs w') p = Return img →
      Raster.getpixel (Image.convert_RGBA img) dx dy = Some (r, g, b, a) →
      [U8.to_Z r; U8.to_Z g; U8.to_Z b] = colorkey →
      ∃ under,
        match fill_image_resized with
        | Some fill_image =>
            Raster.getpixel (Image.convert_RGBA fill_image) dx dy = Some under
        | None => under = transparent
        end ∧
        Raster.getpixel (result L)
          ((Z.of_nat i mod grid_cols) * cell_size L + dx)
          ((Z.of_nat i / grid_cols) * cell_size L + dy) = Some under.
Proof.
  intros Hkey Hrun.
  apply canvas_cell_px in Hrun as (fillr & Hfill & Hcs & _ & _ & Hcell).
  exists fillr. split; [done|]. intros i p img dx dy r g b a Hp Hdec Hsp Hmatch.
  destruct (Hcell i p img Hp Hdec) as ([Hfw Hfh] & _ & Hpx).
  rewrite size_keyed in Hfw, Hfh.
  assert (keyed true (Some colorkey) img
          = ImRGBA (Raster.map (key_pixel colorkey) (Image.convert_RGBA img))) as Hkeyed.
  { unfold keyed. destruct colorkey; [done|]. simpl. apply chroma_key_raster. }
  rewrite Hkeyed in Hpx.
  pose proof (getpixel_Some_inside _ _ _ _ Hsp) as [Hdx Hdy].
  rewrite width_convert_RGBA in Hdx. rewrite height_convert_RGBA in Hdy.
  destruct (fill_pixel tools (fs w') fill (cell_size L) fillr dx dy Hfill)
    as [under Hunder]; [lia..|].
  exists under. split; [done|].
  rewrite Hpx by (unfold in_cell; lia). f_equal.
  rewrite <- (blend_px_zero under transparent).
  apply (cell_px_source fillr _
           (Raster.map (λ '(_, _, _, a), a)
              (Raster.map (key_pixel colorkey) (Image.convert_RGBA img))));
    [done| | |done].
  - rewrite !getpixel_map.
    assert (∀ o : option rgba, o = Some (r, g, b, a) →
              (λ '(_, _, _, a), a) <$> (key_pixel colorkey <$> o) = Some U8.zero)
      as Hband.
    { intros o ->. simpl. by rewrite bool_decide_eq_true_2. }
    apply Hband, Hsp.
  - simpl. rewrite getpixel_map.
    assert (∀ o : option rgba, o = Some (r, g, b, a) →
              key_pixel colorkey <$> o = Some transparent) as Hpix.
    { intros o ->. simpl. by rewrite bool_decide_eq_true_2. }
    apply Hpix, Hsp.
Qed.

Lemma keyed_pixels_show_the_fill_witness :
  ∃ fill_image_resized under,
    match fill_image_resized with
    | Some fill_image => Raster.getpixel (Image.convert_RGBA fill_image) 1 0 = Some under
    | None => under = transparent
    end ∧
    Raster.getpixel (result Sample.locals)
      ((Z.of_nat 0 mod 2) * cell_size Sample.locals + 1)
      ((Z.of_nat 0 / 2) * cell_size Sample.locals + 0) = Some under.
Proof.
  assert (stitch_images_canvas Sample.tools "in" "out/new.png" (Some "fill.png") true
            (Some [255; 0; 228]) true 2 2 (Sample.world [])
          = (Return Sample.locals, Sample.canvas_run.2)) as Hrun
    by (vm_compute; reflexivity).
  destruct (keyed_pixels_show_the_fill Sample.tools "in" "out/new.png" (Some "fill.png")
              true [255; 0; 228] 2 2 _ _ _ ltac:(discriminate) Hrun)
    as (fillr & _ & Hkeyed).
  destruct (Hkeyed 0%nat "in/a.png" Sample.a_png 1 0
              Byte.xff Byte.x00 Byte.xe4 Byte.xff) as (under & Hunder & Hpx).
  - vm_compute. reflexivity.
  - vm_compute. reflexivity.
  - vm_compute. reflexivity.
  - vm_compute. reflexivity.
  - exists fillr, under. split; [exact Hunder|exact Hpx].
Defined.

(** ** The library calls of the canvas stage *)

Lemma confirm_overwrite_calls output w w1 :
  confirm_overwrite output w = (Return (), w1) →
  calls w1 = calls w ++
             (if FS.exists_ (fs w) output then [Call.remove output] else []).
Proof.
  unfold confirm_overwrite, os_path_exists. mrun.
  destruct (FS.exists_ (fs w) output).
  - mrun. unfold input. destruct (stdin w) as [|response rest]; [done|].
    destruct (bool_decide (Text.lower response = "y")); mrun; [|done].
    unfold os_remove. mrun. repeat case_match; try done; by intros [= <-].
  - mrun. intros [= <-]. by rewrite app_nil_r.
Qed.

(** X26. The library calls of a run up to line 122, in order: the
    removal of the old output, if there was one; the [glob]; one
    [Image.open] for each input file (the first loop); [Image.new] for
    the canvas; [Image.open] and [resize] for the fill image, if one is
    named; and then for each input file in turn a second [Image.open],
    the paste of the fill image, if any, and the paste of the image under
    itself.  Every input file is thus opened exactly twice, and nothing
    else is called. *)
Theorem canvas_stage_calls
    (tools : Tools) (directory output : string) (fill : option string) (verbose : bool)
    (colorkey : option (list Z)) (process_colorkey : bool) (grid_rows grid_cols : Z)
    (w w' : World) (L : Locals) :
  stitch_images_canvas tools directory output fill verbose colorkey
    process_colorkey grid_rows grid_cols w = (Return L, w') →
  ∃ imgs fill_image_resized,
    Forall2 (λ p img, decode (fs w') p = Return img) (image_files L) imgs ∧
    fill_of tools (fs w') fill (cell_size L) fill_image_resized ∧
    calls w' =
    calls w ++
    (if FS.exists_ (fs w) output then [Call.remove output] else []) ++
    [Call.glob (directory +:+ "/*.png")] ++
    (Call.open <$> image_files L) ++
    [Call.new (cell_size L * grid_cols, cell_size L * grid_rows)] ++
    (if truthy_str fill
     then [Call.open (default "" fill); Call.resize (cell_size L, cell_size L)]
     else []) ++
    loop_calls grid_cols (cell_size L) fill_image_resized 0
      (zip (image_files L) (keyed process_colorkey colorkey <$> imgs)).
Proof.
  intros Hrun. unfold stitch_images_canvas in Hrun.
  apply bind_Return in Hrun as ([] & w1 & Hprompt & Hrun).
  apply confirm_overwrite_calls in Hprompt.
  apply compose_canvas_Return_loop in Hrun
    as (fillr & w6 & Hw6 & Hfill & Hfs6 & _ & _ & _ & Hloop).
  apply paste_images_Return in Hloop
    as (Hfs7 & _ & _ & _ & imgs & Himgs & Hcalls & _).
  exists imgs, fillr. rewrite Hfs7, Hfs6.
  split; [by rewrite <- Hfs6|]. split; [done|].
  rewrite Hcalls, Hw6. unfold logged. cbn [calls]. rewrite Hprompt.
  by rewrite <- !app_assoc.
Qed.

Lemma canvas_stage_calls_witness :
  ∃ imgs fill_image_resized,
    calls Sample.canvas_run.2 =
    [] ++ [] ++ [Call.glob ("in" +:+ "/*.png")] ++
    (Call.open <$> image_files Sample.locals) ++
    [Call.new (cell_size Sample.locals * 2, cell_size Sample.locals * 2)] ++
    [Call.open "fill.png"; Call.resize (cell_size Sample.locals, cell_size Sample.locals)] ++
    loop_calls 2 (cell_size Sample.locals) fill_image_resized 0
      (zip (image_files Sample.locals) (keyed true (Some [255; 0; 228]) <$> imgs)).
Proof.
  assert (stitch_images_canvas Sample.tools "in" "out/new.png" (Some "fill.png") true
            (Some [255; 0; 228]) true 2 2 (Sample.world [])
          = (Return Sample.locals, Sample.canvas_run.2)) as Hrun
    by (vm_compute; reflexivity).
  destruct (canvas_stage_calls _ _ _ _ _ _ _ _ _ _ _ _ Hrun)
    as (imgs & fillr & _ & _ & Hcalls).
  exists imgs, fillr. exact Hcalls.
Defined.

(** ** The canvas and the placement, on the pixels *)

Lemma fill_of_unique tools f fill cell_size a b :
  fill_of tools f fill cell_size a → fill_of tools f fill cell_size b → a = b.
Proof.
  unfold fill_of. destruct (truthy_str fill); [|congruence].
  intros (fi & Hfi & ->) (fi' & Hfi' & ->).
  assert (fi = fi') as -> by congruence. done.
Qed.

(** C5. In a run that reaches line 122 the canvas is an RGBA raster of
    exactly [grid_cols * cell_size] by [grid_rows * cell_size] pixels with
    a full buffer, whatever the number of images; it was allocated by a
    call of [Image.new('RGBA', ...)] with this size, whose pixels are all
    (0, 0, 0, 0).  The canvas of the result is what the loop of lines
    100-122 returns when it is started on that fresh, fully transparent
    raster: every pixel of the result is what the pastes of the decoded
    input images and of the resized fill image have made of the
    transparent pixel, and every pixel of the result that lies in the
    cell of no input image is still (0, 0, 0, 0). *)
Theorem canvas_dimensions
    (tools : Tools) (directory output : string) (fill : option string) (verbose : bool)
    (colorkey : option (list Z)) (process_colorkey : bool) (grid_rows grid_cols : Z)
    (w w' : World) (L : Locals) :
  stitch_images_canvas tools directory output fill verbose colorkey
    process_colorkey grid_rows grid_cols w = (Return L, w') →
  width (result L) = grid_cols * cell_size L ∧
  height (result L) = grid_rows * cell_size L ∧
  Z.of_nat (length (data (result L))) = width (result L) * height (result L) ∧
  (∃ new, calls w' = calls w ++ new ∧
          Call.new (width (result L), height (result L)) ∈ new) ∧
  (∀ X Y, 0 ≤ X < width (result L) → 0 ≤ Y < height (result L) →
          Raster.getpixel
            (Raster.new transparent (width (result L)) (height (result L))) X Y
          = Some transparent) ∧
  ∃ imgs fill_image_resized w6,
    Forall2 (λ p img, decode (fs w') p = Return img) (image_files L) imgs ∧
    fill_of tools (fs w') fill (cell_size L) fill_image_resized ∧
    paste_images verbose colorkey process_colorkey grid_cols (cell_size L)
      fill_image_resized 0 (image_files L)
      (Raster.new transparent (width (result L)) (height (result L))) w6
    = (Return (result L), w') ∧
    (∀ X Y, 0 ≤ X < width (result L) → 0 ≤ Y < height (result L) →
            Raster.getpixel (result L) X Y =
            Some (loop_px grid_cols (cell_size L) fill_image_resized 0
                    (keyed process_colorkey colorkey <$> imgs) X Y transparent)) ∧
    (∀ X Y, 0 ≤ X < width (result L) → 0 ≤ Y < height (result L) →
            (∀ j, 0 ≤ j < Z.of_nat (length (image_files L)) →
                  ¬ in_cell grid_cols (cell_size L) j X Y) →
            Raster.getpixel (result L) X Y = Some transparent).
Proof.
  intros Hrun.
  pose proof (canvas_allocation _ _ _ _ _ _ _ _ _ _ _ _ Hrun)
    as (Hw & Hh & Hlen & Hnew & Hfresh & _).
  split; [done|]. split; [done|]. split; [done|]. split; [done|]. split; [done|].
  pose proof Hrun as Hhub.
  apply stitch_images_canvas_Return in Hhub
    as (w1 & imgs & fillr & Hprompt & Hfs & _ & Hn & Himgs & Hall & _ & Hcw & Hch
        & Hfill & Hw' & Hh' & _ & _ & Hpx).
  destruct (run_geometry _ _ _ _ _ _ Hn Himgs Hall Hcw Hch) as (Hcs & Hcols & Hrows).
  unfold stitch_images_canvas in Hrun.
  rewrite (bind_run_Return _ _ _ _ _ Hprompt) in Hrun.
  apply compose_canvas_Return_loop in Hrun
    as (fillr' & w6 & _ & Hfill' & _ & _ & _ & _ & Hloop).
  rewrite (fill_of_unique _ _ _ _ _ _ Hfill' Hfill) in Hloop.
  assert (∀ X Y, 0 ≤ X < width (result L) → 0 ≤ Y < height (result L) →
            Raster.getpixel (result L) X Y =
            Some (loop_px grid_cols (cell_size L) fillr 0
                    (keyed process_colorkey colorkey <$> imgs) X Y transparent))
    as Hpixels.
  { intros X Y HX HY. rewrite Hpx, getpixel_new by lia. done. }
  exists imgs, fillr, w6. rewrite Hfs.
  split; [done|]. split; [done|]. split; [by rewrite Hw', Hh'|].
  split; [exact Hpixels|].
  intros X Y HX HY Hout. rewrite Hpixels by done. f_equal.
  apply loop_px_frame.
  - intros fill_image. by eapply fill_of_fits.
  - by apply keyed_fits.
  - rewrite length_fmap, <- (Forall2_length _ _ _ Himgs). intros j Hj. apply Hout. lia.
Qed.

Lemma canvas_dimensions_witness :
  Sample.canvas_run = (Return Sample.locals, Sample.canvas_run.2) ∧
  width (result Sample.locals) = 2 * cell_size Sample.locals ∧
  height (result Sample.locals) = 2 * cell_size Sample.locals ∧
  Raster.getpixel
    (Raster.new transparent (width (result Sample.locals)) (height (result Sample.locals)))
    3 3
  = Some transparent ∧
  Raster.getpixel (result Sample.locals) 3 3 = Some transparent.
Proof.
  split; [exact sample_canvas_run_eq|].
  pose proof (canvas_dimensions _ _ _ _ _ _ _ _ _ _ _ _ sample_canvas_run_eq)
    as (Hw & Hh & _ & _ & Hnew & imgs & fillr & w6 & _ & _ & _ & _ & Hrest).
  split; [exact Hw|]. split; [exact Hh|].
  split; [apply Hnew; vm_compute; split; congruence|].
  apply Hrest.
  - vm_compute. split; congruence.
  - vm_compute. split; congruence.
  - intros j Hj.
    assert (Z.of_nat (length (image_files Sample.locals)) = 2) as Hlen
      by (vm_compute; reflexivity).
    rewrite Hlen in Hj.
    assert (j = 0 ∨ j = 1) as [->| ->] by lia;
      intros [[_ H1] [_ H2]]; vm_compute in H1, H2;
      first [discriminate H1|discriminate H2].
Defined.

(** C2. In a run that reaches line 122, the input files are the matches
    of the pattern in ascending order of their paths, and the masked
    pastes of the run are, in this order and with nothing between or
    left out, those of the input images, the image of the file at index
    [i] with the offset [((i mod grid_cols) * cell_size,
    (i div grid_cols) * cell_size)].  And that is where the image is on
    the canvas of the result: every pixel of the cell at that offset is
    what the pastes of this one iteration have made of the transparent
    pixel, and the pixel [(dx, dy)] of the image is found at
    [(x_pos + dx, y_pos + dy)], blended by the value of its mask over what
    lies under it there (the pixel of the resized fill image, or the
    transparent pixel), so that an opaque pixel of the image is there as
    it is. *)
Theorem row_major_placement
    (tools : Tools) (directory output : string) (fill : option string) (verbose : bool)
    (colorkey : option (list Z)) (process_colorkey : bool) (grid_rows grid_cols : Z)
    (w w' : World) (L : Locals) :
  stitch_images_canvas tools directory output fill verbose colorkey
    process_colorkey grid_rows grid_cols w = (Return L, w') →
  StronglySorted String.le (image_files L) ∧
  image_files L ≡ₚ glob_png (fs w') directory ∧
  (∃ new,
     calls w' = calls w ++ new ∧
     length (source_pastes new) = length (image_files L) ∧
     ∀ (i : nat) p,
       image_files L !! i = Some p →
       ∃ img,
         decode (fs w') p = Return img ∧
         source_pastes new !! i =
         Some (Call.paste (keyed process_colorkey colorkey img)
                 ((Z.of_nat i mod grid_cols) * cell_size L,
                  (Z.of_nat i / grid_cols) * cell_size L)
                 (Some (keyed process_colorkey colorkey img)))) ∧
  ∃ fill_image_resized,
    fill_of tools (fs w') fill (cell_size L) fill_image_resized ∧
    ∀ (i : nat) p img,
      image_files L !! i = Some p →
      decode (fs w') p = Return img →
      let pasted := keyed process_colorkey colorkey img in
      let x_pos := (Z.of_nat i mod grid_cols) * cell_size L in
      let y_pos := (Z.of_nat i / grid_cols) * cell_size L in
      (∀ X Y,
         in_cell grid_cols (cell_size L) (Z.of_nat i) X Y →
         Raster.getpixel (result L) X Y =
         Some (cell_px fill_image_resized pasted x_pos y_pos X Y transparent)) ∧
      ∀ dx dy sp m a,
        Raster.getpixel (Image.convert_RGBA pasted) dx dy = Some sp →
        Image.matte pasted = Some m →
        Raster.getpixel m dx dy = Some a →
        ∃ under,
          match fill_image_resized with
          | Some fill_image =>
              Raster.getpixel (Image.convert_RGBA fill_image) dx dy = Some under
          | None => under = transparent
          end ∧
          Raster.getpixel (result L) (x_pos + dx) (y_pos + dy) =
          Some (Paste.blend_px a under sp) ∧
          (a = U8.full →
           Raster.getpixel (result L) (x_pos + dx) (y_pos + dy) = Some sp).
Proof.
  intros Hrun.
  pose proof (placement_calls _ _ _ _ _ _ _ _ _ _ _ _ Hrun)
    as (Hsorted & Hperm & Hcalls).
  split; [done|]. split; [done|]. split; [done|].
  apply canvas_cell_px in Hrun as (fillr & Hfill & Hcs & _ & _ & Hcell).
  exists fillr. split; [done|].
  intros i p img Hp Hdec pasted x_pos y_pos.
  destruct (Hcell i p img Hp Hdec) as ([Hfw Hfh] & _ & Hpx).
  fold pasted in Hfw, Hfh, Hpx. fold x_pos y_pos in Hpx.
  split; [exact Hpx|].
  intros dx dy sp m a Hsp Hm Ha.
  pose proof (getpixel_Some_inside _ _ _ _ Hsp) as [Hdx Hdy].
  rewrite width_convert_RGBA in Hdx. rewrite height_convert_RGBA in Hdy.
  destruct (fill_pixel tools (fs w') fill (cell_size L) fillr dx dy Hfill)
    as [under Hunder]; [lia..|].
  exists under. split; [done|].
  assert (Raster.getpixel (result L) (x_pos + dx) (y_pos + dy) =
          Some (Paste.blend_px a under sp)) as Heq.
  { rewrite Hpx by (unfold in_cell, x_pos, y_pos; lia). f_equal.
    by apply (cell_px_source fillr pasted m). }
  split; [exact Heq|]. intros ->. by rewrite Heq, blend_px_full.
Qed.

Lemma row_major_placement_witness :
  Sample.canvas_run = (Return Sample.locals, Sample.canvas_run.2) ∧
  StronglySorted String.le (image_files Sample.locals) ∧
  (∃ new,
     calls Sample.canvas_run.2 = calls (Sample.world []) ++ new ∧
     ∃ img,
       decode (fs Sample.canvas_run.2) "in/b.png" = Return img ∧
       source_pastes new !! 1%nat =
       Some (Call.paste (keyed true (Some [255; 0; 228]) img)
               ((Z.of_nat 1 mod 2) * cell_size Sample.locals,
                (Z.of_nat 1 / 2) * cell_size Sample.locals)
               (Some (keyed true (Some [255; 0; 228]) img)))) ∧
  (* the opaque pixel (0, 1) of [in/b.png], the image at index 1 *)
  Raster.getpixel (result Sample.locals)
    ((Z.of_nat 1 mod 2) * cell_size Sample.locals + 0)
    ((Z.of_nat 1 / 2) * cell_size Sample.locals + 1) = Some Sample.red.
Proof.
  split; [exact sample_canvas_run_eq|].
  pose proof (row_major_placement _ _ _ _ _ _ _ _ _ _ _ _ sample_canvas_run_eq)
    as (Hsorted & _ & (new & Hcalls & _ & Hpastes) & fillr & _ & Hpixels).
  split; [exact Hsorted|]. split.
  - exists new. split; [exact Hcalls|].
    apply (Hpastes 1%nat "in/b.png"). vm_compute. reflexivity.
  - assert (image_files Sample.locals !! 1%nat = Some "in/b.png") as Hp
      by (vm_compute; reflexivity).
    assert (decode (fs Sample.canvas_run.2) "in/b.png" = Return Sample.b_png) as Hdec
      by (vm_compute; reflexivity).
    destruct (Hpixels 1%nat "in/b.png" Sample.b_png Hp Hdec) as [_ Hsource].
    destruct (Hsource 0 1 Sample.red (mkRaster 1 2 [Byte.x00; Byte.xff]) Byte.xff)
      as (under & _ & _ & Hopaque).
    + vm_compute. reflexivity.
    + vm_compute. reflexivity.
    + vm_compute. reflexivity.
    + exact (Hopaque eq_refl).
Defined.
